(** * mx_compat: the version-gated compatibility resolver of mx

    A shallow embedding of [mx_compat.py]: the ladder of
    [MxCompatibilityNNN] classes, the lazily built [_versionsMap] table
    ([_ensureCompatLoaded]), [minVersion] and [getMxCompatibility].

    Python objects are modelled as follows.
    - a class is a value of [pyclass]: its [__module__], its [__name__], its
      single base class, the [VersionSpec] its [version()] static method
      returns (when the body defines one) and the constant-returning methods
      of its body; attribute lookup walks the bases (the MRO of a single
      inheritance hierarchy);
    - the module global [_versionsMap] (an [OrderedDict]) is an association
      list in insertion order; it is the only mutable state, threaded through
      a state-and-exception monad [M];
    - a generator is the finite trace of the values it yields followed by the
      exception that ends it, if any;
    - [assert], indexing and attribute errors are values of [exn]. *)

From Stdlib Require Import String Ascii.
From Stdlib Require Import List ZArith NArith Arith Bool Lia.
From Equations Require Import Equations.
Import ListNotations.

(** ** mx.VersionSpec *)

(** Modelled from the spec: the class [mx.VersionSpec] lives in [mx.py],
    which is not part of the sources at hand.  A version is an ordered
    sequence of non-negative integer components; comparison is lexicographic
    and component-wise, the shorter sequence being padded with trailing
    zeros (so that 5.2 and 5.2.0 compare equal). *)
Module Version.

(** Modelled from the spec: the components of a version, most significant
    first. *)
Record t : Type := Make { parts : list N }.

(** Modelled from the spec: [cmp_parts n a b] compares the first [n]
    components, a missing component counting as zero. *)
Fixpoint cmp_parts (n : nat) (a b : list N) : comparison :=
  match n with
  | O => Eq
  | S n' =>
      match N.compare (hd 0%N a) (hd 0%N b) with
      | Eq => cmp_parts n' (tl a) (tl b)
      | c => c
      end
  end.

(** Modelled from the spec: the comparison of two versions, over as many
    components as the longer one has. *)
Definition compare (v w : t) : comparison :=
  cmp_parts (Nat.max (length (parts v)) (length (parts w))) (parts v) (parts w).

(** [v < w], [v == w] and [v <= w] of Python. *)
Definition ltb (v w : t) : bool :=
  match compare v w with Lt => true | _ => false end.
Definition eqb (v w : t) : bool :=
  match compare v w with Eq => true | _ => false end.
Definition leb (v w : t) : bool :=
  match compare v w with Gt => false | _ => true end.

(** Modelled from the spec: parsing of a dotted numeric string; an empty or
    non-numeric component is refused ([None] stands for the
    [MalformedVersion] failure). *)
Definition digit (c : ascii) : option N :=
  let n := N_of_ascii c in
  if ((48 <=? n) && (n <=? 57))%N then Some (n - 48)%N else None.

Fixpoint parse_from (s : string) (cur : option N) (acc : list N) : option (list N) :=
  match s with
  | EmptyString =>
      match cur with
      | Some n => Some (rev (n :: acc))
      | None => None
      end
  | String c s' =>
      if Ascii.eqb c "."%char then
        match cur with
        | Some n => parse_from s' None (n :: acc)
        | None => None
        end
      else
        match digit c with
        | Some d =>
            parse_from s' (Some (10 * match cur with Some n => n | None => 0 end + d)%N) acc
        | None => None
        end
  end.

Definition parse (s : string) : option t :=
  option_map Make (parse_from s None []).

(** A number of components that covers three versions at once. *)
Definition common (a b d : t) : nat :=
  Nat.max (length (parts a)) (Nat.max (length (parts b)) (length (parts d))).

End Version.

(** [mx.VersionSpec] and its comparison operators. *)
Abbreviation VersionSpec := Version.t.
Declare Scope version_scope.
Delimit Scope version_scope with version.
Infix "<?" := Version.ltb : version_scope.
Infix "<=?" := Version.leb : version_scope.
Infix "=?" := Version.eqb : version_scope.
Open Scope string_scope.
Open Scope list_scope.

(** ** Python objects *)

(** The values the capability accessors return. *)
Inductive value : Type :=
| VBool (b : bool)
| VStr (s : string)
| VList (l : list string)
| VPath (components : list string).   (* the result of [os.path.join] *)

(** The bodies of the accessors: each is a single [return]. *)
Inductive body : Type :=
| Return (v : value)                 (* return <constant> *)
| ReturnSuiteDir                     (* return suite.dir *)
| ReturnSuiteDirJoin (s : string).   (* return join(suite.dir, s) *)

(** A class: [object], or a class statement [class name(base)] of module
    [modname] whose body defines [version()] (when [version] is [Some]) and
    the accessors of [methods].  The display methods [__str__] and
    [__repr__] of [MxCompatibility500] are not capability accessors and are
    left out. *)
Inductive pyclass : Type :=
| object : pyclass
| Class (modname name : string) (base : pyclass)
        (version : option VersionSpec) (methods : list (string * body)).

(** [c.__module__], [c.__name__], [c.__bases__]. *)
Definition class_module (c : pyclass) : string :=
  match c with
  | object => "builtins"
  | Class m _ _ _ _ => m
  end.

Definition class_name (c : pyclass) : string :=
  match c with
  | object => "object"
  | Class _ n _ _ _ => n
  end.

Definition class_bases (c : pyclass) : list pyclass :=
  match c with
  | object => []
  | Class _ _ b _ _ => [b]
  end.

(** [clazz == object]. *)
Definition is_object (c : pyclass) : bool :=
  match c with
  | object => true
  | Class _ _ _ _ _ => false
  end.

(** An instance [clazz()]: the classes have no [__init__] and no instance
    attributes, an instance is known by its class. *)
Inductive instance : Type :=
| Instance (cls : pyclass).

Definition class_of (p : instance) : pyclass :=
  match p with Instance c => c end.

(** The nested lists [inspect.getclasstree] returns: an entry is a 2-tuple
    [(class, bases)] or a nested list. *)
#[warnings="-register-all"]
Inductive item : Type :=
| Entry (c : pyclass) (bases : list pyclass)
| Nested (l : list item).

Inductive exn : Type :=
| AssertionError (msg : option item)
| IndexError
| KeyError (k : VersionSpec)
| AttributeError (attr : string)
| TypeError.

Inductive result (A : Type) : Type :=
| Ok (a : A)
| Raise (e : exn).
Arguments Ok {A} a.
Arguments Raise {A} e.

(** *** Attribute lookup along the bases *)

Fixpoint assoc {A : Type} (k : string) (l : list (string * A)) : option A :=
  match l with
  | [] => None
  | (k', a) :: l' => if String.eqb k k' then Some a else assoc k l'
  end.

(** The classes searched for an attribute, in order: the class, its base,
    and so on up to [object]. *)
Fixpoint mro (c : pyclass) : list pyclass :=
  match c with
  | object => [object]
  | Class _ _ b _ _ => c :: mro b
  end.

(** The accessors a class body defines itself. *)
Definition own_methods (c : pyclass) : list (string * body) :=
  match c with
  | object => []
  | Class _ _ _ _ ms => ms
  end.

Definition own_version (c : pyclass) : option VersionSpec :=
  match c with
  | object => None
  | Class _ _ _ v _ => v
  end.

Fixpoint getattr (c : pyclass) (attr : string) : option body :=
  match c with
  | object => None
  | Class _ _ b _ ms =>
      match assoc attr ms with
      | Some f => Some f
      | None => getattr b attr
      end
  end.

(** [clazz.version()]: the static method found along the bases. *)
Fixpoint class_version (c : pyclass) : result VersionSpec :=
  match c with
  | object => Raise (AttributeError "version")
  | Class _ _ b (Some v) _ => Ok v
  | Class _ _ b None _ => class_version b
  end.

Definition run_body (f : body) (args : list value) : result value :=
  match f, args with
  | Return v, [] => Ok v
  | ReturnSuiteDir, [VStr dir] => Ok (VStr dir)
  | ReturnSuiteDirJoin s, [VStr dir] => Ok (VPath [dir; s])
  | _, _ => Raise TypeError
  end.

(** [p.attr(args)]; the [suite] argument of [getSuiteOutputRoot] is given by
    its [dir]. *)
Definition call (p : instance) (attr : string) (args : list value) : result value :=
  match getattr (class_of p) attr with
  | Some f => run_body f args
  | None => Raise (AttributeError attr)
  end.

(** [p.version()]. *)
Definition version_of (p : instance) : result VersionSpec :=
  class_version (class_of p).

(** ** The compatibility ladder of mx_compat.py *)

Definition MxCompatibility500 : pyclass :=
  Class "mx_compat" "MxCompatibility500" object
    (Some (Version.Make [5; 0; 0]%N)) (* mx.VersionSpec("5.0.0") *)
    [("supportsLicenses", Return (VBool false));
     ("licenseAttribute", Return (VStr "licence"));
     ("licensesAttribute", Return (VStr "licences"));
     ("defaultLicenseAttribute", Return (VStr "defaultLicence"));
     ("supportedMavenMetadata", Return (VList []));
     ("supportsRepositories", Return (VBool false));
     ("newestInputIsTimeStampFile", Return (VBool false));
     ("getSuiteOutputRoot", ReturnSuiteDir);
     ("mavenDeployJavadoc", Return (VBool false));
     ("mavenSupportsClassifier", Return (VBool false));
     ("checkstyleVersion", Return (VStr "6.0"));
     ("checkDependencyJavaCompliance", Return (VBool false));
     ("improvedImportMatching", Return (VBool false));
     ("verifySincePresent", Return (VList []));
     ("moduleDepsEqualDistDeps", Return (VBool false));
     ("useDistsForUnittest", Return (VBool false));
     ("excludeDisableJavaDebuggging", Return (VBool false));
     ("makePylintVCInputsAbsolute", Return (VBool false));
     ("disableImportOfTestProjects", Return (VBool false));
     ("useJobsForMakeByDefault", Return (VBool false));
     ("overwriteProjectAttributes", Return (VBool true));
     ("requireJsonifiableSuite", Return (VBool false));
     ("supportSuiteImportGitBref", Return (VBool true));
     ("enforceTestDistributions", Return (VBool false));
     ("deprecateIsTestProject", Return (VBool false));
     ("filterFindbugsProjectsByJavaCompliance", Return (VBool false));
     ("addVersionSuffixToExplicitVersion", Return (VBool false));
     ("jarsUseJDKDiscriminant", Return (VBool false));
     ("check_package_locations", Return (VBool false));
     ("check_checkstyle_config", Return (VBool false));
     ("verify_multirelease_projects", Return (VBool false));
     ("spotbugs_version", Return (VStr "3.0.0"))].

Definition MxCompatibility520 : pyclass :=
  Class "mx_compat" "MxCompatibility520" MxCompatibility500
    (Some (Version.Make [5; 2; 0]%N)) (* mx.VersionSpec("5.2.0") *)
    [("supportsLicenses", Return (VBool true));
     ("supportedMavenMetadata", Return (VList ["library-coordinates"; "suite-url"; "suite-developer"; "dist-description"]))].

Definition MxCompatibility521 : pyclass :=
  Class "mx_compat" "MxCompatibility521" MxCompatibility520
    (Some (Version.Make [5; 2; 1]%N)) (* mx.VersionSpec("5.2.1") *)
    [("supportsRepositories", Return (VBool true))].

Definition MxCompatibility522 : pyclass :=
  Class "mx_compat" "MxCompatibility522" MxCompatibility521
    (Some (Version.Make [5; 2; 2]%N)) (* mx.VersionSpec("5.2.2") *)
    [("licenseAttribute", Return (VStr "license"));
     ("licensesAttribute", Return (VStr "licenses"));
     ("defaultLicenseAttribute", Return (VStr "defaultLicense"))].

Definition MxCompatibility533 : pyclass :=
  Class "mx_compat" "MxCompatibility533" MxCompatibility522
    (Some (Version.Make [5; 3; 3]%N)) (* mx.VersionSpec("5.3.3") *)
    [("newestInputIsTimeStampFile", Return (VBool true))].

Definition MxCompatibility555 : pyclass :=
  Class "mx_compat" "MxCompatibility555" MxCompatibility533
    (Some (Version.Make [5; 5; 5]%N)) (* mx.VersionSpec("5.5.5") *)
    [("getSuiteOutputRoot", ReturnSuiteDirJoin "mxbuild")].

Definition MxCompatibility566 : pyclass :=
  Class "mx_compat" "MxCompatibility566" MxCompatibility555
    (Some (Version.Make [5; 6; 6]%N)) (* mx.VersionSpec("5.6.6") *)
    [("mavenDeployJavadoc", Return (VBool true))].

Definition MxCompatibility5616 : pyclass :=
  Class "mx_compat" "MxCompatibility5616" MxCompatibility566
    (Some (Version.Make [5; 6; 16]%N)) (* mx.VersionSpec("5.6.16") *)
    [("checkstyleVersion", Return (VStr "6.15"))].

Definition MxCompatibility59 : pyclass :=
  Class "mx_compat" "MxCompatibility59" MxCompatibility5616
    (Some (Version.Make [5; 9; 0]%N)) (* mx.VersionSpec("5.9.0") *)
    [("verifySincePresent", Return (VList ["-verifysincepresent"]))].

Definition MxCompatibility5200 : pyclass :=
  Class "mx_compat" "MxCompatibility5200" MxCompatibility59
    (Some (Version.Make [5; 20; 0]%N)) (* mx.VersionSpec("5.20.0") *)
    [("checkDependencyJavaCompliance", Return (VBool true));
     ("improvedImportMatching", Return (VBool true))].

Definition MxCompatibility5344 : pyclass :=
  Class "mx_compat" "MxCompatibility5344" MxCompatibility5200
    (Some (Version.Make [5; 34; 4]%N)) (* mx.VersionSpec("5.34.4") *)
    [("moduleDepsEqualDistDeps", Return (VBool true))].

Definition MxCompatibility5590 : pyclass :=
  Class "mx_compat" "MxCompatibility5590" MxCompatibility5344
    (Some (Version.Make [5; 59; 0]%N)) (* mx.VersionSpec("5.59.0") *)
    [("useDistsForUnittest", Return (VBool true))].

Definition MxCompatibility5680 : pyclass :=
  Class "mx_compat" "MxCompatibility5680" MxCompatibility5590
    (Some (Version.Make [5; 68; 0]%N)) (* mx.VersionSpec("5.68.0") *)
    [("excludeDisableJavaDebuggging", Return (VBool true))].

Definition MxCompatibility51104 : pyclass :=
  Class "mx_compat" "MxCompatibility51104" MxCompatibility5680
    (Some (Version.Make [5; 110; 4]%N)) (* mx.VersionSpec("5.110.4") *)
    [("makePylintVCInputsAbsolute", Return (VBool true))].

Definition MxCompatibility51120 : pyclass :=
  Class "mx_compat" "MxCompatibility51120" MxCompatibility51104
    (Some (Version.Make [5; 113; 0]%N)) (* mx.VersionSpec("5.113.0") *)
    [("disableImportOfTestProjects", Return (VBool true))].

Definition MxCompatibility51150 : pyclass :=
  Class "mx_compat" "MxCompatibility51150" MxCompatibility51120
    (Some (Version.Make [5; 115; 0]%N)) (* mx.VersionSpec("5.115.0") *)
    [("useJobsForMakeByDefault", Return (VBool true))].

Definition MxCompatibility51247 : pyclass :=
  Class "mx_compat" "MxCompatibility51247" MxCompatibility51150
    (Some (Version.Make [5; 124; 7]%N)) (* mx.VersionSpec("5.124.7") *)
    [("overwriteProjectAttributes", Return (VBool false))].

Definition MxCompatibility51330 : pyclass :=
  Class "mx_compat" "MxCompatibility51330" MxCompatibility51247
    (Some (Version.Make [5; 133; 0]%N)) (* mx.VersionSpec("5.133.0") *)
    [("requireJsonifiableSuite", Return (VBool true))].

Definition MxCompatibility51380 : pyclass :=
  Class "mx_compat" "MxCompatibility51380" MxCompatibility51330
    (Some (Version.Make [5; 138; 0]%N)) (* mx.VersionSpec("5.138.0") *)
    [("supportSuiteImportGitBref", Return (VBool false))].

Definition MxCompatibility51400 : pyclass :=
  Class "mx_compat" "MxCompatibility51400" MxCompatibility51380
    (Some (Version.Make [5; 140; 0]%N)) (* mx.VersionSpec("5.140.0") *)
    [("enforceTestDistributions", Return (VBool true));
     ("deprecateIsTestProject", Return (VBool true))].

Definition MxCompatibility51492 : pyclass :=
  Class "mx_compat" "MxCompatibility51492" MxCompatibility51400
    (Some (Version.Make [5; 149; 2]%N)) (* mx.VersionSpec("5.149.2") *)
    [("filterFindbugsProjectsByJavaCompliance", Return (VBool true))].

Definition MxCompatibility51760 : pyclass :=
  Class "mx_compat" "MxCompatibility51760" MxCompatibility51492
    (Some (Version.Make [5; 176; 0]%N)) (* mx.VersionSpec("5.176.0") *)
    [("addVersionSuffixToExplicitVersion", Return (VBool true))].

Definition MxCompatibility5181 : pyclass :=
  Class "mx_compat" "MxCompatibility5181" MxCompatibility51760
    (Some (Version.Make [5; 181; 0]%N)) (* mx.VersionSpec("5.181.0") *)
    [("jarsUseJDKDiscriminant", Return (VBool true))].

Definition MxCompatibility5194 : pyclass :=
  Class "mx_compat" "MxCompatibility5194" MxCompatibility5181
    (Some (Version.Make [5; 194; 0]%N)) (* mx.VersionSpec("5.194.0") *)
    [("check_package_locations", Return (VBool true))].

Definition MxCompatibility51950 : pyclass :=
  Class "mx_compat" "MxCompatibility51950" MxCompatibility5194
    (Some (Version.Make [5; 195; 0]%N)) (* mx.VersionSpec("5.195.0") *)
    [("mavenSupportsClassifier", Return (VBool true))].

Definition MxCompatibility51951 : pyclass :=
  Class "mx_compat" "MxCompatibility51951" MxCompatibility51950
    (Some (Version.Make [5; 195; 1]%N)) (* mx.VersionSpec("5.195.1") *)
    [("check_checkstyle_config", Return (VBool true))].

Definition MxCompatibility52061 : pyclass :=
  Class "mx_compat" "MxCompatibility52061" MxCompatibility51951
    (Some (Version.Make [5; 206; 1]%N)) (* mx.VersionSpec("5.206.1") *)
    [("verify_multirelease_projects", Return (VBool true))].

Definition MxCompatibility52102 : pyclass :=
  Class "mx_compat" "MxCompatibility52102" MxCompatibility52061
    (Some (Version.Make [5; 210; 2]%N)) (* mx.VersionSpec("5.210.2") *)
    [("spotbugs_version", Return (VStr "3.1.11"))].

(** The version literals of the ladder, as written in the source, with the
    values used above. *)
Definition version_literals : list (string * VersionSpec) :=
  [("5.0.0", Version.Make [5; 0; 0]%N);
   ("5.2.0", Version.Make [5; 2; 0]%N);
   ("5.2.1", Version.Make [5; 2; 1]%N);
   ("5.2.2", Version.Make [5; 2; 2]%N);
   ("5.3.3", Version.Make [5; 3; 3]%N);
   ("5.5.5", Version.Make [5; 5; 5]%N);
   ("5.6.6", Version.Make [5; 6; 6]%N);
   ("5.6.16", Version.Make [5; 6; 16]%N);
   ("5.9.0", Version.Make [5; 9; 0]%N);
   ("5.20.0", Version.Make [5; 20; 0]%N);
   ("5.34.4", Version.Make [5; 34; 4]%N);
   ("5.59.0", Version.Make [5; 59; 0]%N);
   ("5.68.0", Version.Make [5; 68; 0]%N);
   ("5.110.4", Version.Make [5; 110; 4]%N);
   ("5.113.0", Version.Make [5; 113; 0]%N);
   ("5.115.0", Version.Make [5; 115; 0]%N);
   ("5.124.7", Version.Make [5; 124; 7]%N);
   ("5.133.0", Version.Make [5; 133; 0]%N);
   ("5.138.0", Version.Make [5; 138; 0]%N);
   ("5.140.0", Version.Make [5; 140; 0]%N);
   ("5.149.2", Version.Make [5; 149; 2]%N);
   ("5.176.0", Version.Make [5; 176; 0]%N);
   ("5.181.0", Version.Make [5; 181; 0]%N);
   ("5.194.0", Version.Make [5; 194; 0]%N);
   ("5.195.0", Version.Make [5; 195; 0]%N);
   ("5.195.1", Version.Make [5; 195; 1]%N);
   ("5.206.1", Version.Make [5; 206; 1]%N);
   ("5.210.2", Version.Make [5; 210; 2]%N)].

(** ** The state: the module global [_versionsMap] *)

(** An [OrderedDict] keyed by [VersionSpec]: the items in insertion order.
    Keys are compared with [==]. *)
Definition OrderedDict : Type := list (VersionSpec * instance).

(** [d[k] = p]: the value of an existing key is replaced in place, a new key
    is appended. *)
Fixpoint setitem (d : OrderedDict) (k : VersionSpec) (p : instance) : OrderedDict :=
  match d with
  | [] => [(k, p)]
  | (k', p') :: d' =>
      if (k' =? k)%version then (k', p) :: d' else (k', p') :: setitem d' k p
  end.

(** [d[k]]. *)
Fixpoint getitem (d : OrderedDict) (k : VersionSpec) : result instance :=
  match d with
  | [] => Raise (KeyError k)
  | (k', p) :: d' => if (k' =? k)%version then Ok p else getitem d' k
  end.

(** [list(d)], [list(d.keys())]. *)
Definition keys (d : OrderedDict) : list VersionSpec := map fst d.

(** [l[i]] on a Python list: a negative index counts from the end. *)
Definition list_index {A : Type} (l : list A) (i : Z) : result A :=
  let n := Z.of_nat (List.length l) in
  let j := if (i <? 0)%Z then (i + n)%Z else i in
  if ((j <? 0) || (n <=? j))%Z then Raise IndexError
  else match nth_error l (Z.to_nat j) with
       | Some a => Ok a
       | None => Raise IndexError
       end.

(** Computations over the state that return or raise. *)
Definition M (A : Type) : Type := OrderedDict -> result A * OrderedDict.

Definition ret {A : Type} (a : A) : M A := fun vm => (Ok a, vm).

Definition raise {A : Type} (e : exn) : M A := fun vm => (Raise e, vm).

Definition bind {A B : Type} (c : M A) (k : A -> M B) : M B :=
  fun vm =>
    match c vm with
    | (Ok a, vm') => k a vm'
    | (Raise e, vm') => (Raise e, vm')
    end.

Definition lift {A : Type} (r : result A) : M A := fun vm => (r, vm).

Definition get_versionsMap : M OrderedDict := fun vm => (Ok vm, vm).

Definition set_versionsMap (k : VersionSpec) (p : instance) : M unit :=
  fun vm => (Ok tt, setitem vm k p).

Declare Scope py_scope.
Delimit Scope py_scope with py.
Notation "x <- c ;; k" := (bind c (fun x => k))
  (at level 61, c at next level, right associativity) : py_scope.
Notation "c ;; k" := (bind c (fun _ => k))
  (at level 61, right associativity) : py_scope.
Open Scope py_scope.

(** ** bisect.bisect_right *)

(** The loop of [bisect_right(a, x)]:
    [while lo < hi: mid = (lo+hi)//2; if x < a[mid]: hi = mid else: lo = mid+1]. *)
Equations? bisect_loop (a : list VersionSpec) (x : VersionSpec) (lo hi : nat)
  : result nat by wf (hi - lo) lt :=
  bisect_loop a x lo hi with lt_dec lo hi => {
    | right _ := Ok lo;
    | left _ with nth_error a ((lo + hi) / 2) => {
        | None := Raise IndexError;
        | Some y with (x <? y)%version => {
            | true := bisect_loop a x lo ((lo + hi) / 2);
            | false := bisect_loop a x ((lo + hi) / 2 + 1) hi } } }.
Proof.
  all: change (fst (Nat.divmod (lo + hi) 1 0 1)) with ((lo + hi) / 2);
    pose proof (Nat.div_mod_eq (lo + hi) 2);
    pose proof (Nat.mod_upper_bound (lo + hi) 2); lia.
Qed.

Definition bisect_right (a : list VersionSpec) (x : VersionSpec) : result nat :=
  bisect_loop a x 0 (List.length a).

(** ** Reflection: re, inspect.getmembers, inspect.getclasstree *)

(** [re.compile(r'^MxCompatibility[0-9a-z]*$').match(name)]; [$] also
    matches before a final newline. *)
Definition is_lower_alnum (c : ascii) : bool :=
  let n := N_of_ascii c in
  (((48 <=? n) && (n <=? 57)) || ((97 <=? n) && (n <=? 122)))%N.

Fixpoint all_lower_alnum_to_end (s : string) : bool :=
  match s with
  | EmptyString => true
  | String c EmptyString => is_lower_alnum c || Ascii.eqb c "010"%char
  | String c s' => is_lower_alnum c && all_lower_alnum_to_end s'
  end.

Fixpoint strip_prefix (p s : string) : option string :=
  match p, s with
  | EmptyString, _ => Some s
  | String a p', String b s' => if Ascii.eqb a b then strip_prefix p' s' else None
  | String _ _, EmptyString => None
  end.

Definition regex_match (name : string) : bool :=
  match strip_prefix "MxCompatibility" name with
  | Some rest => all_lower_alnum_to_end rest
  | None => false
  end.

(** A stable sort, as [list.sort] and [sorted] are. *)
Fixpoint insert_sorted {A : Type} (le : A -> A -> bool) (x : A) (l : list A) : list A :=
  match l with
  | [] => [x]
  | y :: l' => if le x y then x :: l else y :: insert_sorted le x l'
  end.

Fixpoint sort_by {A : Type} (le : A -> A -> bool) (l : list A) : list A :=
  match l with
  | [] => []
  | x :: l' => insert_sorted le x (sort_by le l')
  end.

(** [inspect.getmembers(module, inspect.isclass)]: the class-valued
    attributes of the module as (name, value) pairs sorted by name. *)
Definition getmembers_isclass (module_classes : list (string * pyclass))
  : list (string * pyclass) :=
  sort_by (fun a b => String.leb (fst a) (fst b)) module_classes.

(** Identity of class objects: a class is known by its declaration. *)
Definition value_eqb (v w : value) : bool :=
  match v, w with
  | VBool a, VBool b => Bool.eqb a b
  | VStr a, VStr b => String.eqb a b
  | VList a, VList b => if list_eq_dec string_dec a b then true else false
  | VPath a, VPath b => if list_eq_dec string_dec a b then true else false
  | _, _ => false
  end.

Definition body_eqb (f g : body) : bool :=
  match f, g with
  | Return v, Return w => value_eqb v w
  | ReturnSuiteDir, ReturnSuiteDir => true
  | ReturnSuiteDirJoin a, ReturnSuiteDirJoin b => String.eqb a b
  | _, _ => false
  end.

Fixpoint methods_eqb (l m : list (string * body)) : bool :=
  match l, m with
  | [], [] => true
  | (a, f) :: l', (b, g) :: m' => String.eqb a b && body_eqb f g && methods_eqb l' m'
  | _, _ => false
  end.

Definition own_version_eqb (v w : option VersionSpec) : bool :=
  match v, w with
  | None, None => true
  | Some a, Some b =>
      if list_eq_dec N.eq_dec (Version.parts a) (Version.parts b) then true else false
  | _, _ => false
  end.

Fixpoint class_eqb (c d : pyclass) : bool :=
  match c, d with
  | object, object => true
  | Class m1 n1 b1 v1 ms1, Class m2 n2 b2 v2 ms2 =>
      String.eqb m1 m2 && String.eqb n1 n2 && class_eqb b1 b2
      && own_version_eqb v1 v2 && methods_eqb ms1 ms2
  | _, _ => false
  end.

Definition class_in (c : pyclass) (l : list pyclass) : bool :=
  existsb (class_eqb c) l.

(** The [children] dictionary of [getclasstree]: parent to children, in
    insertion order. *)
Definition children_map : Type := list (pyclass * list pyclass).

Fixpoint children_get (children : children_map) (c : pyclass) : option (list pyclass) :=
  match children with
  | [] => None
  | (p, cs) :: rest => if class_eqb p c then Some cs else children_get rest c
  end.

(** [if parent not in children: children[parent] = []]
    [if c not in children[parent]: children[parent].append(c)] *)
Fixpoint children_add (children : children_map) (parent c : pyclass) : children_map :=
  match children with
  | [] => [(parent, [c])]
  | (p, cs) :: rest =>
      if class_eqb p parent
      then (p, if class_in c cs then cs else cs ++ [c]) :: rest
      else (p, cs) :: children_add rest parent c
  end.

(** The sort key [attrgetter('__module__', '__name__')] of [walktree]. *)
Definition key_leb (c d : pyclass) : bool :=
  match String.compare (class_module c) (class_module d) with
  | Lt => true
  | Gt => false
  | Eq => String.leb (class_name c) (class_name d)
  end.

(** [inspect.walktree(classes, children, parent)].  The recursion follows
    the [children] dictionary; [fuel] bounds its depth. *)
Fixpoint walktree (fuel : nat) (classes : list pyclass) (children : children_map)
  : list item :=
  match fuel with
  | O => []
  | S fuel' =>
      flat_map
        (fun c =>
           Entry c (class_bases c)
             :: match children_get children c with
                | Some cs => [Nested (walktree fuel' cs children)]
                | None => []
                end)
        (sort_by key_leb classes)
  end.

(** The first loop of [inspect.getclasstree(classes)]: the [children]
    dictionary and the classes without bases. *)
Definition class_relations (classes : list pyclass) : children_map * list pyclass :=
  fold_left
    (fun (acc : children_map * list pyclass) (c : pyclass) =>
       let '(children, roots) := acc in
       match class_bases c with
       | [] => (children, if class_in c roots then roots else roots ++ [c])
       | bases =>
           (fold_left (fun ch parent => children_add ch parent c) bases children,
            roots)
       end)
    classes ([], []).

Definition getclasstree_upto (fuel : nat) (classes : list pyclass) : list item :=
  let '(children, roots) := class_relations classes in
  let roots :=
    roots ++ filter (fun parent => negb (class_in parent classes)) (map fst children) in
  walktree fuel roots children.

(** The number of classes along the bases of [c], [c] included. *)
Fixpoint class_depth (c : pyclass) : nat :=
  match c with
  | object => 1
  | Class _ _ b _ _ => S (class_depth b)
  end.

Definition height (classes : list pyclass) : nat :=
  fold_right Nat.max 0 (map class_depth classes).

(** [inspect.getclasstree(classes)].  Below a root the tree holds members
    of [classes], each one level deeper than its parent: the recursion of
    [walktree] is never deeper than [S (height classes)]. *)
Definition getclasstree (classes : list pyclass) : list item :=
  getclasstree_upto (S (height classes)) classes.

(** ** _ensureCompatLoaded, minVersion, getMxCompatibility *)

(** A generator, run to its end: the values yielded, in order, then the
    exception that ended it ([None] when it returned). *)
Definition generator (A : Type) : Type := (list A * option exn)%type.

(** One activation of [flattenClassTree(tree)]; [self] is the recursive call
    on the nested list [tree[1]]. *)
Definition flatten_step (self : item -> generator pyclass) (tree : list item)
  : generator pyclass :=
  match tree with
  | [] => ([], Some IndexError)                          (* tree[0] *)
  | Nested [] :: _ => ([], Some IndexError)              (* tree[0][0] *)
  | Nested (x :: _) :: _ =>
      ([], Some (AssertionError (Some x)))               (* isinstance(root, type) *)
  | Entry root _ :: more =>
      match more with
      | [] => ([root], None)
      | _ :: _ :: _ => ([root], Some (AssertionError None))    (* len(tree) == 2 *)
      | [rest] =>
          match rest with
          | Entry _ _ =>
              ([root], Some (AssertionError (Some rest)))      (* isinstance(rest, list) *)
          | Nested _ => let '(cs, e) := self rest in (root :: cs, e)
          end
      end
  end.

Fixpoint flatten_nested (t : item) : generator pyclass :=
  match t with
  | Entry _ _ => ([], None)
  | Nested tree => flatten_step flatten_nested tree
  end.

Definition flattenClassTree (tree : list item) : generator pyclass :=
  flatten_step flatten_nested tree.

(** The body of the loop [for clazz in flattenClassTree(...)], over the
    values still to come from the generator. *)
Fixpoint build_loop (clazzes : list pyclass) (stop : option exn)
         (previousVersion : option VersionSpec) : M unit :=
  match clazzes with
  | [] =>
      match stop with
      | None => ret tt
      | Some e => raise e
      end
  | clazz :: rest =>
      if is_object clazz then build_loop rest stop previousVersion
      else
        holds <- match previousVersion with
                 | None => ret true
                 | Some pv => v <- lift (class_version clazz) ;; ret (pv <? v)%version
                 end ;;
        if holds : bool then
          v <- lift (class_version clazz) ;;
          set_versionsMap v (Instance clazz) ;;
          build_loop rest stop (Some v)
        else raise (AssertionError None)
  end.

Section Module_mx_compat.

(** The class-valued attributes of the module, by name. *)
Variable module_classes : list (string * pyclass).

(** The list [classes] collected from [inspect.getmembers]. *)
Definition matching_classes : list pyclass :=
  map snd (filter (fun m => regex_match (fst m)) (getmembers_isclass module_classes)).

Definition _ensureCompatLoaded : M unit :=
  _versionsMap <- get_versionsMap ;;
  match _versionsMap with
  | [] =>
      let '(clazzes, stop) := flattenClassTree (getclasstree matching_classes) in
      build_loop clazzes stop None
  | _ :: _ => ret tt
  end.

Definition minVersion : M VersionSpec :=
  _ensureCompatLoaded ;;
  _versionsMap <- get_versionsMap ;;
  lift (list_index (keys _versionsMap) 0).

(** [None] is Python's [None]. *)
Definition getMxCompatibility (version : VersionSpec) : M (option instance) :=
  least <- minVersion ;;
  if (version <? least)%version then ret None
  else
    _versionsMap <- get_versionsMap ;;
    let keys := keys _versionsMap in
    i <- lift (bisect_right keys version) ;;
    k <- lift (list_index keys (Z.of_nat i - 1)) ;;
    p <- lift (getitem _versionsMap k) ;;
    ret (Some p).

End Module_mx_compat.

(** The classes of the module mx_compat itself: the ladder, and the imported
    [OrderedDict]. *)
Definition py_dict : pyclass := Class "builtins" "dict" object None [].
Definition py_OrderedDict : pyclass := Class "collections" "OrderedDict" py_dict None [].

Definition mx_compat_ladder : list pyclass :=
  [MxCompatibility500; MxCompatibility520; MxCompatibility521; MxCompatibility522;
   MxCompatibility533; MxCompatibility555; MxCompatibility566; MxCompatibility5616;
   MxCompatibility59; MxCompatibility5200; MxCompatibility5344; MxCompatibility5590;
   MxCompatibility5680; MxCompatibility51104; MxCompatibility51120; MxCompatibility51150;
   MxCompatibility51247; MxCompatibility51330; MxCompatibility51380; MxCompatibility51400;
   MxCompatibility51492; MxCompatibility51760; MxCompatibility5181; MxCompatibility5194;
   MxCompatibility51950; MxCompatibility51951; MxCompatibility52061; MxCompatibility52102].

Definition mx_compat_classes : list (string * pyclass) :=
  ("OrderedDict", py_OrderedDict) :: map (fun c => (class_name c, c)) mx_compat_ladder.

(** The table the module builds on first use. *)
Definition mx_compat_table : OrderedDict :=
  map (fun c => (match own_version c with Some v => v | None => Version.Make [] end,
                 Instance c)) mx_compat_ladder.

(** ** Predicates of the statements *)

(** Every key is strictly smaller than its successor. *)
Fixpoint strictly_ascending (l : list VersionSpec) : bool :=
  match l with
  | [] => true
  | x :: l' =>
      match l' with
      | [] => true
      | y :: _ => (x <? y)%version && strictly_ascending l'
      end
  end.

(** The same, by positions. *)
Definition ascending_at (a : list VersionSpec) : Prop :=
  forall i j y z, i < j -> nth_error a i = Some y -> nth_error a j = Some z ->
                  (y <? z)%version = true.

(** The classes the loop records: those yielded, [object] apart. *)
Definition chain_of (clazzes : list pyclass) : list pyclass :=
  filter (fun c => negb (is_object c)) clazzes.

(** [previousVersion] is the key entered last. *)
Definition tracks (pv : option VersionSpec) (vm : OrderedDict) : Prop :=
  match pv with
  | None => vm = []
  | Some k => exists init p, vm = init ++ [(k, p)]
  end.

Definition is_entry (t : item) : bool :=
  match t with
  | Entry _ _ => true
  | Nested _ => false
  end.

(** A nested list holds the direct children of the class it follows: a
    class has more than one direct child when a nested list holds two
    entries or more. *)
Fixpoint item_branching (t : item) : bool :=
  match t with
  | Entry _ _ => false
  | Nested l => (2 <=? List.length (filter is_entry l))%nat || existsb item_branching l
  end.

Definition branching (tree : list item) : bool := existsb item_branching tree.

(** The shape [inspect.getclasstree] documents: entries, each followed by
    at most one nested list, which is not empty and of the same shape. *)
Fixpoint well_placed (after_entry : bool) (l : list item) : bool :=
  match l with
  | [] => true
  | Entry _ _ :: l' => well_placed true l'
  | Nested _ :: l' => after_entry && well_placed false l'
  end.

Fixpoint well_formed_item (t : item) : bool :=
  match t with
  | Entry _ _ => true
  | Nested l =>
      match l with [] => false | _ :: _ => true end
      && well_placed false l && forallb well_formed_item l
  end.

Definition well_formed (tree : list item) : bool := well_formed_item (Nested tree).

(** Every child recorded is a member of [classes], one level below its
    parent. *)
Definition children_ok (classes : list pyclass) (children : children_map) : Prop :=
  forall p cs, In (p, cs) children ->
  forall c, In c cs -> In c classes /\ class_depth c = S (class_depth p).

(** No class is recorded with an empty list of children. *)
Definition children_nonempty (children : children_map) : Prop :=
  forall p cs, In (p, cs) children -> cs <> [].

(** The items [walktree] appends for one class. *)
Definition walk_class (fuel : nat) (children : children_map) (c : pyclass) : list item :=
  Entry c (class_bases c)
    :: match children_get children c with
       | Some cs => [Nested (walktree fuel cs children)]
       | None => []
       end.

(** ** The ladder as the module declares it *)

Section Declared.

(** The class-valued attributes of the module, by name. *)
Variable module_classes : list (string * pyclass).

(** The sequence of classes [flattenClassTree] yields for the module. *)
Definition flattened : generator pyclass :=
  flattenClassTree (getclasstree (matching_classes module_classes)).

(** The ladder: the classes yielded, [object] apart, in order. *)
Definition declared_chain : list pyclass := chain_of (fst flattened).

End Declared.

(** ** Predicates of the further properties *)

(** A tree that is one path: an entry, then at most one nested list of the
    same kind. *)
Fixpoint linear_item (t : item) : bool :=
  match t with
  | Entry _ _ => false
  | Nested l =>
      match l with
      | [Entry _ _] => true
      | [Entry _ _; r] =>
          match r with
          | Nested _ => linear_item r
          | Entry _ _ => false
          end
      | _ => false
      end
  end.

Definition linear (tree : list item) : bool := linear_item (Nested tree).

(** The classes of the entries of a tree, a class before the classes of the
    nested list that follows it. *)
Fixpoint classes_of (t : item) : list pyclass :=
  match t with
  | Entry c _ => [c]
  | Nested l => flat_map classes_of l
  end.

(** The entry [getMxCompatibility] selects for [v]: it stands at position
    [i], its key is not above [v], and every later key is. *)
Definition resolves_at (tbl : OrderedDict) (v : VersionSpec) (i : nat)
           (k : VersionSpec) (p : instance) : Prop :=
  nth_error tbl i = Some (k, p) /\
  (v <? k)%version = false /\
  forall j e, i < j -> nth_error tbl j = Some e -> (v <? fst e)%version = true.

(** Values of the same Python type. *)
Definition same_kind (v w : value) : bool :=
  match v, w with
  | VBool _, VBool _ => true
  | VStr _, VStr _ => true
  | VList _, VList _ => true
  | VPath _, VPath _ => true
  | _, _ => false
  end.

(** The names of the accessors a class has, its own and those of its
    bases. *)
Fixpoint accessors (c : pyclass) : list string :=
  match c with
  | object => []
  | Class _ _ b _ ms => map fst ms ++ accessors b
  end.





(** A ladder above [b]: each class has the one before it as its only base,
    the first has [b]. *)
Fixpoint is_ladder (b : pyclass) (chain : list pyclass) : Prop :=
  match chain with
  | [] => True
  | c :: rest => class_bases c = [b] /\ is_ladder c rest
  end.

(** What [children] holds once the classes [done] have been seen: under
    each base of one of them, that class alone. *)
Definition children_of_ladder (done : list pyclass) (children : children_map) : Prop :=
  (forall q cs, children_get children q = Some cs ->
                exists c, cs = [c] /\ In c done /\ class_bases c = [q]) /\
  (forall c q, In c done -> class_bases c = [q] -> children_get children q = Some [c]) /\
  NoDup (map fst children).

(** The dictionary links [q] to the classes of [rest], one after the
    other, and the last of them to nothing. *)
Fixpoint linked (children : children_map) (q : pyclass) (rest : list pyclass) : Prop :=
  match rest with
  | [] => children_get children q = None
  | c :: rest' => children_get children q = Some [c] /\ linked children c rest'
  end.

(** One turn of the first loop of [getclasstree]. *)
Definition relations_step (acc : children_map * list pyclass) (c : pyclass)
  : children_map * list pyclass :=
  let '(children, roots) := acc in
  match class_bases c with
  | [] => (children, if class_in c roots then roots else roots ++ [c])
  | bases =>
      (fold_left (fun ch parent => children_add ch parent c) bases children, roots)
  end.

(** What the first loop of [getclasstree] has recorded once the classes
    [done] have been seen: each of them under its base, or among the roots
    when it has no base. *)
Definition relations_cover (done : list pyclass) (acc : children_map * list pyclass)
  : Prop :=
  (forall c q, In c done -> class_bases c = [q] ->
               exists cs, children_get (fst acc) q = Some cs /\ In c cs) /\
  (forall c, In c done -> class_bases c = [] -> In c (snd acc)).

(** Wherever [q] stands among the classes walked, with enough fuel left
    for its level, the tree walked holds a class with two children. *)
Definition leads_to_branching (classes : list pyclass) (children : children_map)
           (q : pyclass) : Prop :=
  forall (fuel : nat) (l : list pyclass),
    height classes + 2 <= fuel + class_depth q ->
    In q l ->
    existsb item_branching (walktree fuel l children) = true.

(** The roots [getclasstree] walks from: the classes without bases, then
    the parents that are not among the classes. *)
Definition final_roots (classes : list pyclass) (children : children_map)
           (roots : list pyclass) : list pyclass :=
  roots ++ filter (fun parent => negb (class_in parent classes)) (map fst children).

(** ** Further hierarchies *)

(** Two ladders that are not strictly increasing: 1.0.0 twice, and 2.0.0
    followed by 1.0.0. *)
Definition Repeated100 : pyclass :=
  Class "mx_compat" "MxCompatibility100" object (Some (Version.Make [1; 0; 0]%N)) [].
Definition Repeated100b : pyclass :=
  Class "mx_compat" "MxCompatibility100b" Repeated100 (Some (Version.Make [1; 0; 0]%N)) [].
Definition repeated_classes : list (string * pyclass) :=
  [("MxCompatibility100", Repeated100); ("MxCompatibility100b", Repeated100b)].

Definition Inverted200 : pyclass :=
  Class "mx_compat" "MxCompatibility200" object (Some (Version.Make [2; 0; 0]%N)) [].
Definition Inverted100 : pyclass :=
  Class "mx_compat" "MxCompatibility100" Inverted200 (Some (Version.Make [1; 0; 0]%N)) [].
Definition inverted_classes : list (string * pyclass) :=
  [("MxCompatibility200", Inverted200); ("MxCompatibility100", Inverted100)].

(** A hierarchy in which a class has two direct children. *)
Definition Fork500 : pyclass :=
  Class "mx_compat" "MxCompatibility500" object (Some (Version.Make [5; 0; 0]%N)) [].
Definition Fork510 : pyclass :=
  Class "mx_compat" "MxCompatibility510" Fork500 (Some (Version.Make [5; 1; 0]%N)) [].
Definition Fork520 : pyclass :=
  Class "mx_compat" "MxCompatibility520" Fork500 (Some (Version.Make [5; 2; 0]%N)) [].
Definition forked_classes : list (string * pyclass) :=
  [("MxCompatibility500", Fork500); ("MxCompatibility510", Fork510);
   ("MxCompatibility520", Fork520)].

(** * Properties *)

(** ** The order on versions *)

Module VersionFacts.

Import Version.

Lemma cmp_parts_nil (n : nat) : cmp_parts n [] [] = Eq.
Proof. induction n as [|n IH]; simpl; auto. Qed.

Lemma cmp_parts_more (n : nat) :
  forall a b, length a <= n -> length b <= n ->
              cmp_parts (S n) a b = cmp_parts n a b.
Proof.
  induction n as [|n IH]; intros a b Ha Hb.
  - destruct a; destruct b; simpl in *; try lia. reflexivity.
  - change (cmp_parts (S (S n)) a b)
      with (match N.compare (hd 0%N a) (hd 0%N b) with
            | Eq => cmp_parts (S n) (tl a) (tl b)
            | c => c
            end).
    rewrite IH.
    + reflexivity.
    + destruct a; simpl in *; lia.
    + destruct b; simpl in *; lia.
Qed.

Lemma cmp_parts_stable (n k : nat) (a b : list N) :
  length a <= n -> length b <= n -> cmp_parts (k + n) a b = cmp_parts n a b.
Proof.
  intros Ha Hb. induction k as [|k IH]; [reflexivity|].
  change (S k + n) with (S (k + n)).
  rewrite cmp_parts_more by lia. exact IH.
Qed.

Lemma compare_at (n : nat) (v w : t) :
  length (parts v) <= n -> length (parts w) <= n ->
  compare v w = cmp_parts n (parts v) (parts w).
Proof.
  intros Hv Hw. unfold compare.
  set (m := Nat.max _ _).
  replace n with ((n - m) + m) by lia.
  symmetry. apply cmp_parts_stable; lia.
Qed.

Lemma cmp_parts_refl (n : nat) (a : list N) : cmp_parts n a a = Eq.
Proof.
  revert a. induction n as [|n IH]; intros a; simpl; [reflexivity|].
  rewrite N.compare_refl. apply IH.
Qed.

Lemma cmp_parts_antisym (n : nat) :
  forall a b, cmp_parts n b a = CompOpp (cmp_parts n a b).
Proof.
  induction n as [|n IH]; intros a b; simpl; [reflexivity|].
  rewrite (N.compare_antisym (hd 0%N a) (hd 0%N b)).
  destruct (N.compare (hd 0%N a) (hd 0%N b)); simpl; auto.
Qed.

(** Mixed transitivity: [a <= b] and [b < d] give [a < d], and so on. *)
Lemma cmp_parts_le_lt (n : nat) :
  forall a b d, cmp_parts n a b <> Gt -> cmp_parts n b d = Lt -> cmp_parts n a d = Lt.
Proof.
  induction n as [|n IH]; intros a b d; simpl; [discriminate 2|].
  destruct (N.compare_spec (hd 0%N a) (hd 0%N b)) as [E1|L1|G1];
    destruct (N.compare_spec (hd 0%N b) (hd 0%N d)) as [E2|L2|G2];
    intros H1 H2; try discriminate; try congruence.
  - rewrite E1, E2, N.compare_refl. eapply IH; eauto.
  - rewrite E1. apply N.compare_lt_iff in L2. rewrite L2. reflexivity.
  - rewrite <- E2. apply N.compare_lt_iff in L1. rewrite L1. reflexivity.
  - assert (L : (hd 0%N a < hd 0%N d)%N) by lia.
    apply N.compare_lt_iff in L. rewrite L. reflexivity.
Qed.

Lemma cmp_parts_lt_le (n : nat) :
  forall a b d, cmp_parts n a b = Lt -> cmp_parts n b d <> Gt -> cmp_parts n a d = Lt.
Proof.
  induction n as [|n IH]; intros a b d; simpl; [discriminate 1|].
  destruct (N.compare_spec (hd 0%N a) (hd 0%N b)) as [E1|L1|G1];
    destruct (N.compare_spec (hd 0%N b) (hd 0%N d)) as [E2|L2|G2];
    intros H1 H2; try discriminate; try congruence.
  - rewrite E1, E2, N.compare_refl. eapply IH; eauto.
  - rewrite E1. apply N.compare_lt_iff in L2. rewrite L2. reflexivity.
  - rewrite <- E2. apply N.compare_lt_iff in L1. rewrite L1. reflexivity.
  - assert (L : (hd 0%N a < hd 0%N d)%N) by lia.
    apply N.compare_lt_iff in L. rewrite L. reflexivity.
Qed.

Lemma compare_refl (v : t) : compare v v = Eq.
Proof. apply cmp_parts_refl. Qed.

Lemma compare_antisym (v w : t) : compare w v = CompOpp (compare v w).
Proof.
  rewrite (compare_at (common v w w) w v), (compare_at (common v w w) v w);
    unfold common; try lia.
  apply cmp_parts_antisym.
Qed.

Lemma ltb_irrefl (v : t) : ltb v v = false.
Proof. unfold ltb. rewrite compare_refl. reflexivity. Qed.

Lemma ltb_trans (a b d : t) : ltb a b = true -> ltb b d = true -> ltb a d = true.
Proof.
  unfold ltb.
  rewrite (compare_at (common a b d) a b),
          (compare_at (common a b d) b d),
          (compare_at (common a b d) a d);
    unfold common; try lia.
  destruct (cmp_parts _ (parts a) (parts b)) eqn:E1; try discriminate.
  destruct (cmp_parts _ (parts b) (parts d)) eqn:E2; try discriminate.
  erewrite cmp_parts_lt_le; eauto; congruence.
Qed.

(** [not (d < b)] and [a < b] give [a < d]... in the form used by the
    binary search: from [b <= d] (that is, [d < b] false). *)
Lemma ltb_le_trans (a b d : t) : ltb a b = true -> ltb d b = false -> ltb a d = true.
Proof.
  unfold ltb. rewrite (compare_antisym b d).
  rewrite (compare_at (common a b d) a b),
          (compare_at (common a b d) b d),
          (compare_at (common a b d) a d);
    unfold common; try lia.
  destruct (cmp_parts _ (parts a) (parts b)) eqn:E1; try discriminate.
  destruct (cmp_parts _ (parts b) (parts d)) eqn:E2; simpl; try discriminate;
    intros _ _; erewrite cmp_parts_lt_le; eauto; congruence.
Qed.

Lemma le_ltb_trans (a b d : t) : ltb b a = false -> ltb b d = true -> ltb a d = true.
Proof.
  unfold ltb. rewrite (compare_antisym a b).
  rewrite (compare_at (common a b d) a b),
          (compare_at (common a b d) b d),
          (compare_at (common a b d) a d);
    unfold common; try lia.
  destruct (cmp_parts _ (parts a) (parts b)) eqn:E1; simpl; try discriminate;
    destruct (cmp_parts _ (parts b) (parts d)) eqn:E2; try discriminate;
    intros _ _; erewrite cmp_parts_le_lt; eauto; congruence.
Qed.

Lemma ltb_asym (a b : t) : ltb a b = true -> ltb b a = false.
Proof.
  unfold ltb. rewrite (compare_antisym a b).
  destruct (compare a b); simpl; congruence.
Qed.

Lemma leb_ltb (a b : t) : leb a b = negb (ltb b a).
Proof.
  unfold leb, ltb. rewrite (compare_antisym a b).
  destruct (compare a b); reflexivity.
Qed.

Lemma eqb_ltb (a b : t) : eqb a b = negb (ltb a b) && negb (ltb b a).
Proof.
  unfold eqb, ltb. rewrite (compare_antisym a b).
  destruct (compare a b); reflexivity.
Qed.

Lemma eqb_refl (a : t) : eqb a a = true.
Proof. unfold eqb. rewrite compare_refl. reflexivity. Qed.

End VersionFacts.

(** ** The literals of the ladder, the search on an example *)

Lemma version_literals_parse :
  forallb (fun sv => match Version.parse (fst sv) with
                     | Some v => if list_eq_dec N.eq_dec (Version.parts v) (Version.parts (snd sv))
                                 then true else false
                     | None => false
                     end) version_literals = true.
Proof. vm_compute. reflexivity. Qed.

Lemma mid_bounds {lo hi : nat} : lo < hi -> lo <= (lo + hi) / 2 < hi.
Proof.
  intros H.
  pose proof (Nat.div_mod_eq (lo + hi) 2) as E.
  pose proof (Nat.mod_upper_bound (lo + hi) 2) as B.
  lia.
Qed.

Example bisect_right_ex :
  bisect_right [Version.Make [1]%N; Version.Make [2]%N; Version.Make [3; 5]%N]
               (Version.Make [2; 0; 0]%N) = Ok 2.
Proof. reflexivity. Qed.

(** ** The order on versions, on lists *)

Lemma strictly_ascending_cons (x y : VersionSpec) (l : list VersionSpec) :
  strictly_ascending (x :: y :: l) = (x <? y)%version && strictly_ascending (y :: l).
Proof. reflexivity. Qed.

Lemma strictly_ascending_tail (x : VersionSpec) (l : list VersionSpec) :
  strictly_ascending (x :: l) = true -> strictly_ascending l = true.
Proof.
  destruct l as [|y l]; [reflexivity|].
  cbn [strictly_ascending]. intros H. apply andb_prop in H. apply H.
Qed.

Lemma strictly_ascending_head (x : VersionSpec) (l : list VersionSpec) :
  strictly_ascending (x :: l) = true -> Forall (fun y => (x <? y)%version = true) l.
Proof.
  revert x. induction l as [|y l IH]; intros x H; constructor.
  - cbn [strictly_ascending] in H. apply andb_prop in H. apply H.
  - pose proof H as H'. cbn [strictly_ascending] in H. apply andb_prop in H.
    destruct H as [Hxy Hl].
    specialize (IH y Hl).
    eapply Forall_impl; [|exact IH].
    intros z Hz. cbv beta in Hz. eapply VersionFacts.ltb_trans; eauto.
Qed.

Lemma ascending_snoc (l : list VersionSpec) (k v : VersionSpec) :
  strictly_ascending (l ++ [k]) = true -> (k <? v)%version = true ->
  strictly_ascending (l ++ [k; v]) = true.
Proof.
  intros Hs Hkv. induction l as [|a l IH].
  - cbn. rewrite Hkv. reflexivity.
  - pose proof (strictly_ascending_tail _ _ Hs) as Ht. specialize (IH Ht).
    destruct l as [|b l].
    + cbn in Hs |- *. apply andb_prop in Hs. destruct Hs as [Hak _].
      rewrite Hak, Hkv. reflexivity.
    + cbn [app] in Hs, IH |- *. rewrite strictly_ascending_cons in Hs |- *.
      apply andb_prop in Hs. destruct Hs as [Hab _]. rewrite Hab, IH. reflexivity.
Qed.

Lemma ascending_app_r (l1 l2 : list VersionSpec) :
  strictly_ascending (l1 ++ l2) = true -> strictly_ascending l2 = true.
Proof.
  induction l1 as [|x l1 IH]; intros H; [exact H|].
  apply IH. apply (strictly_ascending_tail x). exact H.
Qed.

Lemma strictly_ascending_at (a : list VersionSpec) :
  strictly_ascending a = true -> ascending_at a.
Proof.
  induction a as [|x a IH]; intros Hs i j y z Hij Hi Hj.
  - destruct i; discriminate.
  - destruct j as [|j]; [lia|]. cbn in Hj.
    destruct i as [|i].
    + cbn in Hi. injection Hi as <-.
      pose proof (strictly_ascending_head _ _ Hs) as Hall.
      rewrite Forall_forall in Hall. apply Hall. eapply nth_error_In; eauto.
    + cbn in Hi. eapply (IH (strictly_ascending_tail _ _ Hs) i j); eauto. lia.
Qed.

(** ** bisect_right on an ascending list *)

Lemma bisect_loop_spec (a : list VersionSpec) (x : VersionSpec) (lo hi : nat) :
  ascending_at a ->
  lo <= hi -> hi <= List.length a ->
  (forall i y, i < lo -> nth_error a i = Some y -> (x <? y)%version = false) ->
  (forall i y, hi <= i -> nth_error a i = Some y -> (x <? y)%version = true) ->
  exists r, bisect_loop a x lo hi = Ok r /\ lo <= r <= hi /\
            (forall i y, i < r -> nth_error a i = Some y -> (x <? y)%version = false) /\
            (forall i y, r <= i -> nth_error a i = Some y -> (x <? y)%version = true).
Proof.
  intros Hasc. funelim (bisect_loop a x lo hi); intros Hle Hlen Hlow Hhigh.
  all: try match goal with Hlt : ?p < ?q |- _ => pose proof (mid_bounds Hlt) as Hmid end.
  - (* the loop is over *)
    exists lo. repeat split; auto; try lia.
    intros i y Hi. apply Hhigh. lia.
  - (* a[mid] is within the list *)
    match goal with E : nth_error _ _ = None |- _ => apply nth_error_None in E end.
    lia.
  - (* x < a[mid]: hi = mid *)
    match goal with
    | IH : _ -> _ -> _ -> _ -> _ -> exists r, _ |- _ =>
        destruct IH as (r & Hr & Hb & Hlo' & Hhi'); auto; try lia
    end.
    + intros i z Hi Hz.
      destruct (Nat.eq_dec i ((lo + hi) / 2)) as [->|Hne].
      * congruence.
      * eapply VersionFacts.ltb_trans; [eassumption|].
        eapply (Hasc ((lo + hi) / 2) i); eauto. lia.
    + exists r. repeat split; auto; lia.
  - (* not x < a[mid]: lo = mid + 1 *)
    match goal with
    | IH : _ -> _ -> _ -> _ -> _ -> exists r, _ |- _ =>
        destruct IH as (r & Hr & Hb & Hlo' & Hhi'); auto; try lia
    end.
    + intros i z Hi Hz.
      destruct (Nat.eq_dec i ((lo + hi) / 2)) as [->|Hne].
      * congruence.
      * destruct (x <? z)%version eqn:Hxz; [|reflexivity].
        assert (Hzy : (z <? y)%version = true)
          by (eapply (Hasc i ((lo + hi) / 2)); eauto; lia).
        match goal with
        | E : (x <? y)%version = false |- _ =>
            rewrite (VersionFacts.ltb_trans _ _ _ Hxz Hzy) in E; discriminate
        end.
    + exists r. repeat split; auto; lia.
Qed.

Lemma bisect_right_spec (a : list VersionSpec) (x : VersionSpec) :
  strictly_ascending a = true ->
  exists r, bisect_right a x = Ok r /\ r <= List.length a /\
            (forall i y, i < r -> nth_error a i = Some y -> (x <? y)%version = false) /\
            (forall i y, r <= i -> nth_error a i = Some y -> (x <? y)%version = true).
Proof.
  intros Hs. unfold bisect_right.
  destruct (bisect_loop_spec a x 0 (List.length a)) as (r & Hr & Hb & H1 & H2).
  - apply strictly_ascending_at. exact Hs.
  - lia.
  - lia.
  - intros i y Hi. lia.
  - intros i y Hi Hy. assert (nth_error a i = None) by (apply nth_error_None; lia).
    congruence.
  - exists r. repeat split; auto; lia.
Qed.

(** ** Lists and dictionaries *)

Lemma list_index_nth {A : Type} (l : list A) (i : nat) (a : A) :
  nth_error l i = Some a -> list_index l (Z.of_nat i) = Ok a.
Proof.
  intros H. unfold list_index.
  assert (Hi : i < List.length l) by (apply nth_error_Some; congruence).
  destruct (Z.ltb_spec (Z.of_nat i) 0) as [Hn|_]; [lia|].
  destruct (Z.ltb_spec (Z.of_nat i) 0) as [Hn|_]; [lia|].
  destruct (Z.leb_spec (Z.of_nat (List.length l)) (Z.of_nat i)) as [Hn|_]; [lia|].
  cbn [orb]. rewrite Nat2Z.id, H. reflexivity.
Qed.

Lemma getitem_app (pre post : OrderedDict) (k : VersionSpec) (p : instance) :
  Forall (fun e => (fst e <? k)%version = true) pre ->
  getitem (pre ++ (k, p) :: post) k = Ok p.
Proof.
  induction pre as [|[k' p'] pre IH]; intros Hpre; cbn [getitem app].
  - rewrite VersionFacts.eqb_refl. reflexivity.
  - inversion Hpre as [|? ? Hk Hrest]; subst. cbn [fst] in Hk.
    rewrite VersionFacts.eqb_ltb, Hk. cbn [negb andb]. apply IH. exact Hrest.
Qed.

Lemma setitem_new (d : OrderedDict) (k : VersionSpec) (p : instance) :
  Forall (fun e => (fst e <? k)%version = true) d ->
  setitem d k p = d ++ [(k, p)].
Proof.
  induction d as [|[k' p'] d IH]; intros Hd; cbn [setitem app]; [reflexivity|].
  inversion Hd as [|? ? Hk Hrest]; subst. cbn [fst] in Hk.
  rewrite VersionFacts.eqb_ltb, Hk. cbn [negb andb]. rewrite IH by exact Hrest. reflexivity.
Qed.

Lemma keys_length (d : OrderedDict) : List.length (keys d) = List.length d.
Proof. apply length_map. Qed.

Lemma keys_app (d e : OrderedDict) : keys (d ++ e) = keys d ++ keys e.
Proof. apply map_app. Qed.

(** In an ascending list every position before a key holds a smaller one. *)
Lemma ascending_split (l1 l2 : list VersionSpec) (k : VersionSpec) :
  strictly_ascending (l1 ++ k :: l2) = true ->
  Forall (fun y => (y <? k)%version = true) l1 /\
  Forall (fun y => (k <? y)%version = true) l2.
Proof.
  induction l1 as [|a l1 IH]; intros Hs.
  - split; [constructor|]. apply strictly_ascending_head. exact Hs.
  - change ((a :: l1) ++ k :: l2) with (a :: l1 ++ k :: l2) in Hs.
    pose proof (strictly_ascending_head _ _ Hs) as Ha.
    destruct (IH (strictly_ascending_tail _ _ Hs)) as [H1 H2].
    split; [|exact H2]. constructor; [|exact H1].
    rewrite Forall_forall in Ha. apply Ha. apply in_or_app. right. left. reflexivity.
Qed.

(** ** The operations on a table already built *)

Section Lookup.

Variable module_classes : list (string * pyclass).

Lemma ensureCompatLoaded_cached (e : VersionSpec * instance) (tbl : OrderedDict) :
  _ensureCompatLoaded module_classes (e :: tbl) = (Ok tt, e :: tbl).
Proof. reflexivity. Qed.

Lemma minVersion_cached (k : VersionSpec) (p : instance) (tbl : OrderedDict) :
  minVersion module_classes ((k, p) :: tbl) = (Ok k, (k, p) :: tbl).
Proof.
  unfold minVersion, bind. rewrite ensureCompatLoaded_cached.
  unfold get_versionsMap, lift.
  change (keys ((k, p) :: tbl)) with (k :: keys tbl).
  assert (E : list_index (k :: keys tbl) 0 = Ok k)
    by (apply (list_index_nth (k :: keys tbl) 0 k); reflexivity).
  rewrite E. reflexivity.
Qed.

Lemma getMxCompatibility_cached (version k : VersionSpec) (p : instance) (tbl : OrderedDict) :
  getMxCompatibility module_classes version ((k, p) :: tbl) =
    let vm := (k, p) :: tbl in
    if (version <? k)%version then (Ok None, vm)
    else match bisect_right (keys vm) version with
         | Raise e => (Raise e, vm)
         | Ok i =>
             match list_index (keys vm) (Z.of_nat i - 1) with
             | Raise e => (Raise e, vm)
             | Ok key =>
                 match getitem vm key with
                 | Raise e => (Raise e, vm)
                 | Ok q => (Ok (Some q), vm)
                 end
             end
         end.
Proof.
  unfold getMxCompatibility. unfold bind at 1. rewrite minVersion_cached.
  cbv zeta. destruct (version <? k)%version; [reflexivity|].
  unfold bind, get_versionsMap, lift, ret.
  destruct (bisect_right _ _); [|reflexivity].
  destruct (list_index _ _); [|reflexivity].
  destruct (getitem _ _); reflexivity.
Qed.

(** The position found by the search and the entry returned. *)
Lemma lookup_sorted (version : VersionSpec) (pre post : OrderedDict)
      (k : VersionSpec) (p : instance) :
  strictly_ascending (keys (pre ++ (k, p) :: post)) = true ->
  (version <? k)%version = false ->
  Forall (fun e => (version <? fst e)%version = true) post ->
  bisect_right (keys (pre ++ (k, p) :: post)) version = Ok (S (List.length pre)) /\
  list_index (keys (pre ++ (k, p) :: post)) (Z.of_nat (S (List.length pre)) - 1) = Ok k /\
  getitem (pre ++ (k, p) :: post) k = Ok p /\
  getMxCompatibility module_classes version (pre ++ (k, p) :: post)
    = (Ok (Some p), pre ++ (k, p) :: post).
Proof.
  intros Hs Hk Hpost.
  set (vm := pre ++ (k, p) :: post) in *.
  assert (Hnth : nth_error (keys vm) (List.length pre) = Some k).
  { unfold vm. rewrite keys_app, nth_error_app2 by (rewrite keys_length; lia).
    rewrite keys_length, Nat.sub_diag. reflexivity. }
  destruct (bisect_right_spec (keys vm) version Hs) as (r & Hr & Hlen & Hlow & Hhigh).
  assert (Hr1 : List.length pre < r).
  { destruct (Nat.lt_ge_cases (List.length pre) r) as [H|H]; [exact H|].
    rewrite (Hhigh _ _ H Hnth) in Hk. discriminate. }
  assert (Hr2 : r <= S (List.length pre)).
  { destruct (Nat.le_gt_cases r (S (List.length pre))) as [H|H]; [exact H|].
    destruct (nth_error (keys vm) (S (List.length pre))) as [z|] eqn:Hz.
    - assert (Hvz : (version <? z)%version = false) by (eapply Hlow; eauto).
      assert (Hin : In z (keys post)).
      { unfold vm in Hz. rewrite keys_app in Hz.
        rewrite nth_error_app2 in Hz by (rewrite keys_length; lia).
        rewrite keys_length in Hz.
        replace (S (List.length pre) - List.length pre) with 1 in Hz by lia.
        change (nth_error (keys post) 0 = Some z) in Hz.
        eapply nth_error_In. exact Hz. }
      unfold keys in Hin. apply in_map_iff in Hin. destruct Hin as (e & <- & He).
      rewrite Forall_forall in Hpost. rewrite (Hpost e He) in Hvz. discriminate.
    - apply nth_error_None in Hz. lia. }
  assert (r = S (List.length pre)) by lia. subst r.
  assert (Hidx : list_index (keys vm) (Z.of_nat (S (List.length pre)) - 1) = Ok k).
  { replace (Z.of_nat (S (List.length pre)) - 1)%Z with (Z.of_nat (List.length pre)) by lia.
    apply list_index_nth. exact Hnth. }
  assert (Hget : getitem vm k = Ok p).
  { unfold vm. apply getitem_app.
    unfold vm in Hs. rewrite keys_app in Hs.
    change (keys ((k, p) :: post)) with (k :: keys post) in Hs.
    destruct (ascending_split _ _ _ Hs) as [H1 _].
    unfold keys in H1. rewrite Forall_map in H1. exact H1. }
  repeat split; auto.
  assert (Hfirst : exists k0 p0 rest, vm = (k0, p0) :: rest /\ (version <? k0)%version = false).
  { unfold vm in *. destruct pre as [|[k0 p0] pre'].
    - exists k, p, post. split; [reflexivity|exact Hk].
    - exists k0, p0, (pre' ++ (k, p) :: post). split; [reflexivity|].
      destruct (version <? k0)%version eqn:Hv; [|reflexivity].
      assert (Hk0 : (k0 <? k)%version = true).
      { eapply (strictly_ascending_at _ Hs 0 (List.length ((k0, p0) :: pre'))); eauto.
        cbn. lia. }
      rewrite (VersionFacts.ltb_trans _ _ _ Hv Hk0) in Hk. discriminate. }
  destruct Hfirst as (k0 & p0 & rest & Hvm & Hv0).
  rewrite Hvm. rewrite getMxCompatibility_cached. cbv zeta.
  rewrite Hv0. rewrite <- Hvm. rewrite Hr, Hidx, Hget. reflexivity.
Qed.

End Lookup.

(** ** The loop that builds the table *)

Lemma build_loop_step (clazz : pyclass) (rest : list pyclass) (stop : option exn)
      (pv : option VersionSpec) (vm : OrderedDict) :
  build_loop (clazz :: rest) stop pv vm =
    if is_object clazz then build_loop rest stop pv vm
    else match class_version clazz with
         | Raise e => (Raise e, vm)
         | Ok v =>
             if match pv with None => true | Some k => (k <? v)%version end
             then build_loop rest stop (Some v) (setitem vm v (Instance clazz))
             else (Raise (AssertionError None), vm)
         end.
Proof.
  cbn [build_loop]. destruct (is_object clazz); [reflexivity|].
  unfold bind, lift, ret, raise, set_versionsMap.
  destruct pv as [k|]; destruct (class_version clazz) as [v|e]; try reflexivity.
  destruct (k <? v)%version; reflexivity.
Qed.

Lemma build_loop_ok (clazzes : list pyclass) (stop : option exn) :
  forall (pv : option VersionSpec) (vm vm' : OrderedDict),
    build_loop clazzes stop pv vm = (Ok tt, vm') ->
    strictly_ascending (keys vm) = true ->
    tracks pv vm ->
    stop = None /\
    exists added,
      vm' = vm ++ added /\
      strictly_ascending (keys vm') = true /\
      map snd added = map Instance (chain_of clazzes) /\
      Forall2 (fun c k => class_version c = Ok k) (chain_of clazzes) (keys added).
Proof.
  induction clazzes as [|clazz rest IH]; intros pv vm vm' Hrun Hs Htr.
  - cbn in Hrun. destruct stop as [e|]; [discriminate|].
    injection Hrun as <-. split; [reflexivity|].
    exists []. rewrite app_nil_r. repeat split; auto.
  - rewrite build_loop_step in Hrun. unfold chain_of. cbn [filter].
    destruct (is_object clazz) eqn:Hobj; cbn [negb].
    + apply (IH pv vm vm'); assumption.
    + destruct (class_version clazz) as [v|e] eqn:Hv; [|discriminate].
      assert (Hnew : setitem vm v (Instance clazz) = vm ++ [(v, Instance clazz)] /\
                     strictly_ascending (keys (vm ++ [(v, Instance clazz)])) = true).
      { destruct pv as [k|]; cbn in Htr.
        - destruct (k <? v)%version eqn:Hkv; [|discriminate].
          destruct Htr as (init & p0 & ->).
          rewrite keys_app in Hs. change (keys [(k, p0)]) with [k] in Hs.
          split.
          + apply setitem_new. apply Forall_app. split.
            * destruct (ascending_split _ _ _ Hs) as [H1 _].
              unfold keys in H1. rewrite Forall_map in H1.
              eapply Forall_impl; [|exact H1]. intros e He. cbv beta in He.
              eapply VersionFacts.ltb_trans; eauto.
            * constructor; [exact Hkv|constructor].
          + rewrite <- app_assoc. rewrite keys_app.
            change (keys ([(k, p0)] ++ [(v, Instance clazz)])) with [k; v].
            apply ascending_snoc; assumption.
        - subst vm. split; reflexivity. }
      destruct Hnew as [Hset Hs'].
      assert (Hrun' : build_loop rest stop (Some v) (vm ++ [(v, Instance clazz)]) = (Ok tt, vm')).
      { rewrite <- Hset. destruct pv as [k|]; [|exact Hrun].
        destruct (k <? v)%version; [exact Hrun|discriminate]. }
      destruct (IH _ _ _ Hrun' Hs') as (Hstop & added & Hvm' & Hasc & Hsnd & Hver).
      { cbn. exists vm, (Instance clazz). reflexivity. }
      split; [exact Hstop|].
      exists ((v, Instance clazz) :: added). repeat split.
      * rewrite Hvm', <- app_assoc. reflexivity.
      * exact Hasc.
      * cbn [map snd]. f_equal. exact Hsnd.
      * cbn [keys map fst]. constructor; assumption.
Qed.

(** A sequence of versions that is not strictly increasing stops the loop
    at the assertion. *)
Lemma build_loop_not_ascending (clazzes : list pyclass) (stop : option exn) :
  forall (pv : option VersionSpec) (vm : OrderedDict) (vs : list VersionSpec),
    Forall2 (fun c v => class_version c = Ok v) (chain_of clazzes) vs ->
    strictly_ascending (match pv with None => vs | Some k => k :: vs end) = false ->
    fst (build_loop clazzes stop pv vm) = Raise (AssertionError None).
Proof.
  induction clazzes as [|clazz rest IH]; intros pv vm vs Hvs Hbad.
  - inversion Hvs; subst. destruct pv; discriminate.
  - rewrite build_loop_step. unfold chain_of in Hvs. cbn [filter] in Hvs.
    destruct (is_object clazz); cbn [negb] in Hvs.
    + eapply IH; eauto.
    + inversion Hvs as [|? v ? vs' Hv Hrest]; subst. rewrite Hv.
      destruct pv as [k|].
      * rewrite strictly_ascending_cons in Hbad.
        destruct (k <? v)%version; [|reflexivity].
        apply (IH (Some v) _ vs' Hrest). exact Hbad.
      * apply (IH (Some v) _ vs' Hrest). exact Hbad.
Qed.

(** A generator that ends with an exception makes the loop raise. *)
Lemma build_loop_stop (clazzes : list pyclass) (e : exn) :
  forall (pv : option VersionSpec) (vm : OrderedDict),
    exists e', fst (build_loop clazzes (Some e) pv vm) = Raise e'.
Proof.
  induction clazzes as [|clazz rest IH]; intros pv vm.
  - exists e. reflexivity.
  - rewrite build_loop_step. destruct (is_object clazz); [apply IH|].
    destruct (class_version clazz) as [v|e1]; [|exists e1; reflexivity].
    destruct (match pv with None => true | Some k => (k <? v)%version end);
      [apply IH|eexists; reflexivity].
Qed.

(** The state only grows out of [_ensureCompatLoaded]; the other operations
    read it. *)
Section Build.

Variable module_classes : list (string * pyclass).

Lemma ensureCompatLoaded_fresh :
  _ensureCompatLoaded module_classes [] = build_loop (fst (flattened module_classes)) (snd (flattened module_classes)) None [].
Proof.
  unfold _ensureCompatLoaded, bind, get_versionsMap, flattened.
  destruct (flattenClassTree _) as [clazzes stop]. reflexivity.
Qed.

Lemma ensureCompatLoaded_ok (tbl : OrderedDict) :
  _ensureCompatLoaded module_classes [] = (Ok tt, tbl) ->
  snd (flattened module_classes) = None /\
  strictly_ascending (keys tbl) = true /\
  map snd tbl = map Instance (declared_chain module_classes) /\
  Forall2 (fun c k => class_version c = Ok k) (declared_chain module_classes) (keys tbl).
Proof.
  rewrite ensureCompatLoaded_fresh. intros Hrun.
  destruct (build_loop_ok _ _ _ _ _ Hrun) as (Hstop & added & Htbl & Hasc & Hsnd & Hver);
    try reflexivity.
  cbn [app] in Htbl. subst added. auto.
Qed.

Lemma ensureCompatLoaded_again (tbl : OrderedDict) :
  _ensureCompatLoaded module_classes [] = (Ok tt, tbl) ->
  _ensureCompatLoaded module_classes tbl = (Ok tt, tbl).
Proof.
  intros H. destruct tbl as [|e tbl]; [exact H|reflexivity].
Qed.

Lemma minVersion_state (vm : OrderedDict) :
  snd (minVersion module_classes vm) = snd (_ensureCompatLoaded module_classes vm).
Proof.
  unfold minVersion, bind. destruct (_ensureCompatLoaded module_classes vm) as [[[]|e] vm'];
    reflexivity.
Qed.

Lemma getMxCompatibility_state (version : VersionSpec) (vm : OrderedDict) :
  snd (getMxCompatibility module_classes version vm)
  = snd (_ensureCompatLoaded module_classes vm).
Proof.
  rewrite <- minVersion_state.
  unfold getMxCompatibility, bind.
  destruct (minVersion module_classes vm) as [[least|e] vm']; [|reflexivity].
  cbn [snd]. destruct (version <? least)%version; [reflexivity|].
  unfold get_versionsMap, lift, ret.
  destruct (bisect_right _ _); [|reflexivity].
  destruct (list_index _ _); [|reflexivity].
  destruct (getitem _ _); reflexivity.
Qed.

End Build.

Section Fresh.

Variable module_classes : list (string * pyclass).

(** The first call builds the table, then proceeds as any later call. *)
Lemma minVersion_fresh (tbl : OrderedDict) :
  _ensureCompatLoaded module_classes [] = (Ok tt, tbl) ->
  minVersion module_classes [] = minVersion module_classes tbl.
Proof.
  intros H. unfold minVersion, bind.
  rewrite (ensureCompatLoaded_again _ _ H), H. reflexivity.
Qed.

Lemma getMxCompatibility_fresh (version : VersionSpec) (tbl : OrderedDict) :
  _ensureCompatLoaded module_classes [] = (Ok tt, tbl) ->
  getMxCompatibility module_classes version []
  = getMxCompatibility module_classes version tbl.
Proof.
  intros H. unfold getMxCompatibility. unfold bind at 1 4.
  rewrite (minVersion_fresh _ H). reflexivity.
Qed.

End Fresh.

(** ** The recursion bound of getclasstree *)

Lemma class_eqb_depth (c : pyclass) :
  forall d, class_eqb c d = true -> class_depth c = class_depth d.
Proof.
  induction c as [|m n b IH v ms]; intros [|m' n' b' v' ms'] H;
    try discriminate; [reflexivity|].
  cbn in H. cbn. f_equal. apply IH.
  repeat (apply andb_prop in H; destruct H as [H ?]). assumption.
Qed.

Lemma height_bound (classes : list pyclass) (c : pyclass) :
  In c classes -> class_depth c <= height classes.
Proof.
  unfold height. induction classes as [|x l IH]; [intros []|].
  intros [->|Hin]; cbn; [lia|]. specialize (IH Hin). lia.
Qed.

Lemma insert_sorted_In {A : Type} (le : A -> A -> bool) (x : A) (l : list A) (y : A) :
  In y (insert_sorted le x l) -> y = x \/ In y l.
Proof.
  induction l as [|z l IH]; cbn.
  - intros [<-|[]]. left. reflexivity.
  - destruct (le x z); cbn.
    + intros [<-|H]; [left; reflexivity|right; exact H].
    + intros [<-|H]; [right; left; reflexivity|].
      destruct (IH H) as [->|H']; [left; reflexivity|right; right; exact H'].
Qed.

Lemma sort_by_In {A : Type} (le : A -> A -> bool) (l : list A) (y : A) :
  In y (sort_by le l) -> In y l.
Proof.
  induction l as [|x l IH]; cbn; [auto|].
  intros H. destruct (insert_sorted_In _ _ _ _ H) as [->|H']; [left; reflexivity|].
  right. apply IH. exact H'.
Qed.

Lemma flat_map_ext_in {A B : Type} (f g : A -> list B) (l : list A) :
  (forall a, In a l -> f a = g a) -> flat_map f l = flat_map g l.
Proof.
  induction l as [|x l IH]; intros H; cbn; [reflexivity|].
  rewrite (H x (or_introl eq_refl)), IH; [reflexivity|].
  intros a Ha. apply H. right. exact Ha.
Qed.

Lemma children_add_ok (classes : list pyclass) (children : children_map)
      (parent c : pyclass) :
  children_ok classes children ->
  In c classes -> class_depth c = S (class_depth parent) ->
  children_ok classes (children_add children parent c).
Proof.
  intros Hok Hc Hd. induction children as [|[p cs] rest IH]; cbn [children_add].
  - intros p' cs' [[= <- <-]|[]] c' [<-|[]]. split; assumption.
  - assert (Hrest : children_ok classes rest)
      by (intros p' cs' H; apply (Hok p' cs'); right; exact H).
    destruct (class_eqb p parent) eqn:Heq.
    + intros p' cs' [[= <- <-]|H] c' Hc'.
      * destruct (class_in c cs).
        -- apply (Hok p cs); [left; reflexivity|exact Hc'].
        -- apply in_app_or in Hc'. destruct Hc' as [Hc'|[<-|[]]].
           ++ apply (Hok p cs); [left; reflexivity|exact Hc'].
           ++ split; [exact Hc|]. rewrite Hd, (class_eqb_depth _ _ Heq). reflexivity.
      * apply (Hrest p' cs' H c' Hc').
    + intros p' cs' [[= <- <-]|H] c' Hc'.
      * apply (Hok p cs); [left; reflexivity|exact Hc'].
      * apply (IH Hrest p' cs' H c' Hc').
Qed.

Lemma class_relations_ok (classes : list pyclass) :
  children_ok classes (fst (class_relations classes)).
Proof.
  unfold class_relations.
  assert (G : forall l acc,
             (forall c, In c l -> In c classes) ->
             children_ok classes (fst acc) ->
             children_ok classes
               (fst (fold_left
                       (fun (acc : children_map * list pyclass) (c : pyclass) =>
                          let '(children, roots) := acc in
                          match class_bases c with
                          | [] => (children, if class_in c roots then roots else roots ++ [c])
                          | bases =>
                              (fold_left (fun ch parent => children_add ch parent c)
                                         bases children, roots)
                          end) l acc))).
  { induction l as [|c l IH]; intros [children roots] Hl Hok; [exact Hok|].
    cbn [fold_left]. apply IH; [intros x Hx; apply Hl; right; exact Hx|].
    destruct c as [|m n b v ms]; cbn [class_bases fold_left fst]; [exact Hok|].
    apply children_add_ok; [exact Hok|apply Hl; left; reflexivity|reflexivity]. }
  apply G; [auto|]. intros p cs [].
Qed.

Lemma children_get_In (children : children_map) (c : pyclass) (cs : list pyclass) :
  children_get children c = Some cs ->
  exists p, In (p, cs) children /\ class_eqb p c = true.
Proof.
  induction children as [|[p cs'] rest IH]; cbn; [discriminate|].
  destruct (class_eqb p c) eqn:Heq.
  - intros [= <-]. exists p. split; [left; reflexivity|exact Heq].
  - intros H. destruct (IH H) as (q & Hq & Hqc). exists q. split; [right; exact Hq|exact Hqc].
Qed.

Lemma walktree_empty (fuel : nat) (children : children_map) :
  walktree fuel [] children = [].
Proof. destruct fuel; reflexivity. Qed.

Section Fuel.

Variable classes : list pyclass.
Variable children : children_map.
Hypothesis Hok : children_ok classes children.

(** Below the roots: members of [classes], with fuel left for the levels
    below them. *)
Lemma walktree_more_nested (fuel : nat) :
  forall (cs : list pyclass) (k : nat),
    (forall c, In c cs -> In c classes /\ height classes < class_depth c + fuel) ->
    walktree (fuel + k) cs children = walktree fuel cs children.
Proof.
  induction fuel as [|fuel IH]; intros cs k Hcs.
  - destruct cs as [|c cs]; [rewrite !walktree_empty; reflexivity|].
    destruct (Hcs c (or_introl eq_refl)) as [Hin Hd].
    pose proof (height_bound _ _ Hin). lia.
  - cbn [Nat.add walktree]. apply flat_map_ext_in. intros c Hc.
    apply sort_by_In in Hc. destruct (Hcs c Hc) as [Hin Hd].
    destruct (children_get children c) as [cs'|] eqn:Hget; [|reflexivity].
    rewrite IH; [reflexivity|].
    destruct (children_get_In _ _ _ Hget) as (p & Hp & Hpc).
    intros c' Hc'. destruct (Hok p cs' Hp c' Hc') as [Hin' Hd'].
    split; [exact Hin'|]. rewrite Hd', (class_eqb_depth _ _ Hpc). lia.
Qed.

Lemma walktree_more (roots : list pyclass) (k : nat) :
  walktree (S (height classes) + k) roots children
  = walktree (S (height classes)) roots children.
Proof.
  cbn [Nat.add walktree]. apply flat_map_ext_in. intros c Hc.
  destruct (children_get children c) as [cs'|] eqn:Hget; [|reflexivity].
  rewrite walktree_more_nested; [reflexivity|].
  destruct (children_get_In _ _ _ Hget) as (p & Hp & Hpc).
  intros c' Hc'. destruct (Hok p cs' Hp c' Hc') as [Hin' Hd'].
  split; [exact Hin'|]. lia.
Qed.

End Fuel.

(** More fuel than [getclasstree] gives itself changes nothing. *)
Lemma getclasstree_upto_enough (classes : list pyclass) (k : nat) :
  getclasstree_upto (S (height classes) + k) classes = getclasstree classes.
Proof.
  unfold getclasstree, getclasstree_upto.
  pose proof (class_relations_ok classes) as Hok.
  destruct (class_relations classes) as [children roots]. cbn [fst] in Hok.
  apply walktree_more. exact Hok.
Qed.

(** ** The shape of the tree getclasstree returns *)

Lemma children_add_nonempty (children : children_map) (parent c : pyclass) :
  children_nonempty children -> children_nonempty (children_add children parent c).
Proof.
  intros Hne. induction children as [|[p cs] rest IH]; cbn [children_add].
  - intros p' cs' [[= <- <-]|[]]. discriminate.
  - assert (Hrest : children_nonempty rest)
      by (intros p' cs' H; apply (Hne p' cs'); right; exact H).
    assert (Hcs : cs <> []) by (apply (Hne p cs); left; reflexivity).
    destruct (class_eqb p parent).
    + intros p' cs' [[= <- <-]|H]; [|apply (Hrest p' cs' H)].
      destruct (class_in c cs); [exact Hcs|]. destruct cs; discriminate.
    + intros p' cs' [[= <- <-]|H]; [exact Hcs|apply (IH Hrest p' cs' H)].
Qed.

Lemma class_relations_nonempty (classes : list pyclass) :
  children_nonempty (fst (class_relations classes)).
Proof.
  unfold class_relations.
  assert (G : forall l acc,
             children_nonempty (fst acc) ->
             children_nonempty
               (fst (fold_left
                       (fun (acc : children_map * list pyclass) (c : pyclass) =>
                          let '(children, roots) := acc in
                          match class_bases c with
                          | [] => (children, if class_in c roots then roots else roots ++ [c])
                          | bases =>
                              (fold_left (fun ch parent => children_add ch parent c)
                                         bases children, roots)
                          end) l acc))).
  { induction l as [|c l IH]; intros [children roots] Hne; [exact Hne|].
    cbn [fold_left]. apply IH.
    destruct c as [|m n b v ms]; cbn [class_bases fold_left fst]; [exact Hne|].
    apply children_add_nonempty. exact Hne. }
  apply G. intros p cs [].
Qed.

Lemma insert_sorted_cons {A : Type} (le : A -> A -> bool) (x : A) (l : list A) :
  insert_sorted le x l <> [].
Proof. destruct l as [|y l]; cbn; [discriminate|]. destruct (le x y); discriminate. Qed.

Lemma sort_by_nonempty {A : Type} (le : A -> A -> bool) (l : list A) :
  l <> [] -> sort_by le l <> [].
Proof. destruct l as [|x l]; [congruence|]. intros _. apply insert_sorted_cons. Qed.

Lemma walktree_S (fuel : nat) (classes : list pyclass) (children : children_map) :
  walktree (S fuel) classes children
  = flat_map (walk_class fuel children) (sort_by key_leb classes).
Proof. reflexivity. Qed.

Lemma well_placed_walk (fuel : nat) (children : children_map) (l : list pyclass) :
  forall after_entry : bool,
    well_placed after_entry (flat_map (walk_class fuel children) l) = true.
Proof.
  induction l as [|c l IH]; intros after_entry; [reflexivity|].
  cbn [flat_map]. unfold walk_class at 1.
  destruct (children_get children c); cbn; apply IH.
Qed.

Section Shape.

Variable classes : list pyclass.
Variable children : children_map.
Hypothesis Hok : children_ok classes children.
Hypothesis Hne : children_nonempty children.

Lemma walktree_well_formed_nested (fuel : nat) :
  forall cs : list pyclass,
    cs <> [] ->
    (forall c, In c cs -> In c classes /\ height classes < class_depth c + fuel) ->
    well_formed_item (Nested (walktree fuel cs children)) = true.
Proof.
  induction fuel as [|fuel IH]; intros cs Hcs Hin.
  - destruct cs as [|c cs]; [congruence|].
    destruct (Hin c (or_introl eq_refl)) as [Hc Hd].
    pose proof (height_bound _ _ Hc). lia.
  - rewrite walktree_S. cbn [well_formed_item].
    rewrite well_placed_walk. apply andb_true_intro. split.
    + apply andb_true_intro. split; [|reflexivity].
      pose proof (sort_by_nonempty key_leb cs Hcs) as Hs.
      destruct (sort_by key_leb cs) as [|c l]; [congruence|]. reflexivity.
    + apply forallb_forall. intros t Ht. apply in_flat_map in Ht.
      destruct Ht as (c & Hc & Ht). apply sort_by_In in Hc.
      destruct (Hin c Hc) as [Hcin Hd].
      unfold walk_class in Ht. destruct Ht as [<-|Ht]; [reflexivity|].
      destruct (children_get children c) as [cs'|] eqn:Hget; [|destruct Ht].
      destruct Ht as [<-|[]].
      destruct (children_get_In _ _ _ Hget) as (p & Hp & Hpc).
      apply IH; [exact (Hne p cs' Hp)|].
      intros c' Hc'. destruct (Hok p cs' Hp c' Hc') as [Hin' Hd'].
      split; [exact Hin'|]. rewrite Hd', (class_eqb_depth _ _ Hpc). lia.
Qed.

Lemma walktree_well_formed (roots : list pyclass) :
  roots <> [] ->
  well_formed (walktree (S (height classes)) roots children) = true.
Proof.
  intros Hroots. unfold well_formed. rewrite walktree_S. cbn [well_formed_item].
  rewrite well_placed_walk. apply andb_true_intro. split.
  - apply andb_true_intro. split; [|reflexivity].
    pose proof (sort_by_nonempty key_leb roots Hroots) as Hs.
    destruct (sort_by key_leb roots) as [|c l]; [congruence|]. reflexivity.
  - apply forallb_forall. intros t Ht. apply in_flat_map in Ht.
    destruct Ht as (c & Hc & Ht).
    unfold walk_class in Ht. destruct Ht as [<-|Ht]; [reflexivity|].
    destruct (children_get children c) as [cs'|] eqn:Hget; [|destruct Ht].
    destruct Ht as [<-|[]].
    destruct (children_get_In _ _ _ Hget) as (p & Hp & Hpc).
    apply walktree_well_formed_nested; [exact (Hne p cs' Hp)|].
    intros c' Hc'. destruct (Hok p cs' Hp c' Hc') as [Hin' Hd'].
    split; [exact Hin'|]. lia.
Qed.

End Shape.

(** A tree of [getclasstree] that is not empty has the documented shape. *)
Lemma getclasstree_well_formed (classes : list pyclass) :
  getclasstree classes <> [] -> well_formed (getclasstree classes) = true.
Proof.
  unfold getclasstree, getclasstree_upto.
  pose proof (class_relations_ok classes) as Hok.
  pose proof (class_relations_nonempty classes) as Hne.
  destruct (class_relations classes) as [children roots]. cbn [fst] in Hok, Hne.
  intros Htree. apply (walktree_well_formed classes children Hok Hne).
  intros Hroots. apply Htree. rewrite Hroots. reflexivity.
Qed.

(** ** flattenClassTree *)

Lemma flattenClassTree_eq (tree : list item) :
  flattenClassTree tree =
    match tree with
    | [] => ([], Some IndexError)
    | Nested [] :: _ => ([], Some IndexError)
    | Nested (x :: _) :: _ => ([], Some (AssertionError (Some x)))
    | [Entry root _] => ([root], None)
    | [Entry root _; Entry c bs] => ([root], Some (AssertionError (Some (Entry c bs))))
    | [Entry root _; Nested rest] =>
        let '(cs, e) := flattenClassTree rest in (root :: cs, e)
    | Entry root _ :: _ :: _ :: _ => ([root], Some (AssertionError None))
    end.
Proof.
  destruct tree as [|[root bs|l] more]; [reflexivity| |reflexivity].
  destruct more as [|[c cs|rest] more]; [reflexivity| |];
    destruct more; reflexivity.
Qed.

Lemma flatten_branching_item (t : item) :
  match t with
  | Entry _ _ => True
  | Nested l =>
      item_branching t = true ->
      (exists e, snd (flattenClassTree l) = Some e) /\
      (well_formed_item t = true ->
       exists m, snd (flattenClassTree l) = Some (AssertionError m))
  end.
Proof.
  revert t. fix IH 1. intros [c bs|l]; [exact I|].
  rewrite flattenClassTree_eq.
  destruct l as [|[root rbs|l0] more].
  - intros _. split; [eexists; reflexivity|discriminate].
  - destruct more as [|second more].
    + discriminate.
    + destruct more as [|third more].
      * pose proof (IH second) as IH2.
        destruct second as [c cs|rest].
        -- intros _. split; [|intros _]; eexists; reflexivity.
        -- intros Hb. cbn in Hb. rewrite orb_false_r in Hb.
           destruct IH2 as [(e & He) Hwf]; [exact Hb|].
           destruct (flattenClassTree rest) as [cs e'] eqn:Hfl. cbn [snd] in *.
           split; [exists e; exact He|].
           intros Hw. apply Hwf.
           cbn in Hw |- *. rewrite andb_true_r in Hw. exact Hw.
      * intros _. destruct second; (split; [|intros _]; eexists; reflexivity).
  - intros _. destruct l0 as [|x l0].
    + split; [eexists; reflexivity|discriminate].
    + split; [|intros _]; eexists; reflexivity.
Qed.

Lemma flatten_branching (tree : list item) :
  branching tree = true ->
  (exists e, snd (flattenClassTree tree) = Some e) /\
  (well_formed tree = true ->
   exists m, snd (flattenClassTree tree) = Some (AssertionError m)).
Proof.
  intros Hb. apply (flatten_branching_item (Nested tree)).
  cbn [item_branching]. fold (branching tree). rewrite Hb. apply orb_true_r.
Qed.

(** ** Attribute lookup *)

Lemma mro_head (c : pyclass) : exists rest, mro c = c :: rest.
Proof. destruct c; eexists; reflexivity. Qed.

(** The body found is that of the first class along the bases that defines
    the attribute. *)
Lemma getattr_nearest (c : pyclass) (attr : string) (f : body) :
  getattr c attr = Some f <->
  exists pre a post,
    mro c = pre ++ a :: post /\
    Forall (fun b => assoc attr (own_methods b) = None) pre /\
    assoc attr (own_methods a) = Some f.
Proof.
  induction c as [|m n b IH v ms]; cbn [getattr mro].
  - split; [discriminate|].
    intros (pre & a & post & Hm & Hpre & Ha).
    destruct pre as [|x pre].
    + injection Hm as <- <-. discriminate.
    + injection Hm as _ Hm. destruct pre; discriminate.
  - destruct (assoc attr ms) as [g|] eqn:Hown.
    + split.
      * intros [= <-]. exists [], (Class m n b v ms), (mro b). repeat split; auto.
      * intros (pre & a & post & Hm & Hpre & Ha).
        destruct pre as [|x pre].
        -- injection Hm as <- _. cbn in Ha. congruence.
        -- injection Hm as <- _. inversion Hpre as [|? ? Hx _]; subst.
           cbn in Hx. congruence.
    + rewrite IH. split.
      * intros (pre & a & post & Hm & Hpre & Ha).
        exists (Class m n b v ms :: pre), a, post.
        split; [cbn; rewrite Hm; reflexivity|].
        split; [constructor; [exact Hown|exact Hpre]|exact Ha].
      * intros (pre & a & post & Hm & Hpre & Ha).
        destruct pre as [|x pre].
        -- injection Hm as <- _. cbn in Ha. congruence.
        -- injection Hm as _ Hm. inversion Hpre; subst.
           exists pre, a, post. repeat split; auto.
Qed.

(** ** Entries of a built table *)

Lemma table_entries (chain : list pyclass) :
  forall tbl : OrderedDict,
    map snd tbl = map Instance chain ->
    Forall2 (fun c k => class_version c = Ok k) chain (keys tbl) ->
    Forall (fun e => version_of (snd e) = Ok (fst e) /\ In (class_of (snd e)) chain) tbl.
Proof.
  induction chain as [|c chain IH]; intros [|[k p] tbl] Hsnd Hver;
    try discriminate; constructor.
  - cbn in Hsnd. injection Hsnd as -> Hsnd.
    inversion Hver; subst. cbn. split; [assumption|left; reflexivity].
  - cbn in Hsnd. injection Hsnd as _ Hsnd. inversion Hver; subst.
    eapply Forall_impl; [|apply IH; eassumption].
    intros e [He1 He2]. split; [exact He1|right; exact He2].
Qed.

Lemma not_ascending_at_pair (l1 l2 : list VersionSpec) (a b : VersionSpec) :
  (a <? b)%version = false -> strictly_ascending (l1 ++ a :: b :: l2) = false.
Proof.
  intros Hab. induction l1 as [|x l1 IH].
  - cbn [app]. rewrite strictly_ascending_cons, Hab. reflexivity.
  - destruct l1 as [|y l1]; cbn [app] in *; rewrite strictly_ascending_cons, IH;
      apply andb_false_r.
Qed.

Section MinVersion.

Variable module_classes : list (string * pyclass).

(** A call of [minVersion] that returns has found a first key. *)
Lemma minVersion_inv (vm tbl : OrderedDict) (least : VersionSpec) :
  minVersion module_classes vm = (Ok least, tbl) ->
  _ensureCompatLoaded module_classes vm = (Ok tt, tbl) /\
  exists p rest, tbl = (least, p) :: rest.
Proof.
  unfold minVersion, bind.
  destruct (_ensureCompatLoaded module_classes vm) as [[[]|e] vm'] eqn:He; [|discriminate].
  unfold get_versionsMap, lift. destruct vm' as [|[k p] rest].
  - cbn. discriminate.
  - change (keys ((k, p) :: rest)) with (k :: keys rest).
    assert (E : list_index (k :: keys rest) 0 = Ok k)
      by (apply (list_index_nth (k :: keys rest) 0 k); reflexivity).
    rewrite E. intros [= <- <-]. split; [reflexivity|]. exists p, rest. reflexivity.
Qed.

End MinVersion.

(** On an ascending table, a query not below the first key has a last entry
    not above it. *)
Lemma lookup_position (least : VersionSpec) (p0 : instance) (rest : OrderedDict)
      (version : VersionSpec) :
  strictly_ascending (keys ((least, p0) :: rest)) = true ->
  (version <? least)%version = false ->
  exists pre k p post,
    (least, p0) :: rest = pre ++ (k, p) :: post /\
    (version <? k)%version = false /\
    Forall (fun e => (version <? fst e)%version = true) post.
Proof.
  set (tbl := (least, p0) :: rest). intros Hasc Hle.
  destruct (bisect_right_spec (keys tbl) version Hasc) as (r & Hr & Hlen & Hlow & Hhigh).
  assert (Hpos : 0 < r).
  { destruct r as [|r]; [|lia].
    rewrite (Hhigh 0 least (Nat.le_refl 0) eq_refl) in Hle. discriminate. }
  rewrite keys_length in Hlen.
  destruct (nth_error tbl (r - 1)) as [[k p]|] eqn:Hnth;
    [|apply nth_error_None in Hnth; lia].
  destruct (nth_error_split _ _ Hnth) as (pre & post & Htbl & Hpre).
  exists pre, k, p, post. split; [exact Htbl|]. split.
  - apply (Hlow (r - 1)); [lia|]. unfold keys. rewrite nth_error_map, Hnth. reflexivity.
  - apply Forall_forall. intros e He. destruct (In_nth_error _ _ He) as (j & Hj).
    apply (Hhigh (r + j)); [lia|]. unfold keys. rewrite nth_error_map, Htbl.
    rewrite nth_error_app2 by lia.
    replace (r + j - List.length pre) with (S j) by lia. cbn. rewrite Hj. reflexivity.
Qed.

(** * The specification of the resolver, statement by statement *)

(** C1. Once the table is built, [getMxCompatibility(v)] returns the profile
    of the greatest ladder version that is [<= v].  For every [v] not below
    the smallest key there is an entry [(vi, p)] with [vi <= v], every
    earlier key below [vi] and every later key above [v], and the result is
    [p].  Whenever the table holds [(vi, p)] with [vi <= v] and [v] below
    the next key (or [vi] the last key), the result is [p], on the table
    already built as on first use; [p] is the instance declared at [vi] and
    is also the result for [v = vi]. *)
Theorem C1_getMxCompatibility_greatest_le :
  forall (module_classes : list (string * pyclass)) (tbl : OrderedDict) (v : VersionSpec),
    _ensureCompatLoaded module_classes [] = (Ok tt, tbl) ->
    (forall least : VersionSpec,
        minVersion module_classes tbl = (Ok least, tbl) ->
        (least <=? v)%version = true ->
        exists pre vi p post,
          tbl = pre ++ (vi, p) :: post /\
          (vi <=? v)%version = true /\
          Forall (fun e => (fst e <? vi)%version = true) pre /\
          Forall (fun e => (v <? fst e)%version = true) post /\
          getMxCompatibility module_classes v tbl = (Ok (Some p), tbl)) /\
    (forall (pre post : OrderedDict) (vi : VersionSpec) (p : instance),
        tbl = pre ++ (vi, p) :: post ->
        (vi <=? v)%version = true ->
        match post with
        | [] => True
        | (vnext, _) :: _ => (v <? vnext)%version = true
        end ->
        getMxCompatibility module_classes v tbl = (Ok (Some p), tbl) /\
        getMxCompatibility module_classes v [] = (Ok (Some p), tbl) /\
        getMxCompatibility module_classes vi tbl = (Ok (Some p), tbl) /\
        version_of p = Ok vi /\
        In (class_of p) (declared_chain module_classes) /\
        Forall (fun e => (fst e <? vi)%version = true) pre /\
        Forall (fun e => (v <? fst e)%version = true) post).
Proof.
  intros mc tbl v Hbuild.
  destruct (ensureCompatLoaded_ok _ _ Hbuild) as (_ & Hasc & Hsnd & Hver).
  pose proof (table_entries _ _ Hsnd Hver) as Hent.
  split.
  - intros least Hmin Hle.
    destruct (minVersion_inv _ _ _ _ Hmin) as (_ & p0 & rest & Htbl).
    rewrite VersionFacts.leb_ltb in Hle. apply negb_true_iff in Hle.
    rewrite Htbl in Hasc.
    destruct (lookup_position _ _ _ _ Hasc Hle) as (pre & vi & p & post & Hsplit & Hk & Hpost).
    rewrite <- Htbl in Hsplit. rewrite <- Htbl in Hasc.
    exists pre, vi, p, post. split; [exact Hsplit|].
    split; [rewrite VersionFacts.leb_ltb, Hk; reflexivity|].
    pose proof Hasc as Hasc'. rewrite Hsplit, keys_app in Hasc'.
    change (keys ((vi, p) :: post)) with (vi :: keys post) in Hasc'.
    destruct (ascending_split _ _ _ Hasc') as [Hpre _].
    unfold keys in Hpre. rewrite Forall_map in Hpre.
    split; [exact Hpre|]. split; [exact Hpost|].
    rewrite Hsplit in Hasc |- *.
    apply (lookup_sorted mc v pre post vi p Hasc Hk Hpost).
  - intros pre post vi p Htbl Hle Hnext. subst tbl.
    pose proof Hasc as Hasc'. rewrite keys_app in Hasc'.
    change (keys ((vi, p) :: post)) with (vi :: keys post) in Hasc'.
    destruct (ascending_split _ _ _ Hasc') as [Hpre Hpost].
    unfold keys in Hpre, Hpost. rewrite Forall_map in Hpre, Hpost.
    rewrite VersionFacts.leb_ltb in Hle. apply negb_true_iff in Hle.
    assert (Hpostv : Forall (fun e => (v <? fst e)%version = true) post).
    { destruct post as [|[vnext pnext] post']; constructor; [exact Hnext|].
      assert (Hrest : strictly_ascending (keys ((vnext, pnext) :: post')) = true).
      { apply ascending_app_r in Hasc'. apply (strictly_ascending_tail _ _ Hasc'). }
      change (keys ((vnext, pnext) :: post')) with (vnext :: keys post') in Hrest.
      apply strictly_ascending_head in Hrest. unfold keys in Hrest.
      rewrite Forall_map in Hrest.
      eapply Forall_impl; [|exact Hrest]. intros e He. cbv beta in He.
      eapply VersionFacts.ltb_trans; eauto. }
    destruct (lookup_sorted mc v pre post vi p Hasc Hle Hpostv) as (_ & _ & _ & Hres).
    destruct (lookup_sorted mc vi pre post vi p Hasc (VersionFacts.ltb_irrefl vi) Hpost)
      as (_ & _ & _ & Hres').
    rewrite (getMxCompatibility_fresh _ v _ Hbuild).
    rewrite Forall_forall in Hent.
    destruct (Hent (vi, p)) as [Hv Hin]; [apply in_or_app; right; left; reflexivity|].
    repeat split; assumption.
Qed.

(** The query 5.2.1.7 on the ladder of the module resolves to the profile of
    5.2.1. *)
Lemma C1_witness :
  getMxCompatibility mx_compat_classes (Version.Make [5; 2; 1; 7]%N) []
  = (Ok (Some (Instance MxCompatibility521)), mx_compat_table).
Proof.
  refine (proj1 (proj2 (proj2 (C1_getMxCompatibility_greatest_le
            mx_compat_classes mx_compat_table (Version.Make [5; 2; 1; 7]%N) _)
            (firstn 2 mx_compat_table) (skipn 3 mx_compat_table)
            (Version.Make [5; 2; 1]%N) (Instance MxCompatibility521) _ _ _))).
  all: vm_compute; reflexivity.
Defined.

Lemma first_key_least (least : VersionSpec) (p : instance) (rest : OrderedDict) :
  strictly_ascending (keys ((least, p) :: rest)) = true ->
  Forall (fun k => (least <=? k)%version = true) (keys ((least, p) :: rest)).
Proof.
  intros Hasc. change (keys ((least, p) :: rest)) with (least :: keys rest) in *.
  constructor.
  - rewrite VersionFacts.leb_ltb, VersionFacts.ltb_irrefl. reflexivity.
  - eapply Forall_impl; [|apply (strictly_ascending_head _ _ Hasc)].
    intros k Hk. cbv beta in Hk.
    rewrite VersionFacts.leb_ltb, (VersionFacts.ltb_asym _ _ Hk). reflexivity.
Qed.

(** C2, as the code has it.  For every query strictly below the smallest
    ladder version, [getMxCompatibility] returns [None] and raises nothing,
    on first use as on a table already built; the table is left as built.
    The result carries neither the requested nor the smallest version. *)
Theorem C2_unsupported_version_returns_None :
  forall (module_classes : list (string * pyclass)) (least : VersionSpec)
         (tbl : OrderedDict) (v : VersionSpec),
    minVersion module_classes [] = (Ok least, tbl) ->
    (v <? least)%version = true ->
    getMxCompatibility module_classes v [] = (Ok None, tbl) /\
    getMxCompatibility module_classes v tbl = (Ok None, tbl) /\
    Forall (fun k => (least <=? k)%version = true) (keys tbl).
Proof.
  intros mc least tbl v Hmin Hv.
  destruct (minVersion_inv _ _ _ _ Hmin) as (Hbuild & p & rest & ->).
  destruct (ensureCompatLoaded_ok _ _ Hbuild) as (_ & Hasc & _).
  rewrite (getMxCompatibility_fresh _ v _ Hbuild).
  rewrite getMxCompatibility_cached. cbv zeta. rewrite Hv.
  repeat split. apply first_key_least. exact Hasc.
Qed.

(** The query 4.9.9 on the ladder of the module. *)
Lemma C2_witness :
  getMxCompatibility mx_compat_classes (Version.Make [4; 9; 9]%N) []
  = (Ok None, mx_compat_table).
Proof.
  refine (proj1 (C2_unsupported_version_returns_None
            mx_compat_classes (Version.Make [5; 0; 0]%N) mx_compat_table
            (Version.Make [4; 9; 9]%N) _ _)).
  all: vm_compute; reflexivity.
Defined.

(** C2 as stated fails: the queries 4.0.0 and 3.0.0, both below 5.0.0, get
    the same answer [None], from which no requested version can be read. *)
Lemma C2_counterexample :
  fst (getMxCompatibility mx_compat_classes (Version.Make [4; 0; 0]%N) []) = Ok None /\
  fst (getMxCompatibility mx_compat_classes (Version.Make [3; 0; 0]%N) []) = Ok None /\
  ~ (exists requested : result (option instance) -> VersionSpec,
       forall v : VersionSpec,
         (v <? Version.Make [5; 0; 0]%N)%version = true ->
         (requested (fst (getMxCompatibility mx_compat_classes v [])) =? v)%version = true).
Proof.
  assert (H4 : fst (getMxCompatibility mx_compat_classes (Version.Make [4; 0; 0]%N) [])
               = Ok None) by (vm_compute; reflexivity).
  assert (H3 : fst (getMxCompatibility mx_compat_classes (Version.Make [3; 0; 0]%N) [])
               = Ok None) by (vm_compute; reflexivity).
  split; [exact H4|]. split; [exact H3|].
  intros (requested & Hreq).
  pose proof (Hreq (Version.Make [4; 0; 0]%N) eq_refl) as E4.
  pose proof (Hreq (Version.Make [3; 0; 0]%N) eq_refl) as E3.
  rewrite H4 in E4. rewrite H3 in E3.
  rewrite VersionFacts.eqb_ltb in E4, E3.
  apply andb_prop in E4. destruct E4 as [E4 _]. apply negb_true_iff in E4.
  apply andb_prop in E3. destruct E3 as [_ E3]. apply negb_true_iff in E3.
  assert (L : (Version.Make [3; 0; 0]%N <? Version.Make [4; 0; 0]%N)%version = true)
    by reflexivity.
  rewrite (VersionFacts.ltb_le_trans _ _ _ L E4) in E3. discriminate.
Qed.

Lemma eqb_two_versions (x a b : VersionSpec) :
  (x =? a)%version = true -> (x =? b)%version = true -> (a <? b)%version = false.
Proof.
  rewrite !VersionFacts.eqb_ltb. intros Ha Hb.
  apply andb_prop in Ha. destruct Ha as [_ Ha]. apply negb_true_iff in Ha.
  apply andb_prop in Hb. destruct Hb as [Hb _]. apply negb_true_iff in Hb.
  destruct (a <? b)%version eqn:Hab; [|reflexivity].
  rewrite (VersionFacts.ltb_le_trans _ _ _ Hab Hb) in Ha. discriminate.
Qed.

(** C3, as the code has it.  When the versions of the classes the loop
    records are not strictly increasing (some version [b] compares equal to
    or less than its predecessor [a]), [_ensureCompatLoaded] fails at its
    assertion: it raises an [AssertionError] that carries no message. *)
Theorem C3_non_monotonic_fails_assertion :
  forall (module_classes : list (string * pyclass))
         (vs l1 l2 : list VersionSpec) (a b : VersionSpec),
    Forall2 (fun c v => class_version c = Ok v) (declared_chain module_classes) vs ->
    vs = l1 ++ a :: b :: l2 ->
    (b <=? a)%version = true ->
    fst (_ensureCompatLoaded module_classes []) = Raise (AssertionError None).
Proof.
  intros mc vs l1 l2 a b Hvs -> Hba.
  rewrite ensureCompatLoaded_fresh.
  apply (build_loop_not_ascending _ _ None [] _ Hvs).
  apply not_ascending_at_pair.
  rewrite VersionFacts.leb_ltb in Hba. apply negb_true_iff in Hba. exact Hba.
Qed.

(** The ladder 2.0.0, 1.0.0 is refused. *)
Lemma C3_witness :
  fst (_ensureCompatLoaded inverted_classes []) = Raise (AssertionError None).
Proof.
  apply (C3_non_monotonic_fails_assertion inverted_classes
           [Version.Make [2; 0; 0]%N; Version.Make [1; 0; 0]%N] [] []
           (Version.Make [2; 0; 0]%N) (Version.Make [1; 0; 0]%N)).
  - vm_compute. repeat constructor.
  - reflexivity.
  - vm_compute. reflexivity.
Defined.

(** C3 as stated fails: the ladders [1.0.0, 1.0.0] and [2.0.0, 1.0.0] are
    refused with one and the same exception, which names no version. *)
Lemma C3_counterexample :
  fst (_ensureCompatLoaded repeated_classes []) = Raise (AssertionError None) /\
  fst (_ensureCompatLoaded inverted_classes []) = Raise (AssertionError None) /\
  ~ (exists named : exn -> VersionSpec * VersionSpec,
       (forall e, fst (_ensureCompatLoaded repeated_classes []) = Raise e ->
                  (fst (named e) =? Version.Make [1; 0; 0]%N)%version = true /\
                  (snd (named e) =? Version.Make [1; 0; 0]%N)%version = true) /\
       (forall e, fst (_ensureCompatLoaded inverted_classes []) = Raise e ->
                  (fst (named e) =? Version.Make [2; 0; 0]%N)%version = true /\
                  (snd (named e) =? Version.Make [1; 0; 0]%N)%version = true)).
Proof.
  assert (Hr : fst (_ensureCompatLoaded repeated_classes []) = Raise (AssertionError None))
    by (vm_compute; reflexivity).
  assert (Hi : fst (_ensureCompatLoaded inverted_classes []) = Raise (AssertionError None))
    by (vm_compute; reflexivity).
  split; [exact Hr|]. split; [exact Hi|].
  intros (named & Hrep & Hinv).
  destruct (Hrep _ Hr) as [E1 _]. destruct (Hinv _ Hi) as [E2 _].
  pose proof (eqb_two_versions _ _ _ E1 E2) as L.
  vm_compute in L. discriminate.
Qed.

(** C4. After a successful build the keys of [_versionsMap] are strictly
    ascending; the entries are, in order, the instances of the classes of
    the ladder as [flattenClassTree] yields them, each under its own
    version; and [_ensureCompatLoaded], [minVersion] and
    [getMxCompatibility] leave the table as it is. *)
Theorem C4_table_ascending_in_chain_order :
  forall (module_classes : list (string * pyclass)) (tbl : OrderedDict),
    _ensureCompatLoaded module_classes [] = (Ok tt, tbl) ->
    strictly_ascending (keys tbl) = true /\
    map snd tbl = map Instance (declared_chain module_classes) /\
    Forall2 (fun c k => class_version c = Ok k) (declared_chain module_classes) (keys tbl) /\
    snd (_ensureCompatLoaded module_classes tbl) = tbl /\
    snd (minVersion module_classes tbl) = tbl /\
    (forall v, snd (getMxCompatibility module_classes v tbl) = tbl).
Proof.
  intros mc tbl Hbuild.
  destruct (ensureCompatLoaded_ok _ _ Hbuild) as (_ & Hasc & Hsnd & Hver).
  pose proof (ensureCompatLoaded_again _ _ Hbuild) as Hagain.
  repeat split; try assumption.
  - rewrite Hagain. reflexivity.
  - rewrite minVersion_state, Hagain. reflexivity.
  - intros v. rewrite getMxCompatibility_state, Hagain. reflexivity.
Qed.

(** The table of the module follows its ladder. *)
Lemma C4_witness :
  strictly_ascending (keys mx_compat_table) = true /\
  map snd mx_compat_table = map Instance (declared_chain mx_compat_classes) /\
  declared_chain mx_compat_classes = mx_compat_ladder.
Proof.
  destruct (C4_table_ascending_in_chain_order mx_compat_classes mx_compat_table)
    as (H1 & H2 & _).
  - vm_compute. reflexivity.
  - split; [exact H1|]. split; [exact H2|]. vm_compute. reflexivity.
Defined.

(** C5. Building is idempotent: after a first successful build a further
    call of [_ensureCompatLoaded] returns with the same table, and
    [minVersion] gives the same result and the same table on the first call
    and on every later one; once the table holds an entry the module is not
    consulted again, whatever it contains. *)
Theorem C5_build_idempotent :
  forall (module_classes : list (string * pyclass)) (tbl : OrderedDict),
    _ensureCompatLoaded module_classes [] = (Ok tt, tbl) ->
    _ensureCompatLoaded module_classes tbl = (Ok tt, tbl) /\
    minVersion module_classes tbl = minVersion module_classes [] /\
    snd (minVersion module_classes []) = tbl /\
    (tbl <> [] ->
     forall other_classes : list (string * pyclass),
       _ensureCompatLoaded other_classes tbl = (Ok tt, tbl) /\
       minVersion other_classes tbl = minVersion module_classes []).
Proof.
  intros mc tbl Hbuild.
  pose proof (ensureCompatLoaded_again _ _ Hbuild) as Hagain.
  split; [exact Hagain|].
  split; [symmetry; apply minVersion_fresh; exact Hbuild|].
  split; [rewrite minVersion_state, Hbuild; reflexivity|].
  intros Hne other. destruct tbl as [|[k p] rest]; [congruence|].
  split; [reflexivity|].
  rewrite (minVersion_fresh _ _ Hbuild), !minVersion_cached. reflexivity.
Qed.

(** The table of the module survives further calls, whatever the classes
    found then. *)
Lemma C5_witness :
  _ensureCompatLoaded mx_compat_classes mx_compat_table = (Ok tt, mx_compat_table) /\
  minVersion mx_compat_classes mx_compat_table = minVersion mx_compat_classes [] /\
  _ensureCompatLoaded repeated_classes mx_compat_table = (Ok tt, mx_compat_table).
Proof.
  destruct (C5_build_idempotent mx_compat_classes mx_compat_table)
    as (H1 & H2 & _ & H4).
  - vm_compute. reflexivity.
  - split; [exact H1|]. split; [exact H2|].
    apply H4. discriminate.
Defined.

(** C6. For a ladder that is not empty, [minVersion()] returns the smallest
    version of the ladder: a key of the table, the version of a class of
    the ladder, and at most the version of every class of the ladder. *)
Theorem C6_minVersion_smallest :
  forall (module_classes : list (string * pyclass)) (tbl : OrderedDict),
    _ensureCompatLoaded module_classes [] = (Ok tt, tbl) ->
    declared_chain module_classes <> [] ->
    exists least,
      minVersion module_classes [] = (Ok least, tbl) /\
      minVersion module_classes tbl = (Ok least, tbl) /\
      In least (keys tbl) /\
      Forall (fun k => (least <=? k)%version = true) (keys tbl) /\
      (exists c, In c (declared_chain module_classes) /\ class_version c = Ok least) /\
      Forall (fun c => exists k, class_version c = Ok k /\ (least <=? k)%version = true)
             (declared_chain module_classes).
Proof.
  intros mc tbl Hbuild Hne.
  destruct (ensureCompatLoaded_ok _ _ Hbuild) as (_ & Hasc & Hsnd & Hver).
  destruct tbl as [|[least p] rest].
  - destruct (declared_chain mc); [congruence|discriminate].
  - exists least.
    pose proof (first_key_least _ _ _ Hasc) as Hleast.
    rewrite (minVersion_fresh _ _ Hbuild), minVersion_cached.
    split; [reflexivity|]. split; [reflexivity|].
    split; [left; reflexivity|]. split; [exact Hleast|].
    split.
    + destruct (declared_chain mc) as [|c chain]; [congruence|].
      exists c. split; [left; reflexivity|]. inversion Hver; subst. assumption.
    + clear - Hver Hleast. revert Hver Hleast.
      generalize (keys ((least, p) :: rest)) as ks.
      induction (declared_chain mc) as [|c chain IH]; intros ks Hver Hleast;
        [constructor|].
      inversion Hver as [|? k ? ks' Hc Hrest]; subst.
      inversion Hleast; subst.
      constructor; [exists k; split; assumption|]. eapply IH; eauto.
Qed.

(** The smallest version of the ladder of the module. *)
Lemma C6_witness :
  exists least,
    minVersion mx_compat_classes [] = (Ok least, mx_compat_table) /\
    Forall (fun k => (least <=? k)%version = true) (keys mx_compat_table).
Proof.
  destruct (C6_minVersion_smallest mx_compat_classes mx_compat_table)
    as (least & H1 & _ & _ & H4 & _).
  - vm_compute. reflexivity.
  - vm_compute. discriminate.
  - exists least. split; [exact H1|exact H4].
Defined.

(** The module as it is: the build succeeds and gives [mx_compat_table]. *)
Lemma mx_compat_build :
  _ensureCompatLoaded mx_compat_classes [] = (Ok tt, mx_compat_table).
Proof. vm_compute. reflexivity. Qed.

Lemma mx_compat_table_ascending : strictly_ascending (keys mx_compat_table) = true.
Proof. vm_compute. reflexivity. Qed.

(** C7. A profile that does not override an accessor answers with the body
    of the nearest class along its bases that defines it.  For the ladder
    of the module: every query [v] with 5.2.1 <= v < 5.2.2 resolves to the
    instance of [MxCompatibility521], whose [supportsRepositories()] is
    [True] (defined at 5.2.1) and whose [licenseAttribute()] is ['licence']
    (not defined at 5.2.1 nor 5.2.0, inherited from 5.0.0, and overridden
    only at 5.2.2). *)
Theorem C7_flag_inheritance :
  (forall (p : instance) (attr : string) (args : list value)
          (pre post : list pyclass) (a : pyclass) (f : body),
      assoc attr (own_methods (class_of p)) = None ->
      mro (class_of p) = class_of p :: pre ++ a :: post ->
      Forall (fun b => assoc attr (own_methods b) = None) pre ->
      assoc attr (own_methods a) = Some f ->
      call p attr args = run_body f args) /\
  (forall v : VersionSpec,
      (Version.Make [5; 2; 1]%N <=? v)%version = true ->
      (v <? Version.Make [5; 2; 2]%N)%version = true ->
      exists p,
        getMxCompatibility mx_compat_classes v [] = (Ok (Some p), mx_compat_table) /\
        p = Instance MxCompatibility521 /\
        call p "supportsRepositories" [] = Ok (VBool true) /\
        call p "licenseAttribute" [] = Ok (VStr "licence") /\
        assoc "supportsRepositories" (own_methods MxCompatibility521)
          = Some (Return (VBool true)) /\
        assoc "licenseAttribute" (own_methods MxCompatibility521) = None /\
        assoc "licenseAttribute" (own_methods MxCompatibility520) = None /\
        assoc "licenseAttribute" (own_methods MxCompatibility500)
          = Some (Return (VStr "licence")) /\
        assoc "licenseAttribute" (own_methods MxCompatibility522)
          = Some (Return (VStr "license"))).
Proof.
  split.
  - intros p attr args pre post a f Hown Hmro Hpre Ha.
    unfold call.
    assert (Hget : getattr (class_of p) attr = Some f).
    { apply getattr_nearest. exists (class_of p :: pre), a, post.
      split; [exact Hmro|]. split; [constructor; assumption|exact Ha]. }
    rewrite Hget. reflexivity.
  - intros v Hlo Hhi.
    exists (Instance MxCompatibility521).
    split; [|repeat split; reflexivity].
    rewrite (getMxCompatibility_fresh _ v _ mx_compat_build).
    rewrite VersionFacts.leb_ltb in Hlo. apply negb_true_iff in Hlo.
    pose proof mx_compat_table_ascending as Hasc.
    change mx_compat_table
      with (firstn 2 mx_compat_table
              ++ (Version.Make [5; 2; 1]%N, Instance MxCompatibility521)
              :: skipn 3 mx_compat_table) in Hasc |- *.
    refine (proj2 (proj2 (proj2 (lookup_sorted mx_compat_classes v _ _ _ _ Hasc Hlo _)))).
    assert (Hpost : forallb (fun e => negb (fst e <? Version.Make [5; 2; 2]%N)%version)
                            (skipn 3 mx_compat_table) = true)
      by (vm_compute; reflexivity).
    rewrite forallb_forall in Hpost. apply Forall_forall. intros e He.
    specialize (Hpost e He). apply negb_true_iff in Hpost.
    eapply VersionFacts.ltb_le_trans; eauto.
Qed.

(** The profile for 5.2.1.7, and the lookup of [licenseAttribute] from
    [MxCompatibility521] through [MxCompatibility520] to
    [MxCompatibility500]. *)
Lemma C7_witness :
  (exists p,
      getMxCompatibility mx_compat_classes (Version.Make [5; 2; 1; 7]%N) []
      = (Ok (Some p), mx_compat_table) /\
      call p "supportsRepositories" [] = Ok (VBool true) /\
      call p "licenseAttribute" [] = Ok (VStr "licence")) /\
  call (Instance MxCompatibility521) "licenseAttribute" []
  = run_body (Return (VStr "licence")) [].
Proof.
  split.
  - destruct (proj2 C7_flag_inheritance (Version.Make [5; 2; 1; 7]%N))
      as (p & H1 & _ & H2 & H3 & _).
    + vm_compute. reflexivity.
    + vm_compute. reflexivity.
    + exists p. split; [exact H1|]. split; [exact H2|exact H3].
  - apply (proj1 C7_flag_inheritance (Instance MxCompatibility521) "licenseAttribute" []
             [MxCompatibility520] [object] MxCompatibility500).
    + reflexivity.
    + reflexivity.
    + repeat constructor.
    + reflexivity.
Defined.

(** C8. Whenever the class tree holds a class with more than one direct
    child, [flattenClassTree] ends with an exception; on a tree of the shape
    [inspect.getclasstree] returns this is an [AssertionError]; so it is for
    the tree of every module, and [_ensureCompatLoaded] raises for every
    module with such a tree. *)
Theorem C8_branching_fails :
  forall tree : list item,
    branching tree = true ->
    (exists e, snd (flattenClassTree tree) = Some e) /\
    (well_formed tree = true ->
     exists m, snd (flattenClassTree tree) = Some (AssertionError m)) /\
    (forall module_classes : list (string * pyclass),
        getclasstree (matching_classes module_classes) = tree ->
        (exists m, snd (flattened module_classes) = Some (AssertionError m)) /\
        (exists e, fst (_ensureCompatLoaded module_classes []) = Raise e)).
Proof.
  intros tree Hb.
  destruct (flatten_branching tree Hb) as [(e & He) Hwf].
  split; [exists e; exact He|]. split; [exact Hwf|].
  intros mc Htree.
  assert (Hshape : well_formed tree = true).
  { rewrite <- Htree. apply getclasstree_well_formed.
    rewrite Htree. intros Hnil. rewrite Hnil in Hb. discriminate. }
  split.
  - unfold flattened. rewrite Htree. apply Hwf. exact Hshape.
  - rewrite ensureCompatLoaded_fresh.
    unfold flattened. rewrite Htree, He. apply build_loop_stop.
Qed.

(** The hierarchy with two children of one class is refused. *)
Lemma C8_witness :
  branching (getclasstree (matching_classes forked_classes)) = true /\
  (exists m, snd (flattened forked_classes) = Some (AssertionError m)) /\
  (exists e, fst (_ensureCompatLoaded forked_classes []) = Raise e).
Proof.
  assert (Hb : branching (getclasstree (matching_classes forked_classes)) = true)
    by (vm_compute; reflexivity).
  destruct (C8_branching_fails _ Hb) as (_ & _ & H3).
  split; [exact Hb|]. exact (H3 forked_classes eq_refl).
Defined.

(** C9. On a table that is not empty and strictly ascending, for a query
    [version] not below [minVersion()] (the first key), the index
    [bisect_right(keys, version) - 1] is at least 0 and less than the number
    of keys: neither the list access nor the dictionary access raises, and
    the result is a profile, not [None]. *)
Theorem C9_lookup_index_in_bounds :
  forall (module_classes : list (string * pyclass)) (least : VersionSpec)
         (p0 : instance) (rest : OrderedDict) (version : VersionSpec),
    let tbl := (least, p0) :: rest in
    strictly_ascending (keys tbl) = true ->
    (least <=? version)%version = true ->
    minVersion module_classes tbl = (Ok least, tbl) /\
    exists (i : nat) (k : VersionSpec) (p : instance),
      bisect_right (keys tbl) version = Ok i /\
      (0 <= Z.of_nat i - 1 < Z.of_nat (List.length (keys tbl)))%Z /\
      list_index (keys tbl) (Z.of_nat i - 1) = Ok k /\
      getitem tbl k = Ok p /\
      getMxCompatibility module_classes version tbl = (Ok (Some p), tbl).
Proof.
  intros mc least p0 rest version tbl Hasc Hle.
  split; [apply minVersion_cached|].
  rewrite VersionFacts.leb_ltb in Hle. apply negb_true_iff in Hle.
  destruct (lookup_position _ _ _ _ Hasc Hle) as (pre & k & p & post & Htbl & Hk & Hpost).
  fold tbl in Htbl. rewrite Htbl in Hasc.
  destruct (lookup_sorted mc version pre post k p Hasc Hk Hpost) as (H1 & H2 & H3 & H4).
  rewrite <- Htbl in H1, H2, H3, H4.
  exists (S (List.length pre)), k, p.
  assert (Hlen : List.length tbl = List.length pre + S (List.length post))
    by (rewrite Htbl, length_app; reflexivity).
  repeat split; try assumption; try rewrite keys_length; lia.
Qed.

(** The query 5.200 on the table of the module. *)
Lemma C9_witness :
  exists (i : nat) (p : instance),
    bisect_right (keys mx_compat_table) (Version.Make [5; 200]%N) = Ok i /\
    (0 <= Z.of_nat i - 1 < Z.of_nat (List.length (keys mx_compat_table)))%Z /\
    getMxCompatibility mx_compat_classes (Version.Make [5; 200]%N) mx_compat_table
    = (Ok (Some p), mx_compat_table).
Proof.
  destruct (C9_lookup_index_in_bounds mx_compat_classes
              (Version.Make [5; 0; 0]%N) (Instance MxCompatibility500)
              (tl mx_compat_table) (Version.Make [5; 200]%N))
    as (_ & i & k & p & H1 & H2 & _ & _ & H5).
  - vm_compute. reflexivity.
  - vm_compute. reflexivity.
  - exists i, p. split; [exact H1|]. split; [exact H2|exact H5].
Defined.

(** C10. In a built table every entry [(v, p)] has [p.version() == v];
    hence the profile returned for a supported query [q] has a version
    [<= q]; and for the ladder of the module the first entry is 5.0.0, so
    that [minVersion()] is [VersionSpec("5.0.0")]. *)
Theorem C10_key_value_consistency :
  (forall (module_classes : list (string * pyclass)) (tbl : OrderedDict),
      _ensureCompatLoaded module_classes [] = (Ok tt, tbl) ->
      Forall (fun e => version_of (snd e) = Ok (fst e)) tbl /\
      (forall (q least : VersionSpec),
          minVersion module_classes tbl = (Ok least, tbl) ->
          (least <=? q)%version = true ->
          exists p v,
            getMxCompatibility module_classes q tbl = (Ok (Some p), tbl) /\
            version_of p = Ok v /\ (v <=? q)%version = true)) /\
  minVersion mx_compat_classes [] = (Ok (Version.Make [5; 0; 0]%N), mx_compat_table) /\
  Version.parse "5.0.0" = Some (Version.Make [5; 0; 0]%N) /\
  hd_error mx_compat_table = Some (Version.Make [5; 0; 0]%N, Instance MxCompatibility500).
Proof.
  split; [|repeat split; vm_compute; reflexivity].
  intros mc tbl Hbuild.
  destruct (ensureCompatLoaded_ok _ _ Hbuild) as (_ & Hasc & Hsnd & Hver).
  pose proof (table_entries _ _ Hsnd Hver) as Hent.
  split.
  - eapply Forall_impl; [|exact Hent]. intros e [He _]. exact He.
  - intros q least Hmin Hle.
    destruct (minVersion_inv _ _ _ _ Hmin) as (_ & p0 & rest & Htbl).
    rewrite VersionFacts.leb_ltb in Hle. apply negb_true_iff in Hle.
    pose proof Hasc as Hasc'. rewrite Htbl in Hasc'.
    destruct (lookup_position _ _ _ _ Hasc' Hle) as (pre & k & p & post & Hsplit & Hk & Hpost).
    rewrite <- Htbl in Hsplit. rewrite <- Htbl in Hasc'. rewrite Hsplit in Hasc'.
    destruct (lookup_sorted mc q pre post k p Hasc' Hk Hpost) as (_ & _ & _ & H4).
    rewrite <- Hsplit in H4.
    exists p, k. split; [exact H4|].
    rewrite Forall_forall in Hent.
    destruct (Hent (k, p)) as [Hv _];
      [rewrite Hsplit; apply in_or_app; right; left; reflexivity|].
    split; [exact Hv|]. rewrite VersionFacts.leb_ltb, Hk. reflexivity.
Qed.

(** The entries of the table of the module, and the query 5.68. *)
Lemma C10_witness :
  Forall (fun e => version_of (snd e) = Ok (fst e)) mx_compat_table /\
  exists p v,
    getMxCompatibility mx_compat_classes (Version.Make [5; 68]%N) mx_compat_table
    = (Ok (Some p), mx_compat_table) /\
    version_of p = Ok v /\ (v <=? Version.Make [5; 68]%N)%version = true.
Proof.
  destruct (proj1 C10_key_value_consistency mx_compat_classes mx_compat_table)
    as (H1 & H2).
  - vm_compute. reflexivity.
  - split; [exact H1|].
    apply (H2 (Version.Make [5; 68]%N) (Version.Make [5; 0; 0]%N)).
    + vm_compute. reflexivity.
    + vm_compute. reflexivity.
Defined.

(** * Further properties of the module *)

(** ** The build loop, whatever its outcome *)

Lemma table_combine (tbl : OrderedDict) : tbl = combine (keys tbl) (map snd tbl).
Proof.
  induction tbl as [|[k p] tbl IH]; [reflexivity|].
  cbn. f_equal. exact IH.
Qed.

(** The step that records a class: the new key goes last and the keys stay
    ascending. *)
Lemma record_class (pv : option VersionSpec) (vm : OrderedDict) (v : VersionSpec)
      (p : instance) :
  strictly_ascending (keys vm) = true ->
  tracks pv vm ->
  match pv with None => true | Some k => (k <? v)%version end = true ->
  setitem vm v p = vm ++ [(v, p)] /\
  strictly_ascending (keys (vm ++ [(v, p)])) = true /\
  tracks (Some v) (vm ++ [(v, p)]).
Proof.
  intros Hs Htr Hkv. destruct pv as [k|]; cbn in Htr.
  - destruct Htr as (init & p0 & ->).
    rewrite keys_app in Hs. change (keys [(k, p0)]) with [k] in Hs.
    split; [|split].
    + apply setitem_new. apply Forall_app. split.
      * destruct (ascending_split _ _ _ Hs) as [H1 _].
        unfold keys in H1. rewrite Forall_map in H1.
        eapply Forall_impl; [|exact H1]. intros e He. cbv beta in He.
        eapply VersionFacts.ltb_trans; eauto.
      * constructor; [exact Hkv|constructor].
    + rewrite <- app_assoc. rewrite keys_app.
      change (keys ([(k, p0)] ++ [(v, p)])) with [k; v].
      apply ascending_snoc; assumption.
    + cbn. exists (init ++ [(k, p0)]), p. reflexivity.
  - subst vm. split; [reflexivity|]. split; [reflexivity|].
    cbn. exists [], p. reflexivity.
Qed.

(** Whatever the loop returns or raises, it has appended to the table the
    instances of a first part of the classes to record, each under its
    version, and the keys are ascending. *)
Lemma build_loop_invariant (clazzes : list pyclass) (stop : option exn) :
  forall (pv : option VersionSpec) (vm vm' : OrderedDict) (r : result unit),
    build_loop clazzes stop pv vm = (r, vm') ->
    strictly_ascending (keys vm) = true ->
    tracks pv vm ->
    exists added recorded remaining,
      vm' = vm ++ added /\
      strictly_ascending (keys vm') = true /\
      chain_of clazzes = recorded ++ remaining /\
      map snd added = map Instance recorded /\
      Forall2 (fun c k => class_version c = Ok k) recorded (keys added) /\
      (r = Ok tt -> remaining = []).
Proof.
  induction clazzes as [|clazz rest IH]; intros pv vm vm' r Hrun Hs Htr.
  - cbn in Hrun. exists [], [], [].
    destruct stop as [e|]; injection Hrun as <- <-; rewrite app_nil_r;
      repeat split; auto; constructor.
  - rewrite build_loop_step in Hrun. unfold chain_of. cbn [filter].
    destruct (is_object clazz) eqn:Hobj; cbn [negb].
    + apply (IH pv vm vm' r); assumption.
    + assert (Hstay : forall e, (r, vm') = (Raise e, vm) ->
                exists added recorded remaining,
                  vm' = vm ++ added /\
                  strictly_ascending (keys vm') = true /\
                  clazz :: filter (fun c => negb (is_object c)) rest
                  = recorded ++ remaining /\
                  map snd added = map Instance recorded /\
                  Forall2 (fun c k => class_version c = Ok k) recorded (keys added) /\
                  (r = Ok tt -> remaining = [])).
      { intros e [= -> ->]. exists [], [], (clazz :: chain_of rest).
        rewrite app_nil_r. repeat split; auto; try constructor. discriminate. }
      destruct (class_version clazz) as [v|e] eqn:Hv;
        [|apply (Hstay e); symmetry; exact Hrun].
      destruct (match pv with None => true | Some k => (k <? v)%version end) eqn:Hkv;
        [|apply (Hstay (AssertionError None)); symmetry; exact Hrun].
      destruct (record_class pv vm v (Instance clazz) Hs Htr Hkv) as (Hset & Hs' & Htr').
      rewrite Hset in Hrun.
      destruct (IH _ _ _ _ Hrun Hs' Htr')
        as (added & recorded & remaining & Hvm' & Hasc & Hch & Hsnd & Hver & Hdone).
      exists ((v, Instance clazz) :: added), (clazz :: recorded), remaining.
      split; [rewrite Hvm', <- app_assoc; reflexivity|].
      split; [exact Hasc|].
      split; [cbn; f_equal; exact Hch|].
      split; [cbn; f_equal; exact Hsnd|].
      split; [cbn; constructor; assumption|exact Hdone].
Qed.

(** A generator that returns and versions that increase let the loop record
    every class. *)
Lemma build_loop_complete (clazzes : list pyclass) :
  forall (pv : option VersionSpec) (vm : OrderedDict) (vs : list VersionSpec),
    Forall2 (fun c v => class_version c = Ok v) (chain_of clazzes) vs ->
    strictly_ascending (match pv with None => vs | Some k => k :: vs end) = true ->
    strictly_ascending (keys vm) = true ->
    tracks pv vm ->
    build_loop clazzes None pv vm
    = (Ok tt, vm ++ combine vs (map Instance (chain_of clazzes))).
Proof.
  induction clazzes as [|clazz rest IH]; intros pv vm vs Hvs Hup Hs Htr.
  - inversion Hvs; subst. cbn. rewrite app_nil_r. reflexivity.
  - rewrite build_loop_step. unfold chain_of in Hvs |- *. cbn [filter] in Hvs |- *.
    destruct (is_object clazz); cbn [negb] in Hvs |- *.
    + apply IH; assumption.
    + inversion Hvs as [|? v ? vs' Hv Hrest]; subst. rewrite Hv.
      assert (Hkv : match pv with None => true | Some k => (k <? v)%version end = true).
      { destruct pv as [k|]; [|reflexivity].
        destruct vs'; cbn in Hup; apply andb_prop in Hup; apply Hup. }
      rewrite Hkv.
      destruct (record_class pv vm v (Instance clazz) Hs Htr Hkv) as (Hset & Hs' & Htr').
      rewrite Hset.
      rewrite (IH (Some v) _ vs' Hrest); [| |exact Hs'|exact Htr'].
      * rewrite <- app_assoc. reflexivity.
      * destruct pv as [k|]; [|exact Hup]. apply (strictly_ascending_tail _ _ Hup).
Qed.

(** X1. [_ensureCompatLoaded] succeeds on first use exactly when
    [flattenClassTree] comes to its end without an exception, every class
    to record has a [version()], and these versions are strictly
    increasing; the table is then the list of these versions, each with the
    instance of its class. *)
Theorem X1_build_succeeds_iff :
  forall (module_classes : list (string * pyclass)) (tbl : OrderedDict),
    _ensureCompatLoaded module_classes [] = (Ok tt, tbl) <->
    snd (flattened module_classes) = None /\
    exists vs,
      Forall2 (fun c v => class_version c = Ok v) (declared_chain module_classes) vs /\
      strictly_ascending vs = true /\
      tbl = combine vs (map Instance (declared_chain module_classes)).
Proof.
  intros mc tbl. split.
  - intros Hbuild.
    destruct (ensureCompatLoaded_ok _ _ Hbuild) as (Hstop & Hasc & Hsnd & Hver).
    split; [exact Hstop|]. exists (keys tbl). repeat split; try assumption.
    rewrite <- Hsnd. apply table_combine.
  - intros (Hstop & vs & Hvs & Hup & ->).
    rewrite ensureCompatLoaded_fresh, Hstop.
    rewrite (build_loop_complete _ None [] vs Hvs Hup); reflexivity.
Qed.

(** X2. Whatever the first call of [_ensureCompatLoaded] does, return or
    raise, the table it leaves has strictly ascending keys and holds the
    instances of a first part of the ladder, in order, each under its own
    version; when it returns, of the whole ladder. *)
Theorem X2_table_invariant_any_outcome :
  forall (module_classes : list (string * pyclass)) (r : result unit) (tbl : OrderedDict),
    _ensureCompatLoaded module_classes [] = (r, tbl) ->
    strictly_ascending (keys tbl) = true /\
    Forall (fun e => version_of (snd e) = Ok (fst e)) tbl /\
    exists remaining,
      declared_chain module_classes = map class_of (map snd tbl) ++ remaining /\
      (r = Ok tt -> remaining = []).
Proof.
  intros mc r tbl Hrun. rewrite ensureCompatLoaded_fresh in Hrun.
  destruct (build_loop_invariant _ _ _ _ _ _ Hrun)
    as (added & recorded & remaining & Htbl & Hasc & Hch & Hsnd & Hver & Hdone);
    try reflexivity.
  cbn [app] in Htbl. subst added.
  split; [exact Hasc|]. split.
  - pose proof (table_entries _ _ Hsnd Hver) as Hent.
    eapply Forall_impl; [|exact Hent]. intros e [He _]. exact He.
  - exists remaining. split; [|exact Hdone].
    unfold declared_chain. rewrite Hch, Hsnd, map_map. cbn [class_of].
    rewrite map_id. reflexivity.
Qed.

Lemma X2_witness :
  strictly_ascending (keys (snd (_ensureCompatLoaded forked_classes []))) = true /\
  exists remaining,
    declared_chain forked_classes
    = map class_of (map snd (snd (_ensureCompatLoaded forked_classes []))) ++ remaining.
Proof.
  destruct (X2_table_invariant_any_outcome forked_classes
              (fst (_ensureCompatLoaded forked_classes []))
              (snd (_ensureCompatLoaded forked_classes [])))
    as (H1 & _ & remaining & H3 & _).
  - destruct (_ensureCompatLoaded forked_classes []); reflexivity.
  - split; [exact H1|]. exists remaining. exact H3.
Defined.

(** ** flattenClassTree on every tree *)

Lemma flatten_linear_item (t : item) :
  match t with
  | Entry _ _ => True
  | Nested l =>
      (snd (flattenClassTree l) = None <-> linear_item t = true) /\
      exists rest,
        flat_map classes_of l = fst (flattenClassTree l) ++ rest /\
        (linear_item t = true -> rest = [])
  end.
Proof.
  revert t. fix IH 1. intros [c bs|l]; [exact I|].
  rewrite flattenClassTree_eq.
  destruct l as [|[root rbs|l0] more].
  - split; [split; discriminate|]. exists []. split; [reflexivity|auto].
  - destruct more as [|second more].
    + split; [split; reflexivity|]. exists []. split; [reflexivity|auto].
    + destruct more as [|third more].
      * pose proof (IH second) as IH2.
        destruct second as [c cs|rest].
        -- split; [split; discriminate|].
           exists [c]. split; [reflexivity|discriminate].
        -- destruct IH2 as [Hiff (tl & Htl & Hnil)].
           destruct (flattenClassTree rest) as [cs e] eqn:Hfl. cbn [fst snd] in *.
           split; [exact Hiff|].
           exists tl. split; [|exact Hnil].
           cbn [flat_map classes_of]. rewrite app_nil_r.
           cbn [app]. f_equal. exact Htl.
      * split; [destruct second; split; discriminate|].
        exists (flat_map classes_of (second :: third :: more)).
        split; [destruct second; reflexivity|].
        destruct second as [|r]; [discriminate|]. discriminate.
  - split.
    + destruct l0; split; discriminate.
    + exists (flat_map classes_of (Nested l0 :: more)).
      split; [destruct l0; reflexivity|discriminate].
Qed.

(** X5. [flattenClassTree] comes to its end without an exception exactly on
    the trees that are one path, and then yields every class of the tree,
    base first; on every tree what it yields before it stops is a first
    part of the classes of the tree in that order. *)
Theorem X5_flatten_succeeds_iff_linear :
  forall tree : list item,
    (snd (flattenClassTree tree) = None <-> linear tree = true) /\
    (linear tree = true -> fst (flattenClassTree tree) = flat_map classes_of tree) /\
    exists rest, flat_map classes_of tree = fst (flattenClassTree tree) ++ rest.
Proof.
  intros tree.
  destruct (flatten_linear_item (Nested tree)) as [Hiff (rest & Hrest & Hnil)].
  split; [exact Hiff|]. split.
  - intros Hl. rewrite Hrest, (Hnil Hl), app_nil_r. reflexivity.
  - exists rest. exact Hrest.
Qed.

Lemma X5_witness :
  fst (flattenClassTree (getclasstree (matching_classes mx_compat_classes)))
  = flat_map classes_of (getclasstree (matching_classes mx_compat_classes)).
Proof.
  apply (proj1 (proj2 (X5_flatten_succeeds_iff_linear _))).
  vm_compute. reflexivity.
Defined.

(** ** Modules without a class to record, names that do not match *)

Lemma filter_none {A : Type} (f : A -> bool) (l : list A) :
  (forall x, In x l -> f x = false) -> filter f l = [].
Proof.
  induction l as [|x l IH]; intros H; [reflexivity|].
  cbn. rewrite (H x (or_introl eq_refl)). apply IH. intros y Hy. apply H. right. exact Hy.
Qed.

Lemma filter_insert_sorted {A : Type} (f : A -> bool) (le : A -> A -> bool)
      (x : A) (l : list A) :
  f x = false -> filter f (insert_sorted le x l) = filter f l.
Proof.
  intros Hx. induction l as [|y l IH]; cbn; [rewrite Hx; reflexivity|].
  destruct (le x y); cbn; [rewrite Hx; reflexivity|].
  rewrite IH. reflexivity.
Qed.

(** The operations see the module through [matching_classes] only. *)
Lemma operations_of_matching (mc1 mc2 : list (string * pyclass)) :
  matching_classes mc1 = matching_classes mc2 ->
  forall vm : OrderedDict,
    _ensureCompatLoaded mc1 vm = _ensureCompatLoaded mc2 vm /\
    minVersion mc1 vm = minVersion mc2 vm /\
    forall v, getMxCompatibility mc1 v vm = getMxCompatibility mc2 v vm.
Proof.
  intros Heq vm.
  assert (He : forall vm', _ensureCompatLoaded mc1 vm' = _ensureCompatLoaded mc2 vm').
  { intros vm'. unfold _ensureCompatLoaded. rewrite Heq. reflexivity. }
  assert (Hm : forall vm', minVersion mc1 vm' = minVersion mc2 vm').
  { intros vm'. unfold minVersion, bind. rewrite He. reflexivity. }
  split; [apply He|]. split; [apply Hm|].
  intros v. unfold getMxCompatibility. unfold bind at 1 4. rewrite Hm. reflexivity.
Qed.

(** X4. When no class of the module has a name that matches the pattern,
    [_ensureCompatLoaded] raises [IndexError] (from [tree[0]] on the empty
    class tree) and leaves the table empty, and so do [minVersion] and
    [getMxCompatibility], on every call. *)
Theorem X4_no_matching_class :
  forall module_classes : list (string * pyclass),
    Forall (fun m => regex_match (fst m) = false) module_classes ->
    _ensureCompatLoaded module_classes [] = (Raise IndexError, []) /\
    minVersion module_classes [] = (Raise IndexError, []) /\
    forall v, getMxCompatibility module_classes v [] = (Raise IndexError, []).
Proof.
  intros mc Hall.
  assert (Hnone : matching_classes mc = []).
  { unfold matching_classes. rewrite filter_none; [reflexivity|].
    intros m Hm. unfold getmembers_isclass in Hm. apply sort_by_In in Hm.
    rewrite Forall_forall in Hall. apply Hall. exact Hm. }
  assert (He : _ensureCompatLoaded mc [] = (Raise IndexError, [])).
  { unfold _ensureCompatLoaded. rewrite Hnone. reflexivity. }
  assert (Hm : minVersion mc [] = (Raise IndexError, [])).
  { unfold minVersion, bind. rewrite He. reflexivity. }
  split; [exact He|]. split; [exact Hm|].
  intros v. unfold getMxCompatibility, bind. rewrite Hm. reflexivity.
Qed.

Lemma X4_witness :
  getMxCompatibility [("OrderedDict", py_OrderedDict)] (Version.Make [5; 0; 0]%N) []
  = (Raise IndexError, []).
Proof.
  apply (X4_no_matching_class [("OrderedDict", py_OrderedDict)]).
  repeat constructor.
Defined.

(** X6. A class bound to a name that does not match the pattern (as the
    imported [OrderedDict] is) takes no part: with or without it the
    classes collected are the same, and so is what [_ensureCompatLoaded],
    [minVersion] and [getMxCompatibility] do in every state. *)
Theorem X6_other_names_ignored :
  forall (module_classes : list (string * pyclass)) (name : string) (c : pyclass),
    regex_match name = false ->
    matching_classes ((name, c) :: module_classes) = matching_classes module_classes /\
    forall vm : OrderedDict,
      _ensureCompatLoaded ((name, c) :: module_classes) vm
      = _ensureCompatLoaded module_classes vm /\
      minVersion ((name, c) :: module_classes) vm = minVersion module_classes vm /\
      forall v, getMxCompatibility ((name, c) :: module_classes) v vm
                = getMxCompatibility module_classes v vm.
Proof.
  intros mc name c Hname.
  assert (Heq : matching_classes ((name, c) :: mc) = matching_classes mc).
  { unfold matching_classes, getmembers_isclass. cbn [sort_by].
    rewrite filter_insert_sorted; [reflexivity|exact Hname]. }
  split; [exact Heq|]. apply operations_of_matching. exact Heq.
Qed.

Lemma X6_witness :
  matching_classes mx_compat_classes = matching_classes (tl mx_compat_classes).
Proof.
  apply (X6_other_names_ignored (tl mx_compat_classes) "OrderedDict" py_OrderedDict).
  reflexivity.
Defined.

(** ** Resolution on an ascending table *)

(** The two ways [getMxCompatibility] returns on an ascending table. *)
Lemma getMxCompatibility_cases (module_classes : list (string * pyclass))
      (least : VersionSpec) (p0 : instance) (rest : OrderedDict) (v : VersionSpec) :
  strictly_ascending (keys ((least, p0) :: rest)) = true ->
  ((v <? least)%version = true /\
   getMxCompatibility module_classes v ((least, p0) :: rest)
   = (Ok None, (least, p0) :: rest)) \/
  ((v <? least)%version = false /\
   exists pre k p post,
     (least, p0) :: rest = pre ++ (k, p) :: post /\
     (v <? k)%version = false /\
     Forall (fun e => (v <? fst e)%version = true) post /\
     getMxCompatibility module_classes v ((least, p0) :: rest)
     = (Ok (Some p), (least, p0) :: rest)).
Proof.
  intros Hasc. destruct (v <? least)%version eqn:Hv.
  - left. split; [reflexivity|].
    rewrite getMxCompatibility_cached. cbv zeta. rewrite Hv. reflexivity.
  - right. split; [reflexivity|].
    destruct (lookup_position _ _ _ _ Hasc Hv) as (pre & k & p & post & Htbl & Hk & Hpost).
    exists pre, k, p, post. repeat split; try assumption.
    rewrite Htbl in Hasc |- *.
    apply (lookup_sorted module_classes v pre post k p Hasc Hk Hpost).
Qed.

(** X3. A first build that raises after it has recorded a class is not
    tried again: the next call of [_ensureCompatLoaded] finds the table
    not empty and returns, [minVersion] returns the first key, and
    [getMxCompatibility] answers every query not below it from the part of
    the ladder that was recorded. *)
Theorem X3_failed_build_is_not_retried :
  forall (module_classes : list (string * pyclass)) (e : exn) (tbl : OrderedDict),
    _ensureCompatLoaded module_classes [] = (Raise e, tbl) ->
    tbl <> [] ->
    _ensureCompatLoaded module_classes tbl = (Ok tt, tbl) /\
    exists least,
      minVersion module_classes tbl = (Ok least, tbl) /\
      forall v : VersionSpec,
        (least <=? v)%version = true ->
        exists k p,
          In (k, p) tbl /\ (k <=? v)%version = true /\
          getMxCompatibility module_classes v tbl = (Ok (Some p), tbl).
Proof.
  intros mc e tbl Hrun Hne.
  rewrite ensureCompatLoaded_fresh in Hrun.
  destruct (build_loop_invariant _ _ _ _ _ _ Hrun) as (added & _ & _ & Htbl & Hasc & _);
    try reflexivity.
  destruct tbl as [|[least p0] rest]; [congruence|].
  split; [reflexivity|]. exists least. split; [apply minVersion_cached|].
  intros v Hle. rewrite VersionFacts.leb_ltb in Hle. apply negb_true_iff in Hle.
  destruct (getMxCompatibility_cases mc least p0 rest v Hasc)
    as [[Hv _]|(_ & pre & k & p & post & Hsplit & Hk & _ & Hres)]; [congruence|].
  exists k, p. split; [rewrite Hsplit; apply in_or_app; right; left; reflexivity|].
  split; [rewrite VersionFacts.leb_ltb, Hk; reflexivity|exact Hres].
Qed.

Lemma X3_witness :
  fst (_ensureCompatLoaded inverted_classes []) = Raise (AssertionError None) /\
  _ensureCompatLoaded inverted_classes (snd (_ensureCompatLoaded inverted_classes []))
  = (Ok tt, snd (_ensureCompatLoaded inverted_classes [])).
Proof.
  split; [vm_compute; reflexivity|].
  apply (X3_failed_build_is_not_retried inverted_classes (AssertionError None)).
  - vm_compute. reflexivity.
  - vm_compute. discriminate.
Defined.

Lemma resolves_at_result (module_classes : list (string * pyclass)) (tbl : OrderedDict)
      (v : VersionSpec) (p : instance) :
  _ensureCompatLoaded module_classes [] = (Ok tt, tbl) ->
  getMxCompatibility module_classes v tbl = (Ok (Some p), tbl) ->
  exists i k, resolves_at tbl v i k p.
Proof.
  intros Hbuild Hp.
  destruct (ensureCompatLoaded_ok _ _ Hbuild) as (_ & Hasc & _).
  destruct tbl as [|[least p0] rest].
  - unfold getMxCompatibility, minVersion, bind in Hp. rewrite Hbuild in Hp.
    discriminate.
  - destruct (getMxCompatibility_cases module_classes least p0 rest v Hasc)
      as [[_ Hv]|(_ & pre & k & p' & post & Hs & Hk & Hpost & Hv)]; [congruence|].
    assert (p' = p) by congruence. subst p'.
    exists (List.length pre), k. rewrite Hs. split; [|split; [exact Hk|]].
    + rewrite nth_error_app2, Nat.sub_diag by lia. reflexivity.
    + intros j e Hj He. rewrite nth_error_app2 in He by lia.
      destruct (j - List.length pre) as [|n] eqn:Hn; [lia|]. cbn in He.
      rewrite Forall_forall in Hpost. apply Hpost. eapply nth_error_In. exact He.
Qed.

Lemma resolves_at_order (tbl : OrderedDict) (v w : VersionSpec) (i j : nat)
      (kv kw : VersionSpec) (p q : instance) :
  strictly_ascending (keys tbl) = true ->
  resolves_at tbl v i kv p -> resolves_at tbl w j kw q ->
  (v <=? w)%version = true ->
  i <= j /\ (kv <=? kw)%version = true.
Proof.
  intros Hasc (Hi & Hk1 & _) (Hj & _ & Hlater) Hvw.
  rewrite VersionFacts.leb_ltb in Hvw. apply negb_true_iff in Hvw.
  assert (Hij : i <= j).
  { destruct (Nat.le_gt_cases i j) as [H|H]; [exact H|].
    pose proof (Hlater i (kv, p) H Hi) as Hw. cbn [fst] in Hw.
    rewrite (VersionFacts.ltb_le_trans _ _ _ Hw Hk1) in Hvw. discriminate. }
  split; [exact Hij|].
  assert (Hki : nth_error (keys tbl) i = Some kv)
    by (unfold keys; rewrite nth_error_map, Hi; reflexivity).
  assert (Hkj : nth_error (keys tbl) j = Some kw)
    by (unfold keys; rewrite nth_error_map, Hj; reflexivity).
  rewrite VersionFacts.leb_ltb. apply negb_true_iff.
  destruct (Nat.eq_dec i j) as [Heq|Hneq].
  - rewrite Heq in Hki. assert (kv = kw) by congruence. subst kw.
    apply VersionFacts.ltb_irrefl.
  - apply VersionFacts.ltb_asym.
    apply (strictly_ascending_at _ Hasc i j); [lia|exact Hki|exact Hkj].
Qed.

(** X7. Resolution is monotone: on a built table, if [v <= w] and both are
    resolved, the profile for [v] stands in the table at or before the
    profile for [w], and its version is at most that of the other. *)
Theorem X7_resolution_monotone :
  forall (module_classes : list (string * pyclass)) (tbl : OrderedDict)
         (v w : VersionSpec) (p q : instance),
    _ensureCompatLoaded module_classes [] = (Ok tt, tbl) ->
    getMxCompatibility module_classes v tbl = (Ok (Some p), tbl) ->
    getMxCompatibility module_classes w tbl = (Ok (Some q), tbl) ->
    (v <=? w)%version = true ->
    exists (i j : nat) (kv kw : VersionSpec),
      nth_error tbl i = Some (kv, p) /\
      nth_error tbl j = Some (kw, q) /\
      i <= j /\
      (kv <=? kw)%version = true.
Proof.
  intros mc tbl v w p q Hbuild Hp Hq Hvw.
  destruct (ensureCompatLoaded_ok _ _ Hbuild) as (_ & Hasc & _).
  destruct (resolves_at_result _ _ _ _ Hbuild Hp) as (i & kv & Hv).
  destruct (resolves_at_result _ _ _ _ Hbuild Hq) as (j & kw & Hw).
  destruct (resolves_at_order _ _ _ _ _ _ _ _ _ Hasc Hv Hw Hvw) as [Hij Hk].
  exists i, j, kv, kw. repeat split; try assumption; [apply Hv|apply Hw].
Qed.

Lemma X7_witness :
  exists (i j : nat) (kv kw : VersionSpec),
    nth_error mx_compat_table i = Some (kv, Instance MxCompatibility521) /\
    nth_error mx_compat_table j = Some (kw, Instance MxCompatibility5680) /\
    i <= j /\ (kv <=? kw)%version = true.
Proof.
  apply (X7_resolution_monotone mx_compat_classes mx_compat_table
           (Version.Make [5; 2; 1; 7]%N) (Version.Make [5; 100]%N)).
  all: vm_compute; reflexivity.
Defined.

(** X8. On a built table that is not empty [getMxCompatibility] never
    raises, on first use or later: it returns [None] when the query is
    below the first key, and otherwise the profile of an entry of the table
    whose key is at most the query. *)
Theorem X8_getMxCompatibility_total :
  forall (module_classes : list (string * pyclass)) (tbl : OrderedDict) (v : VersionSpec),
    _ensureCompatLoaded module_classes [] = (Ok tt, tbl) ->
    tbl <> [] ->
    getMxCompatibility module_classes v [] = getMxCompatibility module_classes v tbl /\
    exists least,
      minVersion module_classes tbl = (Ok least, tbl) /\
      (((v <? least)%version = true /\
        getMxCompatibility module_classes v tbl = (Ok None, tbl)) \/
       ((v <? least)%version = false /\
        exists k p,
          In (k, p) tbl /\ (k <=? v)%version = true /\
          getMxCompatibility module_classes v tbl = (Ok (Some p), tbl))).
Proof.
  intros mc tbl v Hbuild Hne.
  split; [apply getMxCompatibility_fresh; exact Hbuild|].
  destruct (ensureCompatLoaded_ok _ _ Hbuild) as (_ & Hasc & _).
  destruct tbl as [|[least p0] rest]; [congruence|].
  exists least. split; [apply minVersion_cached|].
  destruct (getMxCompatibility_cases mc least p0 rest v Hasc)
    as [[Hv Hres]|(Hv & pre & k & p & post & Hsplit & Hk & _ & Hres)].
  - left. split; assumption.
  - right. split; [exact Hv|]. exists k, p.
    split; [rewrite Hsplit; apply in_or_app; right; left; reflexivity|].
    split; [rewrite VersionFacts.leb_ltb, Hk; reflexivity|exact Hres].
Qed.

Lemma X8_witness :
  getMxCompatibility mx_compat_classes (Version.Make [7]%N) []
  = getMxCompatibility mx_compat_classes (Version.Make [7]%N) mx_compat_table.
Proof.
  apply (X8_getMxCompatibility_total mx_compat_classes mx_compat_table).
  - vm_compute. reflexivity.
  - vm_compute. discriminate.
Defined.

(** ** The accessors of the profiles of the module *)

Lemma assoc_In {A : Type} (k : string) (l : list (string * A)) (a : A) :
  assoc k l = Some a -> In (k, a) l.
Proof.
  induction l as [|[k' a'] l IH]; cbn; [discriminate|].
  destruct (String.eqb_spec k k') as [->|Hne].
  - intros [= ->]. left. reflexivity.
  - intros H. right. apply IH. exact H.
Qed.

Lemma assoc_None {A : Type} (k : string) (l : list (string * A)) :
  assoc k l = None -> ~ In k (map fst l).
Proof.
  induction l as [|[k' a'] l IH]; cbn; [auto|].
  destruct (String.eqb_spec k k') as [->|Hne]; [discriminate|].
  intros H [Heq|Hin]; [congruence|]. apply (IH H Hin).
Qed.

Lemma getattr_accessors (c : pyclass) (attr : string) (f : body) :
  getattr c attr = Some f -> In attr (accessors c).
Proof.
  induction c as [|m n b IH v ms]; cbn; [discriminate|].
  destruct (assoc attr ms) as [g|] eqn:Hown.
  - intros _. apply in_or_app. left.
    apply assoc_In in Hown. apply (in_map fst) in Hown. exact Hown.
  - intros H. apply in_or_app. right. apply IH. exact H.
Qed.

Lemma value_eqb_eq (v w : value) : value_eqb v w = true <-> v = w.
Proof.
  destruct v, w; cbn; try (split; [discriminate|congruence]).
  - rewrite Bool.eqb_true_iff. split; congruence.
  - rewrite String.eqb_eq. split; congruence.
  - destruct (list_eq_dec string_dec l l0); split; congruence.
  - destruct (list_eq_dec string_dec components components0); split; congruence.
Qed.

Lemma body_eqb_eq (f g : body) : body_eqb f g = true <-> f = g.
Proof.
  destruct f, g; cbn; try (split; [discriminate|congruence]).
  - rewrite value_eqb_eq. split; congruence.
  - split; reflexivity.
  - rewrite String.eqb_eq. split; congruence.
Qed.


(** What is resolved on first use is an entry of the table of the module. *)
Lemma mx_compat_resolved (v : VersionSpec) (p : instance) (vm : OrderedDict) :
  getMxCompatibility mx_compat_classes v [] = (Ok (Some p), vm) ->
  exists i k, resolves_at mx_compat_table v i k p.
Proof.
  intros H. rewrite (getMxCompatibility_fresh _ v _ mx_compat_build) in H.
  assert (vm = mx_compat_table).
  { pose proof (getMxCompatibility_state mx_compat_classes v mx_compat_table) as Hst.
    rewrite H in Hst. cbn [snd] in Hst.
    rewrite (ensureCompatLoaded_again _ _ mx_compat_build) in Hst. exact Hst. }
  subst vm. apply (resolves_at_result _ _ _ _ mx_compat_build H).
Qed.

Lemma mx_compat_accessors_checked :
  forallb
    (fun e =>
       forallb
         (fun m => match snd m with
                   | Return v0 =>
                       match call (snd e) (fst m) [] with
                       | Ok val => same_kind val v0
                       | Raise _ => false
                       end
                   | _ => true
                   end)
         (own_methods MxCompatibility500)
       && match getattr (class_of (snd e)) "getSuiteOutputRoot" with
          | Some ReturnSuiteDir => true
          | Some (ReturnSuiteDirJoin s) => String.eqb s "mxbuild"
          | _ => false
          end
       && forallb
            (fun n => match assoc n (own_methods MxCompatibility500) with
                      | Some _ => true
                      | None => false
                      end)
            (accessors (class_of (snd e))))
    mx_compat_table = true.
Proof. vm_compute. reflexivity. Qed.

(** X9. Every profile [getMxCompatibility] returns for the module, for
    whatever query, answers each accessor of [MxCompatibility500] with a
    value of the same type as [MxCompatibility500] does, gives [suite.dir]
    or [join(suite.dir, 'mxbuild')] as output root, and has no accessor
    that [MxCompatibility500] lacks. *)
Theorem X9_profiles_answer_the_same_accessors :
  forall (v : VersionSpec) (p : instance) (vm : OrderedDict),
    getMxCompatibility mx_compat_classes v [] = (Ok (Some p), vm) ->
    (forall (attr : string) (v0 : value),
        assoc attr (own_methods MxCompatibility500) = Some (Return v0) ->
        exists val, call p attr [] = Ok val /\ same_kind val v0 = true) /\
    (forall dir : string,
        call p "getSuiteOutputRoot" [VStr dir] = Ok (VStr dir) \/
        call p "getSuiteOutputRoot" [VStr dir] = Ok (VPath [dir; "mxbuild"])) /\
    (forall (attr : string) (f : body),
        getattr (class_of p) attr = Some f ->
        exists f0, assoc attr (own_methods MxCompatibility500) = Some f0).
Proof.
  intros v p vm Hres.
  destruct (mx_compat_resolved _ _ _ Hres) as (i & k & Hi & _).
  apply nth_error_In in Hi.
  pose proof mx_compat_accessors_checked as Hall.
  rewrite forallb_forall in Hall. specialize (Hall _ Hi). cbn [snd] in Hall.
  apply andb_prop in Hall. destruct Hall as [Hall H3].
  apply andb_prop in Hall. destruct Hall as [H1 H2].
  split; [|split].
  - intros attr v0 Hattr. apply assoc_In in Hattr.
    rewrite forallb_forall in H1. specialize (H1 _ Hattr). cbn [fst snd] in H1.
    destruct (call p attr []) as [val|e]; [|discriminate].
    exists val. split; [reflexivity|exact H1].
  - intros dir. clear H1 H3 Hi. unfold call.
    destruct (getattr (class_of p) "getSuiteOutputRoot") as [f|]; [|discriminate H2].
    destruct f as [val| |s]; [discriminate H2| |].
    + left. reflexivity.
    + apply String.eqb_eq in H2. subst s. right. reflexivity.
  - intros attr f Hf. apply getattr_accessors in Hf.
    rewrite forallb_forall in H3. specialize (H3 _ Hf).
    destruct (assoc attr (own_methods MxCompatibility500)) as [f0|]; [|discriminate].
    exists f0. reflexivity.
Qed.

Lemma X9_witness :
  exists val,
    call (Instance MxCompatibility5680) "checkstyleVersion" [] = Ok val /\
    same_kind val (VStr "6.0") = true.
Proof.
  apply (proj1 (X9_profiles_answer_the_same_accessors
                  (Version.Make [5; 100]%N) (Instance MxCompatibility5680)
                  mx_compat_table ltac:(vm_compute; reflexivity))
               "checkstyleVersion" (VStr "6.0")).
  reflexivity.
Defined.






(** ** bisect_right on every list *)

Lemma bisect_loop_bounds (a : list VersionSpec) (x : VersionSpec) (lo hi : nat) :
  lo <= hi -> hi <= List.length a ->
  exists r, bisect_loop a x lo hi = Ok r /\ lo <= r <= hi.
Proof.
  funelim (bisect_loop a x lo hi); intros Hle Hlen.
  all: try match goal with Hlt : ?p < ?q |- _ => pose proof (mid_bounds Hlt) as Hmid end.
  - exists lo. split; [reflexivity|lia].
  - match goal with E : nth_error _ _ = None |- _ => apply nth_error_None in E end.
    lia.
  - match goal with
    | IH : _ -> _ -> exists r, _ |- _ => destruct IH as (r & Hr & Hb); try lia
    end.
    exists r. split; [exact Hr|lia].
  - match goal with
    | IH : _ -> _ -> exists r, _ |- _ => destruct IH as (r & Hr & Hb); try lia
    end.
    exists r. split; [exact Hr|lia].
Qed.

Lemma filter_length_split {A : Type} (f : A -> bool) (a : list A) :
  forall r : nat,
    r <= List.length a ->
    (forall i y, i < r -> nth_error a i = Some y -> f y = true) ->
    (forall i y, r <= i -> nth_error a i = Some y -> f y = false) ->
    List.length (filter f a) = r.
Proof.
  induction a as [|x a IH]; intros r Hr Hlow Hhigh.
  - cbn in Hr. cbn. lia.
  - destruct r as [|r].
    + cbn. rewrite (Hhigh 0 x (Nat.le_refl 0) eq_refl).
      apply (IH 0); [lia|intros i y Hi; lia|].
      intros i y _ Hy. apply (Hhigh (S i) y); [lia|exact Hy].
    + cbn. rewrite (Hlow 0 x (Nat.lt_0_succ r) eq_refl). cbn. f_equal.
      apply (IH r); [cbn in Hr; lia| |].
      * intros i y Hi Hy. apply (Hlow (S i) y); [lia|exact Hy].
      * intros i y Hi Hy. apply (Hhigh (S i) y); [lia|exact Hy].
Qed.

(** X11. [bisect_right(a, x)] raises on no list, ascending or not, and
    returns a position between 0 and [len(a)]; on a strictly ascending
    list this is the number of elements that are not above [x]. *)
Theorem X11_bisect_right_safe :
  forall (a : list VersionSpec) (x : VersionSpec),
    (exists r, bisect_right a x = Ok r /\ r <= List.length a) /\
    (strictly_ascending a = true ->
     bisect_right a x = Ok (List.length (filter (fun y => negb (x <? y)%version) a))).
Proof.
  intros a x. split.
  - destruct (bisect_loop_bounds a x 0 (List.length a)) as (r & Hr & Hb); try lia.
    exists r. split; [exact Hr|lia].
  - intros Hasc.
    destruct (bisect_right_spec a x Hasc) as (r & Hr & Hlen & Hlow & Hhigh).
    rewrite Hr. f_equal. symmetry. apply filter_length_split; [exact Hlen| |].
    + intros i y Hi Hy. rewrite (Hlow i y Hi Hy). reflexivity.
    + intros i y Hi Hy. rewrite (Hhigh i y Hi Hy). reflexivity.
Qed.

Lemma X11_witness :
  bisect_right (keys mx_compat_table) (Version.Make [5; 7]%N) = Ok 8.
Proof.
  rewrite (proj2 (X11_bisect_right_safe (keys mx_compat_table) (Version.Make [5; 7]%N))).
  - vm_compute. reflexivity.
  - vm_compute. reflexivity.
Defined.

(** ** Ladders declared in a module *)

Lemma methods_eqb_eq (l m : list (string * body)) : methods_eqb l m = true <-> l = m.
Proof.
  revert m. induction l as [|[a f] l IH]; intros [|[b g] m]; cbn;
    try (split; [discriminate|congruence]); [split; reflexivity|].
  rewrite !andb_true_iff, String.eqb_eq, body_eqb_eq, IH. split.
  - intros [[-> ->] ->]. reflexivity.
  - intros [= -> -> ->]. auto.
Qed.

Lemma own_version_eqb_eq (v w : option VersionSpec) : own_version_eqb v w = true <-> v = w.
Proof.
  destruct v as [[a]|], w as [[b]|]; unfold own_version_eqb; cbn [Version.parts];
    try (split; [discriminate|congruence]).
  - destruct (list_eq_dec N.eq_dec a b) as [Hab|Hne].
    + subst b. split; reflexivity.
    + split; [discriminate|]. intros H. injection H as H. contradiction.
  - split; reflexivity.
Qed.

Lemma class_eqb_eq (c d : pyclass) : class_eqb c d = true <-> c = d.
Proof.
  revert d. induction c as [|m n b IH v ms]; intros [|m' n' b' v' ms']; cbn;
    try (split; [discriminate|congruence]); [split; reflexivity|].
  rewrite !andb_true_iff, !String.eqb_eq, IH, own_version_eqb_eq, methods_eqb_eq. split.
  - intros [[[[-> ->] ->] ->] ->]. reflexivity.
  - intros [= -> -> -> -> ->]. auto.
Qed.

Lemma class_eqb_refl (c : pyclass) : class_eqb c c = true.
Proof. apply class_eqb_eq. reflexivity. Qed.

Lemma class_eqb_neq (c d : pyclass) : c <> d -> class_eqb c d = false.
Proof.
  intros H. destruct (class_eqb c d) eqn:E; [|reflexivity].
  apply class_eqb_eq in E. congruence.
Qed.

Lemma class_in_In (c : pyclass) (l : list pyclass) : class_in c l = true <-> In c l.
Proof.
  unfold class_in. rewrite existsb_exists. split.
  - intros (x & Hx & E). apply class_eqb_eq in E. subst x. exact Hx.
  - intros H. exists c. split; [exact H|apply class_eqb_refl].
Qed.

Lemma class_eq_dec (c d : pyclass) : {c = d} + {c <> d}.
Proof.
  destruct (class_eqb c d) eqn:E.
  - left. apply class_eqb_eq. exact E.
  - right. intros ->. rewrite class_eqb_refl in E. discriminate.
Qed.

(** The dictionary after [children[parent].append(c)]. *)
Lemma children_get_add (children : children_map) (parent c q : pyclass) :
  children_get (children_add children parent c) q =
    if class_eqb parent q
    then Some match children_get children q with
              | Some cs => if class_in c cs then cs else cs ++ [c]
              | None => [c]
              end
    else children_get children q.
Proof.
  induction children as [|[p cs] rest IH]; cbn [children_add children_get].
  - destruct (class_eqb parent q); reflexivity.
  - destruct (class_eq_dec p parent) as [->|Hne].
    + rewrite class_eqb_refl. cbn [children_get].
      destruct (class_eqb parent q); reflexivity.
    + rewrite (class_eqb_neq _ _ Hne). cbn [children_get].
      destruct (class_eq_dec p q) as [->|Hpq].
      * rewrite class_eqb_refl.
        assert (Hqp : class_eqb parent q = false)
          by (apply class_eqb_neq; congruence).
        rewrite Hqp. reflexivity.
      * rewrite (class_eqb_neq _ _ Hpq). exact IH.
Qed.

Lemma children_keys_add (children : children_map) (parent c : pyclass) :
  map fst (children_add children parent c) =
    if class_in parent (map fst children)
    then map fst children
    else map fst children ++ [parent].
Proof.
  induction children as [|[p cs] rest IH]; cbn [children_add map fst]; [reflexivity|].
  unfold class_in. cbn [existsb]. fold (class_in parent (map fst rest)).
  destruct (class_eq_dec p parent) as [->|Hne].
  - rewrite class_eqb_refl. reflexivity.
  - rewrite (class_eqb_neq _ _ Hne).
    assert (Hne' : class_eqb parent p = false) by (apply class_eqb_neq; congruence).
    rewrite Hne'. cbn [map fst orb]. rewrite IH.
    destruct (class_in parent (map fst rest)); reflexivity.
Qed.

Lemma children_get_None (children : children_map) (q : pyclass) :
  children_get children q = None <-> ~ In q (map fst children).
Proof.
  induction children as [|[p cs] rest IH]; cbn [children_get map fst].
  - split; [intros _ []|reflexivity].
  - destruct (class_eq_dec p q) as [->|Hne].
    + rewrite class_eqb_refl. split; [discriminate|]. intros H. exfalso. apply H.
      left. reflexivity.
    + rewrite (class_eqb_neq _ _ Hne), IH. split.
      * intros H [Heq|Hin]; [congruence|]. apply (H Hin).
      * intros H Hin. apply H. right. exact Hin.
Qed.

Lemma bases_depth (c b : pyclass) :
  class_bases c = [b] -> class_depth c = S (class_depth b).
Proof. destruct c; cbn; [discriminate|]. intros [= ->]. reflexivity. Qed.

Lemma ladder_depth (chain : list pyclass) :
  forall (b : pyclass) (i : nat) (c : pyclass),
    is_ladder b chain -> nth_error chain i = Some c ->
    class_depth c = class_depth b + S i.
Proof.
  induction chain as [|x chain IH]; intros b i c Hl Hi; [destruct i; discriminate|].
  destruct Hl as [Hb Hl]. destruct i as [|i]; cbn in Hi.
  - injection Hi as ->. rewrite (bases_depth _ _ Hb). lia.
  - rewrite (IH x i c Hl Hi), (bases_depth _ _ Hb). lia.
Qed.

(** Two classes of a ladder with the same base are the same class. *)
Lemma ladder_unique (b : pyclass) (chain : list pyclass) (c d q : pyclass) :
  is_ladder b chain -> In c chain -> In d chain ->
  class_bases c = [q] -> class_bases d = [q] -> c = d.
Proof.
  intros Hl Hc Hd Hcq Hdq.
  destruct (In_nth_error _ _ Hc) as (i & Hi). destruct (In_nth_error _ _ Hd) as (j & Hj).
  pose proof (ladder_depth _ _ _ _ Hl Hi) as Di.
  pose proof (ladder_depth _ _ _ _ Hl Hj) as Dj.
  rewrite (bases_depth _ _ Hcq) in Di. rewrite (bases_depth _ _ Hdq) in Dj.
  assert (i = j) by lia. subst j. congruence.
Qed.

(** The base of a class of a ladder is the class before it, or the foot. *)
Lemma ladder_base (chain : list pyclass) :
  forall (b c q : pyclass),
    is_ladder b chain -> In c chain -> class_bases c = [q] -> q = b \/ In q chain.
Proof.
  induction chain as [|x chain IH]; intros b c q Hl Hc Hq; [destruct Hc|].
  destruct Hl as [Hb Hl]. destruct Hc as [->|Hc].
  - left. congruence.
  - destruct (IH x c q Hl Hc Hq) as [->|Hin]; right; [left; reflexivity|right; exact Hin].
Qed.

Lemma ladder_has_base (chain : list pyclass) :
  forall (b c : pyclass), is_ladder b chain -> In c chain -> exists q, class_bases c = [q].
Proof.
  induction chain as [|x chain IH]; intros b c Hl Hc; [destruct Hc|].
  destruct Hl as [Hb Hl]. destruct Hc as [->|Hc]; [exists b; exact Hb|].
  apply (IH x c Hl Hc).
Qed.

Section Ladder.

Variable foot : pyclass.
Variable chain : list pyclass.
Hypothesis Hladder : is_ladder foot chain.

Lemma children_of_ladder_add (done : list pyclass) (children : children_map)
      (c b : pyclass) :
  incl done chain -> In c chain -> class_bases c = [b] ->
  children_of_ladder done children ->
  children_of_ladder (done ++ [c]) (children_add children b c).
Proof.
  intros Hdone Hc Hb (Hsound & Hcompl & Hnodup).
  assert (Hnew : children_get (children_add children b c) b = Some [c]).
  { rewrite children_get_add, class_eqb_refl.
    destruct (children_get children b) as [cs|] eqn:Hget; [|reflexivity].
    destruct (Hsound _ _ Hget) as (c0 & -> & Hin0 & Hb0).
    rewrite (ladder_unique _ _ _ _ _ Hladder (Hdone _ Hin0) Hc Hb0 Hb).
    unfold class_in. cbn. rewrite class_eqb_refl. reflexivity. }
  assert (Hold : forall q, q <> b ->
                 children_get (children_add children b c) q = children_get children q).
  { intros q Hq. rewrite children_get_add, class_eqb_neq by congruence. reflexivity. }
  split; [|split].
  - intros q cs Hget. destruct (class_eq_dec q b) as [->|Hq].
    + rewrite Hnew in Hget. injection Hget as <-.
      exists c. repeat split; [apply in_or_app; right; left; reflexivity|exact Hb].
    + rewrite (Hold q Hq) in Hget.
      destruct (Hsound _ _ Hget) as (c0 & -> & Hin0 & Hb0).
      exists c0. repeat split; [apply in_or_app; left; exact Hin0|exact Hb0].
  - intros c' q Hin' Hq'. destruct (class_eq_dec q b) as [->|Hq].
    + assert (Hc' : In c' chain).
      { apply in_app_or in Hin'. destruct Hin' as [H|[<-|[]]]; [apply Hdone; exact H|exact Hc]. }
      rewrite (ladder_unique _ _ _ _ _ Hladder Hc' Hc Hq' Hb). exact Hnew.
    + rewrite (Hold q Hq). apply in_app_or in Hin'.
      destruct Hin' as [H|[<-|[]]]; [apply (Hcompl _ _ H Hq')|congruence].
  - rewrite children_keys_add.
    destruct (class_in b (map fst children)) eqn:Hin; [exact Hnodup|].
    apply NoDup_app; [exact Hnodup|constructor; [intros []|constructor]|].
    intros x Hx [<-|[]]. apply class_in_In in Hx. congruence.
Qed.

Lemma class_relations_ladder (classes : list pyclass) :
  incl classes chain ->
  forall (done : list pyclass) (children : children_map),
    incl done chain ->
    children_of_ladder done children ->
    exists children',
      fold_left relations_step classes (children, []) = (children', []) /\
      children_of_ladder (done ++ classes) children'.
Proof.
  induction classes as [|c classes IH]; intros Hcl done children Hdone Hinv.
  - exists children. rewrite app_nil_r. split; [reflexivity|exact Hinv].
  - assert (Hc : In c chain) by (apply Hcl; left; reflexivity).
    destruct (ladder_has_base _ _ _ Hladder Hc) as (b & Hb).
    cbn [fold_left]. unfold relations_step at 2. rewrite Hb. cbn [fold_left].
    destruct (IH (fun x Hx => Hcl x (or_intror Hx)) (done ++ [c])
                 (children_add children b c)) as (children' & Hfold & Hinv').
    + intros x Hx. apply in_app_or in Hx. destruct Hx as [Hx|[<-|[]]];
        [apply Hdone; exact Hx|exact Hc].
    + apply children_of_ladder_add; assumption.
    + exists children'. split; [exact Hfold|].
      rewrite <- app_assoc in Hinv'. exact Hinv'.
Qed.

End Ladder.

Lemma linked_ladder (chain : list pyclass) (children : children_map) :
  children_of_ladder chain children ->
  forall (rest : list pyclass) (q : pyclass),
    is_ladder q rest -> incl rest chain ->
    (forall c, In c chain -> class_depth c <= class_depth q + List.length rest) ->
    linked children q rest.
Proof.
  intros (Hsound & Hcompl & _).
  induction rest as [|c rest IH]; intros q Hl Hin Hdepth.
  - cbn. destruct (children_get children q) as [cs|] eqn:Hget; [|reflexivity].
    destruct (Hsound _ _ Hget) as (c & _ & Hc & Hb).
    specialize (Hdepth c Hc). rewrite (bases_depth _ _ Hb) in Hdepth. cbn in Hdepth. lia.
  - destruct Hl as [Hb Hl]. split.
    + apply Hcompl; [apply Hin; left; reflexivity|exact Hb].
    + apply IH; [exact Hl|intros x Hx; apply Hin; right; exact Hx|].
      intros x Hx. specialize (Hdepth x Hx). rewrite (bases_depth _ _ Hb).
      cbn [List.length] in Hdepth. lia.
Qed.

(** [walktree] along linked classes gives one path, which
    [flattenClassTree] yields to its end. *)
Lemma flatten_walk_linked (children : children_map) :
  forall (rest : list pyclass) (q : pyclass) (fuel : nat),
    linked children q rest ->
    List.length rest < fuel ->
    flattenClassTree (walktree fuel [q] children) = (q :: rest, None).
Proof.
  induction rest as [|c rest IH]; intros q fuel Hlink Hfuel;
    (destruct fuel as [|fuel]; [lia|]).
  - cbn in Hlink. cbn [walktree sort_by insert_sorted flat_map]. rewrite Hlink.
    reflexivity.
  - destruct Hlink as [Hget Hlink].
    cbn [walktree sort_by insert_sorted flat_map]. rewrite Hget.
    cbn [app]. rewrite flattenClassTree_eq.
    rewrite (IH c fuel Hlink); [reflexivity|cbn in Hfuel; lia].
Qed.

Lemma filter_single {A : Type} (f : A -> bool) (x : A) (l : list A) :
  NoDup l -> In x l -> f x = true -> (forall y, In y l -> y <> x -> f y = false) ->
  filter f l = [x].
Proof.
  induction l as [|y l IH]; intros Hnd Hin Hx Hothers; [destruct Hin|].
  inversion Hnd as [|? ? Hy Hnd']; subst. cbn [filter]. destruct Hin as [->|Hin].
  - rewrite Hx. f_equal. apply filter_none. intros z Hz. apply Hothers; [right; exact Hz|].
    intros ->. contradiction.
  - rewrite (Hothers y (or_introl eq_refl)) by (intros ->; contradiction).
    apply IH; [exact Hnd'|exact Hin|exact Hx|].
    intros z Hz. apply Hothers. right. exact Hz.
Qed.

(** The tree of a ladder above [object], in whatever order and however
    often its classes are listed, is flattened to [object] and the ladder,
    base first. *)
Lemma flatten_ladder (classes chain : list pyclass) :
  chain <> [] ->
  is_ladder object chain ->
  (forall c, In c classes <-> In c chain) ->
  flattenClassTree (getclasstree classes) = (object :: chain, None).
Proof.
  intros Hne Hladder Hsame.
  destruct (class_relations_ladder object chain Hladder classes
              (fun c Hc => proj1 (Hsame c) Hc) [] [])
    as (children & Hfold & Hinv).
  { intros x []. }
  { split; [discriminate|]. split; [intros c q []|constructor]. }
  cbn [app] in Hinv.
  assert (Hinv' : children_of_ladder chain children).
  { destruct Hinv as (Hsound & Hcompl & Hnodup). split; [|split; [|exact Hnodup]].
    - intros q cs Hget. destruct (Hsound _ _ Hget) as (c & Hcs & Hc & Hb).
      exists c. repeat split; [exact Hcs|apply Hsame; exact Hc|exact Hb].
    - intros c q Hc Hb. apply Hcompl; [apply Hsame; exact Hc|exact Hb]. }
  destruct Hinv' as (Hsound & Hcompl & Hnodup).
  assert (Hrel : class_relations classes = (children, [])) by exact Hfold.
  unfold getclasstree, getclasstree_upto. rewrite Hrel. cbn [app].
  assert (Hobj : ~ In object chain).
  { intros Hin. destruct (ladder_has_base _ _ _ Hladder Hin) as (q & Hq). discriminate. }
  assert (Hroots : filter (fun parent => negb (class_in parent classes)) (map fst children)
                   = [object]).
  { apply filter_single; [exact Hnodup| | |].
    - destruct chain as [|c1 rest]; [congruence|]. destruct Hladder as [Hb _].
      destruct (in_dec class_eq_dec object (map fst children)) as [H|H]; [exact H|].
      apply children_get_None in H.
      rewrite (Hcompl c1 object (or_introl eq_refl) Hb) in H. discriminate.
    - destruct (class_in object classes) eqn:E; [|reflexivity].
      apply class_in_In in E. apply Hsame in E. contradiction.
    - intros q Hq Hqo.
      destruct (children_get children q) as [cs|] eqn:Hget;
        [|apply children_get_None in Hget; contradiction].
      destruct (Hsound _ _ Hget) as (c & _ & Hc & Hb).
      destruct (ladder_base _ _ _ _ Hladder Hc Hb) as [->|Hin]; [congruence|].
      apply negb_false_iff. apply class_in_In. apply Hsame. exact Hin. }
  rewrite Hroots.
  assert (Hdepth : forall c, In c chain ->
                             class_depth c <= class_depth object + List.length chain).
  { intros c Hc. destruct (In_nth_error _ _ Hc) as (i & Hi).
    rewrite (ladder_depth _ _ _ _ Hladder Hi).
    assert (i < List.length chain) by (apply nth_error_Some; congruence). lia. }
  apply flatten_walk_linked.
  - apply (linked_ladder chain children); [repeat split; assumption|exact Hladder| |exact Hdepth].
    intros x Hx. exact Hx.
  - assert (Hlast : exists c, nth_error chain (List.length chain - 1) = Some c).
    { destruct (nth_error chain (List.length chain - 1)) as [c|] eqn:E; [exists c; reflexivity|].
      apply nth_error_None in E. destruct chain; [congruence|cbn in E; lia]. }
    destruct Hlast as (c & Hc).
    pose proof (ladder_depth _ _ _ _ Hladder Hc) as Dc.
    pose proof (height_bound classes c
                  (proj2 (Hsame c) (nth_error_In _ _ Hc))) as Hh.
    cbn [class_depth] in Dc. lia.
Qed.

Lemma chain_of_ladder (b : pyclass) (chain : list pyclass) :
  is_ladder b chain -> chain_of chain = chain.
Proof.
  revert b. induction chain as [|c chain IH]; intros b Hl; [reflexivity|].
  destruct Hl as [Hb Hl]. unfold chain_of in *. cbn [filter].
  destruct c; [discriminate|]. cbn. f_equal. apply (IH _ Hl).
Qed.

Lemma same_classes_checked (l1 l2 : list pyclass) :
  forallb (fun c => class_in c l2) l1 && forallb (fun c => class_in c l1) l2 = true ->
  forall c, In c l1 <-> In c l2.
Proof.
  intros H. apply andb_prop in H. destruct H as [H1 H2].
  rewrite forallb_forall in H1, H2.
  intros c. split; intros Hc; apply class_in_In; [apply H1|apply H2]; exact Hc.
Qed.

(** X12. When the classes of the module with a matching name are those of
    a ladder above [object] (listed in whatever order), [flattenClassTree]
    yields [object] and then the ladder, base first, and returns; the build
    succeeds if the versions of the ladder are strictly increasing, with
    the table of these versions and the instances of the classes, and
    fails at the assertion if they are not. *)
Theorem X12_declared_ladder :
  forall (module_classes : list (string * pyclass)) (chain : list pyclass)
         (vs : list VersionSpec),
    chain <> [] ->
    is_ladder object chain ->
    (forall c, In c (matching_classes module_classes) <-> In c chain) ->
    Forall2 (fun c v => class_version c = Ok v) chain vs ->
    flattened module_classes = (object :: chain, None) /\
    declared_chain module_classes = chain /\
    (strictly_ascending vs = true ->
     _ensureCompatLoaded module_classes []
     = (Ok tt, combine vs (map Instance chain))) /\
    (strictly_ascending vs = false ->
     fst (_ensureCompatLoaded module_classes []) = Raise (AssertionError None)).
Proof.
  intros mc chain vs Hne Hladder Hsame Hvs.
  assert (Hflat : flattened mc = (object :: chain, None))
    by (apply flatten_ladder; assumption).
  assert (Hchain : declared_chain mc = chain).
  { unfold declared_chain. rewrite Hflat. cbn [fst]. unfold chain_of. cbn [filter is_object negb].
    apply (chain_of_ladder object). exact Hladder. }
  split; [exact Hflat|]. split; [exact Hchain|].
  rewrite ensureCompatLoaded_fresh, Hflat. cbn [fst snd].
  assert (Hvs' : Forall2 (fun c v => class_version c = Ok v) (chain_of (object :: chain)) vs).
  { unfold chain_of. cbn [filter is_object negb].
    fold (chain_of chain). rewrite (chain_of_ladder object _ Hladder). exact Hvs. }
  split.
  - intros Hup.
    rewrite (build_loop_complete _ None [] vs Hvs' Hup); try reflexivity.
    cbn [app]. unfold chain_of. cbn [filter is_object negb].
    fold (chain_of chain). rewrite (chain_of_ladder object _ Hladder). reflexivity.
  - intros Hdown. apply (build_loop_not_ascending _ _ None [] vs Hvs' Hdown).
Qed.

Lemma X12_witness :
  flattened mx_compat_classes = (object :: mx_compat_ladder, None) /\
  _ensureCompatLoaded mx_compat_classes []
  = (Ok tt, combine (keys mx_compat_table) (map Instance mx_compat_ladder)).
Proof.
  destruct (X12_declared_ladder mx_compat_classes mx_compat_ladder (keys mx_compat_table))
    as (H1 & _ & H3 & _).
  - discriminate.
  - cbn. repeat split.
  - apply same_classes_checked. vm_compute. reflexivity.
  - vm_compute. repeat constructor.
  - split; [exact H1|]. apply H3. vm_compute. reflexivity.
Defined.

(** ** Hierarchies that branch *)

Lemma insert_sorted_In_intro {A : Type} (le : A -> A -> bool) (x : A) (l : list A) (y : A) :
  y = x \/ In y l -> In y (insert_sorted le x l).
Proof.
  induction l as [|z l IH]; cbn.
  - intros [->|[]]. left. reflexivity.
  - destruct (le x z); cbn.
    + intros [->|H]; [left; reflexivity|right; exact H].
    + intros [->|[->|H]]; [right; apply IH; left; reflexivity|left; reflexivity|].
      right. apply IH. right. exact H.
Qed.

Lemma sort_by_In_intro {A : Type} (le : A -> A -> bool) (l : list A) (y : A) :
  In y l -> In y (sort_by le l).
Proof.
  induction l as [|x l IH]; cbn; [auto|].
  intros [->|H]; apply insert_sorted_In_intro; [left; reflexivity|right; apply IH; exact H].
Qed.

Lemma insert_sorted_length {A : Type} (le : A -> A -> bool) (x : A) (l : list A) :
  List.length (insert_sorted le x l) = S (List.length l).
Proof.
  induction l as [|z l IH]; cbn; [reflexivity|].
  destruct (le x z); cbn; [reflexivity|]. rewrite IH. reflexivity.
Qed.

Lemma sort_by_length {A : Type} (le : A -> A -> bool) (l : list A) :
  List.length (sort_by le l) = List.length l.
Proof.
  induction l as [|x l IH]; cbn; [reflexivity|].
  rewrite insert_sorted_length, IH. reflexivity.
Qed.

Lemma walk_entries (fuel : nat) (children : children_map) (l : list pyclass) :
  List.length (filter is_entry (flat_map (walk_class fuel children) l)) = List.length l.
Proof.
  induction l as [|c l IH]; [reflexivity|].
  cbn [flat_map]. rewrite filter_app, length_app, IH.
  unfold walk_class. destruct (children_get children c); reflexivity.
Qed.

Lemma two_members (c1 c2 : pyclass) (cs : list pyclass) :
  c1 <> c2 -> In c1 cs -> In c2 cs -> 2 <= List.length cs.
Proof.
  intros Hne H1 H2. destruct cs as [|x [|y cs]]; cbn in *; try lia; try tauto.
  destruct H1 as [<-|[]], H2 as [<-|[]]. congruence.
Qed.

Lemma relations_cover_add (done : list pyclass) (children : children_map)
      (roots : list pyclass) (c : pyclass) :
  relations_cover done (children, roots) ->
  relations_cover (done ++ [c]) (relations_step (children, roots) c).
Proof.
  intros (Hkids & Hroots). cbn [fst snd] in Hkids, Hroots. unfold relations_step.
  destruct (class_bases c) as [|b [|b2 bs]] eqn:Hb.
  - split; cbn [fst snd].
    + intros c' q Hin Hq. apply in_app_or in Hin.
      destruct Hin as [Hin|[<-|[]]]; [apply (Hkids c' q Hin Hq)|congruence].
    + intros c' Hin Hc'. apply in_app_or in Hin.
      assert (Hgrow : forall x, In x roots ->
                                In x (if class_in c roots then roots else roots ++ [c])).
      { intros x Hx. destruct (class_in c roots); [exact Hx|apply in_or_app; left; exact Hx]. }
      destruct Hin as [Hin|[<-|[]]]; [apply Hgrow; apply (Hroots c' Hin Hc')|].
      destruct (class_in c roots) eqn:E; [apply class_in_In; exact E|].
      apply in_or_app. right. left. reflexivity.
  - split; cbn [fst snd fold_left].
    + intros c' q Hin Hq. rewrite children_get_add.
      apply in_app_or in Hin.
      destruct (class_eq_dec b q) as [->|Hbq].
      * rewrite class_eqb_refl.
        destruct Hin as [Hin|[<-|[]]].
        -- destruct (Hkids c' q Hin Hq) as (cs & Hget & Hcs). rewrite Hget.
           eexists. split; [reflexivity|].
           destruct (class_in c cs); [exact Hcs|apply in_or_app; left; exact Hcs].
        -- destruct (children_get children q) as [cs|]; eexists; (split; [reflexivity|]).
           ++ destruct (class_in c cs) eqn:E; [apply class_in_In; exact E|].
              apply in_or_app. right. left. reflexivity.
           ++ left. reflexivity.
      * rewrite (class_eqb_neq _ _ Hbq).
        destruct Hin as [Hin|[<-|[]]]; [apply (Hkids c' q Hin Hq)|congruence].
    + intros c' Hin Hc'. apply in_app_or in Hin.
      destruct Hin as [Hin|[<-|[]]]; [apply (Hroots c' Hin Hc')|congruence].
  - destruct c; discriminate.
Qed.

Lemma class_relations_cover (classes : list pyclass) :
  relations_cover classes (class_relations classes).
Proof.
  assert (G : forall l done acc,
             relations_cover done acc ->
             relations_cover (done ++ l) (fold_left relations_step l acc)).
  { induction l as [|c l IH]; intros done acc Hacc.
    - rewrite app_nil_r. exact Hacc.
    - cbn [fold_left]. replace (done ++ c :: l) with ((done ++ [c]) ++ l)
        by (rewrite <- app_assoc; reflexivity).
      apply IH. destruct acc as [children roots]. apply relations_cover_add. exact Hacc. }
  apply (G classes [] ([], [])). split; intros c; intros; contradiction.
Qed.

Section Branching.

Variable classes : list pyclass.
Variable children : children_map.
Variable roots : list pyclass.
Hypothesis Hrel : class_relations classes = (children, roots).

Lemma children_sound (q : pyclass) (cs : list pyclass) (c : pyclass) :
  children_get children q = Some cs -> In c cs ->
  In c classes /\ class_depth c = S (class_depth q).
Proof.
  intros Hget Hc. pose proof (class_relations_ok classes) as Hok.
  rewrite Hrel in Hok. cbn [fst] in Hok.
  destruct (children_get_In _ _ _ Hget) as (p & Hp & Hpq).
  apply class_eqb_eq in Hpq. subst p. apply (Hok q cs Hp c Hc).
Qed.

Lemma children_complete (c q : pyclass) :
  In c classes -> class_bases c = [q] ->
  exists cs, children_get children q = Some cs /\ In c cs.
Proof.
  intros Hc Hq. pose proof (class_relations_cover classes) as [Hkids _].
  rewrite Hrel in Hkids. apply (Hkids c q Hc Hq).
Qed.

(** A class with two children in the dictionary. *)
Lemma branching_here (b : pyclass) (cs : list pyclass) :
  children_get children b = Some cs -> 2 <= List.length cs ->
  (exists c, In c cs) ->
  leads_to_branching classes children b.
Proof.
  intros Hget Htwo (c & Hc) fuel l Hfuel Hin.
  destruct (children_sound _ _ _ Hget Hc) as [Hcin Hd].
  pose proof (height_bound _ _ Hcin) as Hh.
  destruct fuel as [|[|fuel]]; try lia.
  rewrite walktree_S. apply existsb_exists.
  exists (Nested (walktree (S fuel) cs children)). split.
  - apply in_flat_map. exists b. split; [apply sort_by_In_intro; exact Hin|].
    unfold walk_class. rewrite Hget. right. left. reflexivity.
  - cbn [item_branching]. rewrite walktree_S, walk_entries, sort_by_length.
    apply orb_true_intro. left. apply Nat.leb_le. exact Htwo.
Qed.

(** From a child to its parent. *)
Lemma branching_above (q' q : pyclass) (cs : list pyclass) :
  children_get children q' = Some cs -> In q cs ->
  leads_to_branching classes children q ->
  leads_to_branching classes children q'.
Proof.
  intros Hget Hq Hbelow fuel l Hfuel Hin.
  destruct (children_sound _ _ _ Hget Hq) as [Hqin Hd].
  pose proof (height_bound _ _ Hqin) as Hh.
  destruct fuel as [|fuel]; try lia.
  rewrite walktree_S. apply existsb_exists.
  exists (Nested (walktree fuel cs children)). split.
  - apply in_flat_map. exists q'. split; [apply sort_by_In_intro; exact Hin|].
    unfold walk_class. rewrite Hget. right. left. reflexivity.
  - cbn [item_branching]. apply orb_true_intro. right.
    apply Hbelow; [lia|exact Hq].
Qed.

(** Up to a root. *)
Lemma branching_at_root (q : pyclass) :
  In q (map fst children) ->
  leads_to_branching classes children q ->
  exists r, In r (final_roots classes children roots) /\ leads_to_branching classes children r.
Proof.
  induction q as [|m n b IH v ms]; intros Hkey Hq.
  - exists object. split; [|exact Hq]. unfold final_roots.
    destruct (in_dec class_eq_dec object classes) as [Hin|Hout].
    + apply in_or_app. left.
      pose proof (class_relations_cover classes) as [_ Hroots].
      rewrite Hrel in Hroots. apply (Hroots object Hin). reflexivity.
    + apply in_or_app. right. apply filter_In. split; [exact Hkey|].
      apply negb_true_iff. destruct (class_in object classes) eqn:E; [|reflexivity].
      apply class_in_In in E. contradiction.
  - set (q := Class m n b v ms) in *.
    destruct (in_dec class_eq_dec q classes) as [Hin|Hout].
    + destruct (children_complete q b Hin eq_refl) as (cs & Hget & Hcs).
      apply IH.
      * destruct (in_dec class_eq_dec b (map fst children)) as [H|H]; [exact H|].
        apply children_get_None in H. congruence.
      * apply (branching_above b q cs Hget Hcs Hq).
    + exists q. split; [|exact Hq]. unfold final_roots.
      apply in_or_app. right. apply filter_In. split; [exact Hkey|].
      apply negb_true_iff. destruct (class_in q classes) eqn:E; [|reflexivity].
      apply class_in_In in E. contradiction.
Qed.

End Branching.

(** Two classes with the same base make the tree branch. *)
Lemma getclasstree_branching (classes : list pyclass) (c1 c2 b : pyclass) :
  In c1 classes -> In c2 classes -> c1 <> c2 ->
  class_bases c1 = [b] -> class_bases c2 = [b] ->
  branching (getclasstree classes) = true.
Proof.
  intros H1 H2 Hne Hb1 Hb2.
  destruct (class_relations classes) as [children roots] eqn:Hrel.
  destruct (children_complete classes children roots Hrel c1 b H1 Hb1) as (cs & Hget & Hc1).
  destruct (children_complete classes children roots Hrel c2 b H2 Hb2) as (cs' & Hget' & Hc2).
  assert (cs' = cs) by congruence. subst cs'.
  pose proof (branching_here classes children roots Hrel b cs Hget
                (two_members _ _ _ Hne Hc1 Hc2) (ex_intro _ c1 Hc1)) as Hb.
  assert (Hkey : In b (map fst children)).
  { destruct (in_dec class_eq_dec b (map fst children)) as [H|H]; [exact H|].
    apply children_get_None in H. congruence. }
  destruct (branching_at_root classes children roots Hrel b Hkey Hb) as (r & Hr & Hroot).
  unfold branching, getclasstree, getclasstree_upto. rewrite Hrel.
  apply Hroot; [|exact Hr].
  destruct r; cbn [class_depth]; lia.
Qed.

(** X13. When two different classes of the module with a matching name
    have the same base, the class tree branches, [flattenClassTree] ends
    with an [AssertionError], and [_ensureCompatLoaded] raises. *)
Theorem X13_common_base_is_refused :
  forall (module_classes : list (string * pyclass)) (c1 c2 b : pyclass),
    In c1 (matching_classes module_classes) ->
    In c2 (matching_classes module_classes) ->
    c1 <> c2 ->
    class_bases c1 = [b] -> class_bases c2 = [b] ->
    branching (getclasstree (matching_classes module_classes)) = true /\
    (exists m, snd (flattened module_classes) = Some (AssertionError m)) /\
    (exists e, fst (_ensureCompatLoaded module_classes []) = Raise e).
Proof.
  intros mc c1 c2 b H1 H2 Hne Hb1 Hb2.
  pose proof (getclasstree_branching _ c1 c2 b H1 H2 Hne Hb1 Hb2) as Hbr.
  split; [exact Hbr|].
  destruct (flatten_branching _ Hbr) as [(e & He) Hwf].
  assert (Hshape : well_formed (getclasstree (matching_classes mc)) = true).
  { apply getclasstree_well_formed. intros Hnil. rewrite Hnil in Hbr. discriminate. }
  split; [apply Hwf; exact Hshape|].
  rewrite ensureCompatLoaded_fresh. unfold flattened. rewrite He. apply build_loop_stop.
Qed.

Lemma X13_witness :
  exists e, fst (_ensureCompatLoaded forked_classes []) = Raise e.
Proof.
  apply (X13_common_base_is_refused forked_classes Fork510 Fork520 Fork500).
  - vm_compute. right. left. reflexivity.
  - vm_compute. right. right. left. reflexivity.
  - discriminate.
  - reflexivity.
  - reflexivity.
Defined.

(** ** Queries that compare alike *)

Lemma bisect_loop_step (a : list VersionSpec) (x : VersionSpec) (lo hi : nat) :
  bisect_loop a x lo hi =
    if lt_dec lo hi then
      match nth_error a ((lo + hi) / 2) with
      | None => Raise IndexError
      | Some y =>
          if (x <? y)%version
          then bisect_loop a x lo ((lo + hi) / 2)
          else bisect_loop a x ((lo + hi) / 2 + 1) hi
      end
    else Ok lo.
Proof.
  funelim (bisect_loop a x lo hi);
    repeat match goal with
      | E : lt_dec _ _ = _ |- _ => rewrite E; clear E
      | E : nth_error _ _ = _ |- _ => rewrite E; clear E
      | E : (_ <? _)%version = _ |- _ => rewrite E; clear E
      end; reflexivity.
Qed.

Lemma bisect_loop_alike (a : list VersionSpec) (v w : VersionSpec) (lo hi : nat) :
  (forall y, In y a -> (v <? y)%version = (w <? y)%version) ->
  bisect_loop a v lo hi = bisect_loop a w lo hi.
Proof.
  intros Hvw. funelim (bisect_loop a v lo hi);
    rewrite (bisect_loop_step a w);
    repeat match goal with
      | E : lt_dec _ _ = _ |- _ => rewrite E; clear E
      end; try reflexivity.
  - match goal with E : nth_error _ _ = None |- _ => rewrite E end. reflexivity.
  - match goal with E : nth_error _ _ = Some _ |- _ =>
      rewrite E; rewrite <- (Hvw _ (nth_error_In _ _ E)) end.
    match goal with E : (_ <? _)%version = true |- _ => rewrite E end.
    match goal with
    | IH : context [bisect_loop _ _ _ _ = bisect_loop _ _ _ _] |- _ => apply IH; exact Hvw
    end.
  - match goal with E : nth_error _ _ = Some _ |- _ =>
      rewrite E; rewrite <- (Hvw _ (nth_error_In _ _ E)) end.
    match goal with E : (_ <? _)%version = false |- _ => rewrite E end.
    match goal with
    | IH : context [bisect_loop _ _ _ _ = bisect_loop _ _ _ _] |- _ => apply IH; exact Hvw
    end.
Qed.

(** Versions that compare equal compare alike with every version. *)
Lemma ltb_alike (v w y : VersionSpec) :
  (v =? w)%version = true -> (v <? y)%version = (w <? y)%version.
Proof.
  rewrite VersionFacts.eqb_ltb. intros H. apply andb_prop in H. destruct H as [H1 H2].
  apply negb_true_iff in H1, H2.
  destruct (v <? y)%version eqn:Hv, (w <? y)%version eqn:Hw; try reflexivity.
  - rewrite (VersionFacts.le_ltb_trans _ _ _ H1 Hv) in Hw. discriminate.
  - rewrite (VersionFacts.le_ltb_trans _ _ _ H2 Hw) in Hv. discriminate.
Qed.

Lemma getMxCompatibility_unfold (module_classes : list (string * pyclass))
      (version : VersionSpec) (vm : OrderedDict) :
  getMxCompatibility module_classes version vm =
    match minVersion module_classes vm with
    | (Raise e, tbl) => (Raise e, tbl)
    | (Ok least, tbl) =>
        if (version <? least)%version then (Ok None, tbl)
        else match bisect_right (keys tbl) version with
             | Raise e => (Raise e, tbl)
             | Ok i =>
                 match list_index (keys tbl) (Z.of_nat i - 1) with
                 | Raise e => (Raise e, tbl)
                 | Ok key =>
                     match getitem tbl key with
                     | Raise e => (Raise e, tbl)
                     | Ok q => (Ok (Some q), tbl)
                     end
                 end
             end
    end.
Proof.
  unfold getMxCompatibility. unfold bind at 1.
  destruct (minVersion module_classes vm) as [[least|e] tbl]; [|reflexivity].
  destruct (version <? least)%version; [reflexivity|].
  unfold bind, get_versionsMap, lift, ret.
  destruct (bisect_right _ _); [|reflexivity].
  destruct (list_index _ _); [|reflexivity].
  destruct (getitem _ _); reflexivity.
Qed.

(** X14. [getMxCompatibility] sees its argument only through the
    comparisons [version < key]: two queries that compare alike with every
    key of the table in use get the same answer and leave the same table,
    on first use or later, whether the build succeeds or not. *)
Theorem X14_queries_alike :
  forall (module_classes : list (string * pyclass)) (vm : OrderedDict)
         (v w : VersionSpec),
    (forall y, In y (keys (snd (_ensureCompatLoaded module_classes vm))) ->
               (v <? y)%version = (w <? y)%version) ->
    getMxCompatibility module_classes v vm = getMxCompatibility module_classes w vm.
Proof.
  intros mc vm v w Hvw.
  rewrite !getMxCompatibility_unfold.
  pose proof (minVersion_state mc vm) as Hst.
  destruct (minVersion mc vm) as [[least|e] tbl] eqn:Hmin; [|reflexivity].
  cbn [snd] in Hst. rewrite <- Hst in Hvw.
  destruct (minVersion_inv _ _ _ _ Hmin) as (_ & p0 & rest & Htbl).
  assert (Hleast : (v <? least)%version = (w <? least)%version).
  { apply Hvw. rewrite Htbl. left. reflexivity. }
  rewrite Hleast. destruct (w <? least)%version; [reflexivity|].
  unfold bisect_right.
  rewrite (bisect_loop_alike (keys tbl) v w 0 (List.length (keys tbl)) Hvw).
  reflexivity.
Qed.

Lemma X14_witness :
  getMxCompatibility mx_compat_classes (Version.Make [5; 2]%N) []
  = getMxCompatibility mx_compat_classes (Version.Make [5; 2; 0; 0]%N) [].
Proof.
  apply X14_queries_alike. intros y _. apply ltb_alike. reflexivity.
Defined.

(** X15. Whatever the first call of [_ensureCompatLoaded] does, no entry
    of the table is an instance of [object], and every entry is the
    instance of a class that [flattenClassTree] has yielded. *)
Theorem X15_object_is_not_recorded :
  forall (module_classes : list (string * pyclass)) (r : result unit) (tbl : OrderedDict),
    _ensureCompatLoaded module_classes [] = (r, tbl) ->
    Forall (fun e => is_object (class_of (snd e)) = false /\
                     In (class_of (snd e)) (fst (flattened module_classes))) tbl.
Proof.
  intros mc r tbl Hrun. rewrite ensureCompatLoaded_fresh in Hrun.
  destruct (build_loop_invariant _ _ _ _ _ _ Hrun)
    as (added & recorded & remaining & Htbl & _ & Hch & Hsnd & _); try reflexivity.
  cbn [app] in Htbl. subst added.
  apply Forall_forall. intros e He.
  assert (Hin : In (snd e) (map Instance recorded))
    by (rewrite <- Hsnd; apply in_map; exact He).
  apply in_map_iff in Hin. destruct Hin as (c & Hc & Hrec). rewrite <- Hc. cbn [class_of].
  assert (Hchain : In c (chain_of (fst (flattened mc))))
    by (rewrite Hch; apply in_or_app; left; exact Hrec).
  unfold chain_of in Hchain. apply filter_In in Hchain. destruct Hchain as [Hy Hno].
  split; [apply negb_true_iff; exact Hno|exact Hy].
Qed.

Lemma X15_witness :
  Forall (fun e => is_object (class_of (snd e)) = false /\
                   In (class_of (snd e)) (fst (flattened mx_compat_classes)))
         mx_compat_table.
Proof.
  apply (X15_object_is_not_recorded mx_compat_classes (Ok tt)).
  vm_compute. reflexivity.
Defined.
